(** * Story_cleaner: the normalization engine of [clean_for_snowflake.py]

    A shallow embedding of the engine's decision logic and the properties
    its specification states about it.

    Modelling conventions.

    - Text.  A Python [str] is a sequence of code points; it is modelled by
      [string], one character per code point, for code points below 256.
      [str.strip], [str.lower], [str.isdigit] and the regular-expression
      classes [\s], [\w] and [\d] are given by their tables on that range.
      The three Chinese keywords of [detect_total_rows] have code points
      above 255 and are never a substring of such text.
    - Cells.  A cell read with [dtype=str] is a string or the missing value
      NaN: [cell := option string]; [astype(str)] turns NaN into ["nan"].
    - Frames.  A DataFrame is a list of column labels and a list of rows,
      every row carrying its index label.
    - Ratios.  The source compares quotients of two counts with the literals
      0.3, 0.5, 0.7, 0.9 and percentages with 80 and 90.  They are modelled
      by exact rationals ([Q]); for counts below 2^49 the double-precision
      results of the source agree with the exact comparison.
    - Exceptions.  Code that can raise returns a sum or an option. *)

From Stdlib Require Import ZArith QArith Qround Ascii String DecimalString Lia.
From Stdlib Require DecimalNat DecimalPos.
From stdpp Require Import gmap strings list.

Local Open Scope nat_scope.

(** ** Python text *)

Module PyText.

Definition code (c : ascii) : N := N_of_ascii c.

Definition between (lo hi : N) (c : ascii) : bool :=
  ((lo <=? code c) && (code c <=? hi))%N.

(** [str.isspace] of one character: TAB..CR, FS..US, space, NEL, NBSP. *)
Definition isspace (c : ascii) : bool :=
  between 9 13 c || between 28 32 c || (code c =? 133)%N || (code c =? 160)%N.

(** [str.isdecimal]: the class [\d], and the digits [int] and [float] read. *)
Definition isdecimal (c : ascii) : bool := between 48 57 c.

(** [str.isdigit]: the decimal digits and the superscripts 1, 2, 3. *)
Definition isdigit (c : ascii) : bool :=
  isdecimal c || (code c =? 178)%N || (code c =? 179)%N || (code c =? 185)%N.

Definition isupper_ascii (c : ascii) : bool := between 65 90 c.
Definition islower_ascii (c : ascii) : bool := between 97 122 c.

(** [str.isalnum] of one character. *)
Definition isalnum (c : ascii) : bool :=
  isdecimal c || isupper_ascii c || islower_ascii c
  || (code c =? 170)%N || (code c =? 178)%N || (code c =? 179)%N
  || (code c =? 181)%N || (code c =? 185)%N || (code c =? 186)%N
  || between 188 190 c || between 192 214 c || between 216 246 c
  || between 248 255 c.

(** The class [\w]. *)
Definition isword (c : ascii) : bool := isalnum c || (code c =? 95)%N.

(** [str.lower] of one character. *)
Definition lower_char (c : ascii) : ascii :=
  if isupper_ascii c || between 192 214 c || between 216 222 c
  then ascii_of_N (code c + 32) else c.

Fixpoint lower (s : string) : string :=
  match s with
  | EmptyString => EmptyString
  | String c r => String (lower_char c) (lower r)
  end.

Fixpoint lstrip (s : string) : string :=
  match s with
  | EmptyString => EmptyString
  | String c r => if isspace c then lstrip r else s
  end.

Fixpoint rstrip (s : string) : string :=
  match s with
  | EmptyString => EmptyString
  | String c r =>
      match rstrip r with
      | EmptyString => if isspace c then EmptyString else String c EmptyString
      | t => String c t
      end
  end.

(** [s.strip()] *)
Definition strip (s : string) : string := rstrip (lstrip s).

(** [s.replace(c, '')] for a one-character [c]. *)
Fixpoint remove_char (c : ascii) (s : string) : string :=
  match s with
  | EmptyString => EmptyString
  | String d r =>
      if Ascii.eqb c d then remove_char c r else String d (remove_char c r)
  end.

Fixpoint filter_chars (p : ascii -> bool) (s : string) : string :=
  match s with
  | EmptyString => EmptyString
  | String c r => if p c then String c (filter_chars p r) else filter_chars p r
  end.

Fixpoint forall_chars (p : ascii -> bool) (s : string) : bool :=
  match s with
  | EmptyString => true
  | String c r => p c && forall_chars p r
  end.

(** [re.sub(r"\s+", "_", s)]: every maximal run of whitespace becomes one
    underscore.  [in_run] tells that the previous character was whitespace. *)
Fixpoint sub_spaces (in_run : bool) (s : string) : string :=
  match s with
  | EmptyString => EmptyString
  | String c r =>
      if isspace c
      then (if in_run then sub_spaces true r
            else String "_" (sub_spaces true r))
      else String c (sub_spaces false r)
  end.

(** [needle in hay] *)
Fixpoint contains (needle hay : string) : bool :=
  String.prefix needle hay
  || match hay with
     | EmptyString => false
     | String _ r => contains needle r
     end.

(** [s[:n]] *)
Fixpoint take (n : nat) (s : string) : string :=
  match n, s with
  | S m, String c r => String c (take m r)
  | _, _ => EmptyString
  end.

(** [str(n)] of a non-negative and of an arbitrary integer. *)
Definition str_nat (n : nat) : string := NilEmpty.string_of_uint (Nat.to_uint n).
Definition str_int (z : Z) : string := NilZero.string_of_int (Z.to_int z).

Definition in_list (s : string) (l : list string) : bool :=
  existsb (String.eqb s) l.

(** [sep.join(parts)] *)
Fixpoint join (sep : string) (parts : list string) : string :=
  match parts with
  | [] => ""
  | [x] => x
  | x :: rest => x +:+ sep +:+ join sep rest
  end.

(** *** Numerals: [int(s)] and [float(s)] *)

(** The rule of [int] and [float] for underscores: one is allowed only
    between two decimal digits.  [prev] is the previous character. *)
Fixpoint underscores_ok (prev : ascii) (s : string) : bool :=
  match s with
  | EmptyString => negb (Ascii.eqb prev "_")
  | String c r =>
      (if Ascii.eqb c "_" then isdecimal prev
       else negb (Ascii.eqb prev "_" && negb (isdecimal c)))
      && underscores_ok c r
  end.

(** The leading decimal digits of [s] and what follows them. *)
Fixpoint span_digits (s : string) : string * string :=
  match s with
  | EmptyString => (EmptyString, EmptyString)
  | String c r =>
      if isdecimal c
      then let '(d, t) := span_digits r in (String c d, t)
      else (EmptyString, s)
  end.

Definition digit_value (c : ascii) : Z := Z.of_N (code c - 48).

Fixpoint digits_value_from (acc : Z) (s : string) : Z :=
  match s with
  | EmptyString => acc
  | String c r => digits_value_from (10 * acc + digit_value c) r
  end.

Definition digits_value (s : string) : Z := digits_value_from 0 s.

(** An optional sign: [true] for minus, and the rest. *)
Definition split_sign (s : string) : bool * string :=
  match s with
  | String "-" r => (true, r)
  | String "+" r => (false, r)
  | _ => (false, s)
  end.

Definition signed (neg : bool) (z : Z) : Z := if neg then (- z)%Z else z.

(** [sys.int_info.default_max_str_digits] *)
Definition max_str_digits : nat := 4300.

(** [int(s)] for a string [s]: [None] stands for [ValueError]. *)
Definition py_int (s : string) : option Z :=
  let t := strip s in
  if underscores_ok "000" t then
    let '(neg, body) := split_sign (remove_char "_" t) in
    let '(ds, rest) := span_digits body in
    match ds, rest with
    | String _ _, EmptyString =>
        if String.length ds <=? max_str_digits
        then Some (signed neg (digits_value ds)) else None
    | _, _ => None
    end
  else None.

(** The value [float(s)] denotes before rounding: a decimal fraction, an
    infinity or a NaN. *)
Inductive decimal :=
  | Dec (q : Q)
  | DecInf (neg : bool)
  | DecNaN.

Definition pow10 (e : Z) : Q :=
  if (0 <=? e)%Z then inject_Z (10 ^ e) else 1 # Z.to_pos (10 ^ (- e)).

(** The exponent part: empty, or [e] or [E], an optional sign, digits. *)
Definition parse_exponent (s : string) : option Z :=
  match s with
  | EmptyString => Some 0%Z
  | String c r =>
      if Ascii.eqb c "e" || Ascii.eqb c "E" then
        let '(neg, body) := split_sign r in
        let '(ds, rest) := span_digits body in
        match ds, rest with
        | String _ _, EmptyString => Some (signed neg (digits_value ds))
        | _, _ => None
        end
      else None
  end.

(** The grammar of [float(s)], read exactly; [None] is [ValueError]. *)
Definition parse_decimal (s : string) : option decimal :=
  let t := strip s in
  if underscores_ok "000" t then
    let '(neg, body) := split_sign (remove_char "_" t) in
    let word := lower body in
    if String.eqb word "inf" || String.eqb word "infinity" then Some (DecInf neg)
    else if String.eqb word "nan" then Some DecNaN
    else
      let '(ip, r1) := span_digits body in
      let '(fp, r2) :=
        match r1 with
        | String "." r => span_digits r
        | _ => (EmptyString, r1)
        end in
      match ip +:+ fp with
      | EmptyString => None
      | String _ _ as ds =>
          match parse_exponent r2 with
          | Some e =>
              let m := inject_Z (signed neg (digits_value ds)) in
              Some (Dec (m * pow10 (e - Z.of_nat (String.length fp))))
          | None => None
          end
      end
  else None.

(** Whether [float(s)] returns, which is all the numeric tests of the
    engine look at. *)
Definition float_parses (s : string) : bool :=
  match parse_decimal s with
  | Some _ => true
  | None => false
  end.

(** *** Rounding to a double

    [round_double q] is the binary64 number nearest to [q], ties to even,
    or an infinity when [q] is beyond the range. *)

Inductive double :=
  | Finite (q : Q)
  | Infinite (neg : bool)
  | NotANumber.

(** [floor (log2 (n / d))] for positive [n] and [d]. *)
Definition log2_ratio (n d : Z) : Z :=
  let k := (Z.log2 n - Z.log2 d)%Z in
  if (0 <=? k)%Z
  then (if (d * 2 ^ k <=? n)%Z then k else k - 1)%Z
  else (if (d <=? n * 2 ^ (- k))%Z then k else k - 1)%Z.

(** [n / d] rounded to an integer, ties to even. *)
Definition round_half_even (n d : Z) : Z :=
  let q := (n / d)%Z in
  let r := (n mod d)%Z in
  match (2 * r ?= d)%Z with
  | Lt => q
  | Gt => (q + 1)%Z
  | Eq => if Z.even q then q else (q + 1)%Z
  end.

Definition round_double (q : Q) : double :=
  let n := Z.abs (Qnum q) in
  let d := Zpos (Qden q) in
  if (n =? 0)%Z then Finite 0 else
  let neg := (Qnum q <? 0)%Z in
  let e := Z.max (log2_ratio n d - 52) (-1074) in
  let m :=
    if (0 <=? e)%Z then round_half_even n (d * 2 ^ e)
    else round_half_even (n * 2 ^ (- e)) d in
  if (2 ^ 1024 <=? m * 2 ^ e)%Z then Infinite neg
  else Finite (inject_Z (signed neg m) * (if (0 <=? e)%Z then inject_Z (2 ^ e)
                                          else 1 # Z.to_pos (2 ^ (- e)))).

(** [float(s)] *)
Definition py_float (s : string) : option double :=
  match parse_decimal s with
  | Some (Dec q) => Some (round_double q)
  | Some (DecInf neg) => Some (Infinite neg)
  | Some DecNaN => Some NotANumber
  | None => None
  end.

(** [int(x)] of a double: truncation toward zero; [None] stands for the
    [OverflowError] of an infinity and the [ValueError] of a NaN. *)
Definition int_of_double (x : double) : option Z :=
  match x with
  | Finite q => Some (Z.quot (Qnum q) (Zpos (Qden q)))
  | _ => None
  end.

End PyText.

Import PyText.

(** ** Cells and frames *)

(** What a frame of the engine holds in a cell: text, the missing value NaN
    of the reader, the null [pd.NA] that the sanitizer writes, and the
    booleans of the two tag columns. *)
Inductive cell :=
  | Str (s : string)
  | NaN
  | NA
  | Flag (b : bool).

(** [str(v)], which is also [astype(str)] on one cell. *)
Definition astype_str (v : cell) : string :=
  match v with
  | Str s => s
  | NaN => "nan"
  | NA => "<NA>"
  | Flag true => "True"
  | Flag false => "False"
  end.

(** [safe_isna], [safe_notna] and [safe_str_strip] on one cell. *)
Definition safe_isna (v : cell) : bool :=
  match v with
  | NaN | NA => true
  | _ => false
  end.

Definition safe_notna (v : cell) : bool := negb (safe_isna v).

Definition safe_str_strip (v : cell) : string := strip (astype_str v).

(** A row with its index label, and a frame: column labels and rows. *)
Record row := { label : nat; cells : list cell }.

Record frame := { columns : list string; rows : list row }.

(** [len(df)], [df.empty], [df.index] *)
Definition len (df : frame) : nat := length (rows df).

Definition empty (df : frame) : bool :=
  match rows df, columns df with
  | [], _ | _, [] => true
  | _, _ => false
  end.

Definition index (df : frame) : list nat := map label (rows df).

(** [df.loc[idx]]: the row labelled [idx], the first one if several are. *)
Definition loc (df : frame) (idx : nat) : list cell :=
  match find (fun r => label r =? idx) (rows df) with
  | Some r => cells r
  | None => []
  end.

(** [df.drop(index=labels)] *)
Definition drop_index (labels : list nat) (df : frame) : frame :=
  {| columns := columns df;
     rows := List.filter (fun r => negb (existsb (Nat.eqb (label r)) labels))
               (rows df) |}.

(** [df.reset_index(drop=True)] *)
Definition reset_index (df : frame) : frame :=
  {| columns := columns df;
     rows := imap (fun i r => {| label := i; cells := cells r |}) (rows df) |}.

(** The position of the first column labelled [name]. *)
Fixpoint column_position (name : string) (cols : list string) : option nat :=
  match cols with
  | [] => None
  | c :: rest =>
      if String.eqb c name then Some 0
      else option_map S (column_position name rest)
  end.

(** The cells of a row with every cell under a column labelled [name]
    replaced by [v]. *)
Fixpoint set_cells (name : string) (v : cell) (cols : list string)
    (cs : list cell) : list cell :=
  match cols, cs with
  | c :: cols', x :: cs' =>
      (if String.eqb c name then v else x) :: set_cells name v cols' cs'
  | _, _ => cs
  end.

(** [df[name] = values], one value per row: an existing label is
    overwritten (at every column that carries it), a new one is appended. *)
Definition set_column (name : string) (values : list cell) (df : frame) : frame :=
  if in_list name (columns df)
  then {| columns := columns df;
          rows := zip_with
                    (fun r v => {| label := label r;
                                   cells := set_cells name v (columns df) (cells r) |})
                    (rows df) values |}
  else {| columns := columns df ++ [name];
          rows := zip_with
                    (fun r v => {| label := label r; cells := cells r ++ [v] |})
                    (rows df) values |}.

(** [df[name] = v] for a scalar [v]. *)
Definition set_column_scalar (name : string) (v : cell) (df : frame) : frame :=
  set_column name (repeat v (len df)) df.

(** [df.loc[idx, name] = v] *)
Definition set_at (idx : nat) (name : string) (v : cell) (df : frame) : frame :=
  {| columns := columns df;
     rows := map (fun r =>
                    if label r =? idx
                    then {| label := label r;
                            cells := set_cells name v (columns df) (cells r) |}
                    else r)
               (rows df) |}.

(** [df[name]] as a list of cells in row order: the first column so
    labelled. *)
Definition get_column (name : string) (df : frame) : option (list cell) :=
  match column_position name (columns df) with
  | Some i => Some (map (fun r => nth i (cells r) NaN) (rows df))
  | None => None
  end.

(** The quotient of two counts, used where the source has checked that
    the divisor is positive. *)
Definition ratio (a b : nat) : Q := Z.of_nat a # Pos.of_nat b.

Definition of_count (n : nat) : Q := inject_Z (Z.of_nat n).

(** ** Identifier Normalizer *)

(** [SQL_RESERVED_WORDS] *)
Definition SQL_RESERVED_WORDS : gset string :=
  list_to_set
  [ "all"; "alter"; "and"; "any"; "as"; "asc"; "between"; "by"; "case"; "cast";
    "check"; "column"; "connect"; "constraint"; "create"; "cross"; "current";
    "current_date"; "current_time"; "current_timestamp"; "database"; "delete";
    "desc"; "distinct"; "drop"; "else"; "end"; "exists"; "false"; "following";
    "for"; "from"; "full"; "grant"; "group"; "having"; "in"; "increment";
    "inner"; "insert"; "intersect"; "into"; "is"; "join"; "lateral"; "left";
    "like"; "localtime"; "localtimestamp"; "minus"; "natural"; "not"; "null";
    "of"; "on"; "or"; "order"; "organization"; "outer"; "over"; "partition";
    "preceding"; "primary"; "range"; "references"; "revoke"; "right"; "rlike";
    "row"; "rows"; "sample"; "select"; "set"; "some"; "start"; "table";
    "tablesample"; "then"; "to"; "trigger"; "true"; "union"; "unique";
    "update"; "using"; "values"; "view"; "when"; "whenever"; "where"; "with" ].

(** Step 1 of [normalise_headers], on one header: [astype(str)], [strip],
    [lower], whitespace runs to ["_"], characters outside [\w] removed. *)
Definition clean_header (h : cell) : string :=
  filter_chars isword (sub_spaces false (lower (strip (astype_str h)))).

(** Step 2: the loop that names empty headers, with its counter. *)
Fixpoint name_unnamed (unnamed_counter : nat) (clean : list string)
  : list string :=
  match clean with
  | [] => []
  | val :: rest =>
      if String.eqb val "" || String.eqb val "nan"
      then ("unnamed_col_" +:+ str_nat unnamed_counter)
             :: name_unnamed (S unnamed_counter) rest
      else val :: name_unnamed unnamed_counter rest
  end.

Definition starts_with_digit (header : string) : bool :=
  match header with
  | EmptyString => false
  | String c _ => isdigit c
  end.

(** The length check of steps 3 and 4: [h[:252] + "..."] beyond 255. *)
Definition cap_length (header : string) : string :=
  if 255 <? String.length header then take 252 header +:+ "..." else header.

(** Step 3, the body of the loop over [clean_list]. *)
Definition sql_safe (header : string) : string :=
  let header :=
    if starts_with_digit header then "col_" +:+ header else header in
  let header :=
    if bool_decide (header ∈ SQL_RESERVED_WORDS)
    then header +:+ "_col" else header in
  cap_length header.

(** Step 4: the state of the uniqueness loop. *)
Record dedup_state := {
  seen : gmap string nat;
  final_headers : list string;
  duplicate_count : nat
}.

Definition dedup_init : dedup_state :=
  {| seen := ∅; final_headers := []; duplicate_count := 0 |}.

(** One iteration of [for header in sql_safe_list]. *)
Definition dedup_step (st : dedup_state) (header : string) : dedup_state :=
  match seen st !! header with
  | Some n =>
      let n' := S n in
      let new_header := cap_length (header +:+ "_" +:+ str_nat n') in
      {| seen := <[header := n']> (seen st);
         final_headers := final_headers st ++ [new_header];
         duplicate_count := S (duplicate_count st) |}
  | None =>
      {| seen := <[header := 1]> (seen st);
         final_headers := final_headers st ++ [header];
         duplicate_count := duplicate_count st |}
  end.

Definition sql_safe_list (headers : list cell) : list string :=
  map sql_safe (name_unnamed 1 (map clean_header headers)).

(** [normalise_headers(headers)]: the identifiers and the number of
    duplicates that were renamed. *)
Definition normalise_headers (headers : list cell) : list string * nat :=
  let st := fold_left dedup_step (sql_safe_list headers) dedup_init in
  (final_headers st, duplicate_count st).

(** ** Noise Row Filter: repeated headers *)

(** [set(str(h).strip().lower() for h in normalized_headers
         if str(h).strip())] *)
Definition header_value_set (normalized_headers : list string) : gset string :=
  list_to_set
    (map (fun h => lower (strip h))
       (List.filter (fun h => negb (String.eqb (strip h) ""))
          normalized_headers)).

(** The loop that builds [row_set]. *)
Definition row_value_set (row_values : list string) : gset string :=
  fold_left
    (fun row_set v =>
       let v_str := strip v in
       if String.eqb v_str "" then row_set else {[ lower v_str ]} ∪ row_set)
    row_values ∅.

(** [position_matches]: the positions where header and row value agree
    after [strip] and [lower]. *)
Definition position_matches (normalized_headers row_values : list string) : nat :=
  length
    (List.filter
       (fun hv => String.eqb (lower (strip (snd hv))) (lower (strip (fst hv))))
       (combine normalized_headers row_values)).

(** The test of one body row of [detect_repeated_headers]. *)
Definition is_repeated_header (normalized_headers : list string)
    (header_set : gset string) (row_data : list cell) : bool :=
  let row_values := map astype_str row_data in
  let row_set := row_value_set row_values in
  if 0 <? size row_set then
    let overlap := size (row_set ∩ header_set) in
    let overlap_ratio := ratio overlap (size row_set) in
    let position_match_ratio :=
      if 0 <? length normalized_headers
      then ratio (position_matches normalized_headers row_values)
             (length normalized_headers)
      else 0%Q in
    Qle_bool (7 # 10) overlap_ratio
    || (Qle_bool (7 # 10) position_match_ratio
        && Qle_bool (of_count (size header_set) * (1 # 2))
             (of_count (size row_set)))
  else false.

(** [detect_repeated_headers(df_data, normalized_headers)] *)
Definition detect_repeated_headers (df_data : frame)
    (normalized_headers : list string) : frame * nat :=
  if empty df_data || (length normalized_headers =? 0) then (df_data, 0)
  else
    let header_set := header_value_set normalized_headers in
    if size header_set =? 0 then (df_data, 0)
    else
      let rows_to_drop :=
        fold_left
          (fun acc idx =>
             if is_repeated_header normalized_headers header_set
                  (loc df_data idx)
             then acc ++ [idx] else acc)
          (index df_data) [] in
      match rows_to_drop with
      | [] => (df_data, 0)
      | _ => (reset_index (drop_index rows_to_drop df_data),
              length rows_to_drop)
      end.

(** ** Noise Row Filter: total rows *)

(** [total_keywords], without the three Chinese variants (see the
    conventions on text). *)
Definition total_keywords : list string :=
  [ "total"; "subtotal"; "grand total"; "grand_total";
    "sum"; "summary"; "totals"; "subtotals" ].

Definition specific_keywords : list string :=
  [ "grand total"; "subtotal"; "grand_total" ].

(** [' '.join(row_parts)]: the stripped, lowercased, non-empty values. *)
Definition row_string (row_data : list cell) : string :=
  join " "
    (map (fun v => lower (safe_str_strip v))
       (List.filter
          (fun v => safe_notna v && negb (String.eqb (safe_str_strip v) ""))
          row_data)).

(** [any(keyword in row_str for keyword in keywords)] *)
Definition any_keyword (keywords : list string) (row_str : string) : bool :=
  existsb (fun keyword => contains keyword row_str) keywords.

(** The numeric test of the engine: [float] of the text without commas,
    dollar and percent signs returns. *)
Definition strip_formatting (s : string) : string :=
  remove_char "%" (remove_char "$" (remove_char "," s)).

Definition looks_numeric (val_str : string) : bool :=
  float_parses (strip_formatting val_str).

(** [non_empty_count] and [numeric_count] of a row. *)
Definition non_empty_values (row_data : list cell) : list string :=
  List.filter (fun val_str => negb (String.eqb val_str ""))
    (map safe_str_strip (List.filter safe_notna row_data)).

Definition non_empty_count (row_data : list cell) : nat :=
  length (non_empty_values row_data).

Definition numeric_count (row_data : list cell) : nat :=
  length (List.filter looks_numeric (non_empty_values row_data)).

Definition mostly_numeric (row_data : list cell) : bool :=
  if 0 <? non_empty_count row_data
  then Qle_bool (7 # 10) (ratio (numeric_count row_data) (non_empty_count row_data))
  else false.

(** [idx >= len(df_data) * 0.9] *)
Definition is_near_end (n idx : nat) : bool :=
  Qle_bool (of_count n * (9 # 10)) (of_count idx).

Definition is_total (row_data : list cell) : bool :=
  any_keyword total_keywords (row_string row_data).

Definition high_confidence (n idx : nat) (row_data : list cell) : bool :=
  any_keyword specific_keywords (row_string row_data)
  && (mostly_numeric row_data || is_near_end n idx).

(** The state of the loop of [detect_total_rows]: the frame it tags, and
    the two lists of labels. *)
Record totals_state := {
  tagged : frame;
  flagged_indices : list nat;
  dropped_indices : list nat
}.

Definition totals_step (st : totals_state) (idx : nat) : totals_state :=
  let row_data := loc (tagged st) idx in
  if is_total row_data then
    {| tagged := set_at idx "__is_total_row" (Flag true) (tagged st);
       flagged_indices := flagged_indices st ++ [idx];
       dropped_indices :=
         if high_confidence (len (tagged st)) idx row_data
         then dropped_indices st ++ [idx] else dropped_indices st |}
  else st.

(** [detect_total_rows(df_data)]: the frame, the number of rows flagged
    and the number of rows dropped. *)
Definition detect_total_rows (df_data : frame) : frame * nat * nat :=
  if empty df_data then (df_data, 0, 0)
  else
    let df0 := set_column_scalar "__is_total_row" (Flag false) df_data in
    let st :=
      fold_left totals_step (index df0)
        {| tagged := df0; flagged_indices := []; dropped_indices := [] |} in
    let df_cleaned :=
      match dropped_indices st with
      | [] => tagged st
      | _ => reset_index (drop_index (dropped_indices st) (tagged st))
      end in
    (df_cleaned, length (flagged_indices st), length (dropped_indices st)).

(** ** Context Filler *)

Definition internal_columns : list string :=
  [ "__possible_duplicate"; "__is_total_row" ].

Definition category_keywords : list string :=
  [ "category"; "group"; "section"; "region"; "department";
    "division"; "type"; "class"; "level"; "hierarchy" ].

(** [blank_count]: the values whose stripped text is one of
    [['', 'nan', 'None', 'null']]. *)
Definition blank_count (series : list string) : nat :=
  length
    (List.filter (fun v => in_list (strip v) [""; "nan"; "None"; "null"])
       series).

(** [series[non_blank_mask]] *)
Definition non_blank (series : list string) : list string :=
  List.filter
    (fun v => negb (String.eqb (strip v) "")
              && negb (String.eqb (strip v) "nan")
              && negb (String.eqb (strip v) "None"))
    series.

(** [non_blank.nunique()] *)
Definition nunique (values : list string) : nat :=
  size (list_to_set values : gset string).

Definition cardinality_ratio (series : list string) : Q :=
  if 0 <? length (non_blank series)
  then ratio (nunique (non_blank series)) (length (non_blank series))
  else 1%Q.

Definition Qlt_bool (x y : Q) : bool := negb (Qle_bool y x).

(** The test [is_context] of one column. *)
Definition is_context (n_rows : nat) (col : string) (series : list string) : bool :=
  let blank_ratio :=
    if 0 <? n_rows then ratio (blank_count series) n_rows else 0%Q in
  let card := cardinality_ratio series in
  let has_category_keyword := any_keyword category_keywords (lower col) in
  (Qle_bool (3 # 10) blank_ratio && Qlt_bool card (2 # 10))
  || (Qlt_bool card (1 # 10) && (0 <? length (non_blank series)))
  || (has_category_keyword
      && (Qle_bool (2 # 10) blank_ratio || Qlt_bool card (3 # 10))).

(** [detect_context_columns(df, normalized_headers)] *)
Definition detect_context_columns (df : frame)
    (normalized_headers : list string) : list string :=
  if empty df || (length normalized_headers =? 0) then []
  else
    List.filter
      (fun col =>
         negb (in_list col internal_columns)
         && match get_column col df with
            | Some col_data => is_context (len df) col (map astype_str col_data)
            | None => false
            end)
      (columns df).

(** The blank test of [fill_down_context], on the stripped text. *)
Definition is_blank (val_str : string) : bool :=
  String.eqb val_str "" || in_list (lower val_str) ["nan"; "none"; "null"].

(** The loop over one column of [fill_down_context]: [series] is what
    remains of the column, [last_value] the last non-blank value seen; the
    result is [filled_series]. *)
Fixpoint fill_series (last_value : option string) (series : list string)
  : list string :=
  match series with
  | [] => []
  | val :: rest =>
      let val_str := strip val in
      if is_blank val_str then
        match last_value with
        | Some v => v :: fill_series last_value rest
        | None => val :: fill_series None rest
        end
      else val_str :: fill_series (Some val_str) rest
  end.

(** The body of [for col in context_columns]. *)
Definition fill_column (df_filled : frame) (col : string) : frame :=
  match get_column col df_filled with
  | Some col_data =>
      set_column col (map Str (fill_series None (map astype_str col_data)))
        df_filled
  | None => df_filled
  end.

(** [fill_down_context(df, context_columns)] *)
Definition fill_down_context (df : frame) (context_columns : list string) : frame :=
  match context_columns with
  | [] => df
  | _ => if empty df then df else fold_left fill_column context_columns df
  end.

(** ** Header Detector and Flattener *)

(** [df.dropna(how="all")]: the rows that have a cell that is not missing
    (none is left when there is no column). *)
Definition dropna_rows (df : frame) : frame :=
  {| columns := columns df;
     rows := List.filter (fun r => existsb safe_notna (cells r)) (rows df) |}.

(** The mask of [df.dropna(axis=1, how="all")]: the column at position [i]
    stays when some row has a value there. *)
Definition column_kept (df : frame) (i : nat) : bool :=
  existsb (fun r => safe_notna (nth i (cells r) NaN)) (rows df).

Definition select_positions {A} (keep : nat -> bool) (l : list A) : list A :=
  map snd (List.filter (fun p => keep (fst p)) (imap (fun i x => (i, x)) l)).

Definition dropna_columns (df : frame) : frame :=
  {| columns := select_positions (column_kept df) (columns df);
     rows := map (fun r => {| label := label r;
                              cells := select_positions (column_kept df) (cells r) |})
               (rows df) |}.

(** [df.replace("", pd.NA)] on one cell. *)
Definition replace_empty (v : cell) : cell :=
  match v with
  | Str EmptyString => NA
  | _ => v
  end.

(** [row.notna().sum()] *)
Definition notna_count (row_data : list cell) : nat :=
  length (List.filter safe_notna row_data).

(** [max(2, int(ncols * 0.3))] *)
Definition min_non_empty (ncols : nat) : nat :=
  Nat.max 2 (Z.to_nat (Qfloor (of_count ncols * (3 # 10)))).

(** The test that lets a row of [df_tmp] into the header band. *)
Definition header_like (min_ne : nat) (row_data : list cell) : bool :=
  let non_empty := notna_count row_data in
  let non_empty_ratio :=
    if 0 <? length row_data then ratio non_empty (length row_data) else 0%Q in
  if (min_ne <=? non_empty) && Qle_bool (3 # 10) non_empty_ratio then
    let numeric :=
      length (List.filter (fun v => looks_numeric (safe_str_strip v))
                (List.filter safe_notna row_data)) in
    let numeric_ratio :=
      if 0 <? non_empty then ratio numeric non_empty else 1%Q in
    Qlt_bool numeric_ratio (1 # 2)
  else false.

(** The loop [for check_depth in range(2, max_depth + 1)], which stops at
    the first row that is absent or not header-like. *)
Fixpoint depth_loop (df_tmp : frame) (min_ne start_idx depth : nat)
    (checks : list nat) : nat :=
  match checks with
  | [] => depth
  | check_depth :: rest =>
      let check_idx := start_idx + check_depth - 1 in
      if existsb (Nat.eqb check_idx) (index df_tmp)
         && header_like min_ne (loc df_tmp check_idx)
      then depth_loop df_tmp min_ne start_idx check_depth rest
      else depth
  end.

(** [detect_header_depth(df)]: the label of the first header row and the
    depth of the band. *)
Definition detect_header_depth (df : frame) : nat * nat :=
  let df_tmp :=
    {| columns := columns df;
       rows := map (fun r => {| label := label r;
                                cells := map replace_empty (cells r) |})
                 (rows df) |} in
  let min_ne := min_non_empty (length (columns df)) in
  match find (fun r => min_ne <=? notna_count (cells r)) (rows df_tmp) with
  | None => (hd 0 (index df), 1)
  | Some r =>
      let start_idx := label r in
      let max_depth := Nat.min 3 (len df_tmp - start_idx) in
      (start_idx,
       depth_loop df_tmp min_ne start_idx 1 (seq 2 (max_depth - 1)))
  end.

(** The parts of one column over the header rows: stripped, non-empty. *)
Definition header_parts (header_rows : list (list cell)) (col_idx : nat)
  : list string :=
  List.filter (fun val_str => negb (String.eqb val_str ""))
    (map safe_str_strip
       (List.filter safe_notna
          (flat_map (fun r => match nth_error r col_idx with
                              | Some v => [v]
                              | None => []
                              end)
             header_rows))).

(** The loop that leaves out a part equal to the one before it. *)
Fixpoint collapse_repeats (prev : option string) (parts : list string)
  : list string :=
  match parts with
  | [] => []
  | part :: rest =>
      (if match prev with
          | Some p => String.eqb part p
          | None => false
          end
       then [] else [part])
      ++ collapse_repeats (Some part) rest
  end.

(** [flatten_multirow_headers(df, start_idx, depth)] *)
Definition flatten_multirow_headers (df : frame) (start_idx depth : nat)
  : list cell :=
  if depth =? 1 then loc df start_idx
  else
    let header_rows :=
      map (loc df)
        (List.filter (fun row_idx => existsb (Nat.eqb row_idx) (index df))
           (map (fun i => start_idx + i) (seq 0 depth))) in
    match header_rows with
    | [] => loc df start_idx
    | first :: _ =>
        map (fun col_idx =>
               match header_parts header_rows col_idx with
               | [] => Str ("unnamed_col_" +:+ str_nat (col_idx + 1))
               | parts => Str (join "_" (collapse_repeats None parts))
               end)
          (seq 0 (length first))
    end.

(** ** One region: [clean_single_sheet] *)

Definition cell_eqb (x y : cell) : bool :=
  match x, y with
  | Str s, Str t => String.eqb s t
  | NaN, NaN | NA, NA => true
  | Flag a, Flag b => Bool.eqb a b
  | _, _ => false
  end.

Fixpoint cells_eqb (xs ys : list cell) : bool :=
  match xs, ys with
  | [], [] => true
  | x :: xs', y :: ys' => cell_eqb x y && cells_eqb xs' ys'
  | _, _ => false
  end.

(** [df.duplicated(keep=False)]: the rows that occur more than once. *)
Definition duplicated (df : frame) : list cell :=
  map (fun r =>
         Flag (1 <? length (List.filter (fun r' => cells_eqb (cells r) (cells r'))
                              (rows df))))
    (rows df).

(** [df.loc[k:]] on an increasing index: the rows labelled [k] or more. *)
Definition loc_from (k : nat) (df : frame) : frame :=
  {| columns := columns df;
     rows := List.filter (fun r => k <=? label r) (rows df) |}.

(** [df.columns = names] *)
Definition set_columns (names : list string) (df : frame) : frame :=
  {| columns := names; rows := rows df |}.

(** The messages of the engine, by what they report. *)
Inductive message :=
  | MultiRowHeader (depth : nat)
  | FixedDuplicateColumns (n : nat)
  | RemovedRepeatedHeaders (n : nat)
  | RemovedTotalRows (n : nat)
  | TotalsFlaggedForReview (n : nat)
  | AppliedFillDown (context_columns : list string)
  | SignificantRowReduction (rows_in rows_out : nat)
  | DataStructureIssue (sheet_name text : string)
  | SheetSplit (regions : nat)
  | ExceedsVarcharMax (col : string) (n : nat)
  | VeryLargeValues (col : string) (max_len : nat)
  | NotConvertible (col : string) (n : nat) (to : string)
  | InvalidDates (col : string) (invalid total : nat)
  | Raised (text : string).

Record metadata := {
  duplicate_column_names_fixed : nat;
  repeated_header_rows_dropped : nat;
  totals_rows_dropped : nat;
  totals_rows_flagged : nat;
  header_row_index : nat;
  header_depth_used : nat;
  context_columns_filled : list string;
  rows_in : nat;
  rows_out : nat;
  info : list message;
  warnings : list message;
  errors : list message
}.

Definition when {A} (b : bool) (x : A) : list A := if b then [x] else [].

(** [clean_single_sheet(df_raw)] *)
Definition clean_single_sheet (df_raw : frame) : frame * metadata :=
  let df := dropna_columns (dropna_rows df_raw) in
  let n_in := len df in
  if empty df then
    (df, {| duplicate_column_names_fixed := 0; repeated_header_rows_dropped := 0;
            totals_rows_dropped := 0; totals_rows_flagged := 0;
            header_row_index := 0; header_depth_used := 1;
            context_columns_filled := []; rows_in := n_in; rows_out := 0;
            info := []; warnings := []; errors := [] |})
  else
    let '(header_idx, header_depth) := detect_header_depth df in
    let flattened_header_row := flatten_multirow_headers df header_idx header_depth in
    let df_data := reset_index (loc_from (header_idx + header_depth) df) in
    let '(normalized_headers, dup_col_count) := normalise_headers flattened_header_row in
    let df_data := set_columns normalized_headers df_data in
    let '(df_data, repeated_header_count) :=
      detect_repeated_headers df_data normalized_headers in
    let df_data := dropna_rows df_data in
    let '(df_data, totals_flagged, totals_dropped) :=
      if empty df_data then (df_data, 0, 0) else detect_total_rows df_data in
    let context_columns :=
      if empty df_data then []
      else detect_context_columns df_data normalized_headers in
    let df_data := fill_down_context df_data context_columns in
    let df_data :=
      set_column "__possible_duplicate"
        (if empty df_data then [] else duplicated df_data) df_data in
    let n_out := len df_data in
    (df_data,
     {| duplicate_column_names_fixed := dup_col_count;
        repeated_header_rows_dropped := repeated_header_count;
        totals_rows_dropped := totals_dropped;
        totals_rows_flagged := totals_flagged;
        header_row_index := header_idx;
        header_depth_used := header_depth;
        context_columns_filled := context_columns;
        rows_in := n_in;
        rows_out := n_out;
        info :=
          when (0 <? dup_col_count) (FixedDuplicateColumns dup_col_count)
          ++ when (0 <? repeated_header_count)
               (RemovedRepeatedHeaders repeated_header_count)
          ++ when ((0 <? totals_flagged) && (0 <? totals_dropped))
               (RemovedTotalRows totals_dropped)
          ++ match context_columns with
             | [] => []
             | _ => [AppliedFillDown context_columns]
             end;
        warnings :=
          when (1 <? header_depth) (MultiRowHeader header_depth)
          ++ when (totals_dropped <? totals_flagged)
               (TotalsFlaggedForReview (totals_flagged - totals_dropped))
          ++ when ((0 <? n_in)
                   && Qlt_bool (1 # 2) (ratio (n_in - n_out) n_in))
               (SignificantRowReduction n_in n_out);
        errors := [] |}).

(** ** Dates: [datetime.strptime] *)

Module Strptime.

(** The directives of the formats the engine uses; [Spaces] is a blank of
    the format, which matches one or more whitespace characters. *)
Inductive directive :=
  | Year | Month | Day | Hour | Minute | Second | Micro
  | Lit (c : ascii)
  | Spaces.

Record datetime := {
  year : nat; month : nat; day : nat;
  hour : nat; minute : nat; second : nat; microsecond : nat
}.

Definition blank_datetime : datetime :=
  {| year := 1900; month := 1; day := 1;
     hour := 0; minute := 0; second := 0; microsecond := 0 |}.

Definition store (d : directive) (digits : string) (t : datetime) : datetime :=
  let v := Z.to_nat (digits_value digits) in
  match d with
  | Year => {| year := v; month := month t; day := day t; hour := hour t;
               minute := minute t; second := second t; microsecond := microsecond t |}
  | Month => {| year := year t; month := v; day := day t; hour := hour t;
                minute := minute t; second := second t; microsecond := microsecond t |}
  | Day => {| year := year t; month := month t;
              day := Z.to_nat (digits_value (lstrip digits)); hour := hour t;
              minute := minute t; second := second t; microsecond := microsecond t |}
  | Hour => {| year := year t; month := month t; day := day t; hour := v;
               minute := minute t; second := second t; microsecond := microsecond t |}
  | Minute => {| year := year t; month := month t; day := day t; hour := hour t;
                 minute := v; second := second t; microsecond := microsecond t |}
  | Second => {| year := year t; month := month t; day := day t; hour := hour t;
                 minute := minute t; second := v; microsecond := microsecond t |}
  | Micro => {| year := year t; month := month t; day := day t; hour := hour t;
                minute := minute t; second := second t;
                microsecond := v * 10 ^ (6 - String.length digits) |}
  | Lit _ | Spaces => t
  end.

(** One alternative of a directive's regular expression: a character
    class per position. *)
Definition one_of (chars : string) (c : ascii) : bool :=
  existsb (Ascii.eqb c) (list_ascii_of_string chars).

Definition digit_range (lo hi : string) (c : ascii) : bool :=
  match lo, hi with
  | String l _, String h _ => between (code l) (code h) c
  | _, _ => false
  end.

(** [match_classes classes s]: the text matched and what follows it, when
    [s] starts with one character of each class in turn. *)
Fixpoint match_classes (classes : list (ascii -> bool)) (s : string)
  : option (string * string) :=
  match classes with
  | [] => Some (EmptyString, s)
  | p :: classes' =>
      match s with
      | String c r =>
          if p c then
            match match_classes classes' r with
            | Some (m, rest) => Some (String c m, rest)
            | None => None
            end
          else None
      | EmptyString => None
      end
  end.

(** The alternatives of each directive, in the order the regular
    expression of [_strptime] tries them. *)
Definition alternatives (d : directive) : list (list (ascii -> bool)) :=
  match d with
  | Year => [ [isdecimal; isdecimal; isdecimal; isdecimal] ]
  | Month => [ [one_of "1"; digit_range "0" "2"];
               [one_of "0"; digit_range "1" "9"];
               [digit_range "1" "9"] ]
  | Day => [ [one_of "3"; digit_range "0" "1"];
             [digit_range "1" "2"; isdecimal];
             [one_of "0"; digit_range "1" "9"];
             [digit_range "1" "9"];
             [one_of " "; digit_range "1" "9"] ]
  | Hour => [ [one_of "2"; digit_range "0" "3"];
              [digit_range "0" "1"; isdecimal];
              [isdecimal] ]
  | Minute => [ [digit_range "0" "5"; isdecimal]; [isdecimal] ]
  | Second => [ [one_of "6"; digit_range "0" "1"];
                [digit_range "0" "5"; isdecimal];
                [isdecimal] ]
  | Micro => map (fun n => repeat (digit_range "0" "9") n) [6; 5; 4; 3; 2; 1]
  | Lit c => [ [fun x => Ascii.eqb (lower_char x) (lower_char c)] ]
  | Spaces => []
  end.

(** The ways a run of whitespace can be matched by [\s+], longest first. *)
Fixpoint space_runs (s : string) : list string :=
  match s with
  | String c r => if isspace c then space_runs r ++ [r] else []
  | EmptyString => []
  end.

(** The ways [d] matches at the start of [s], in order of preference: the
    matched text and the rest. *)
Definition matches_of (d : directive) (s : string) : list (string * string) :=
  match d with
  | Spaces => map (fun rest => (EmptyString, rest)) (space_runs s)
  | _ => omap (fun classes => match_classes classes s) (alternatives d)
  end.

(** The first alternative on which [k] succeeds. *)
Fixpoint first_success {A B} (k : A -> option B) (l : list A) : option B :=
  match l with
  | [] => None
  | x :: rest =>
      match k x with
      | Some y => Some y
      | None => first_success k rest
      end
  end.

(** The first match of the whole format, with backtracking, as [re.match]
    finds it: the fields read and the text left over. *)
Fixpoint match_format (fmt : list directive) (s : string) (t : datetime)
  : option (datetime * string) :=
  match fmt with
  | [] => Some (t, s)
  | d :: fmt' =>
      first_success
        (fun m => match_format fmt' (snd m) (store d (fst m) t))
        (matches_of d s)
  end.

Definition is_leap (y : nat) : bool :=
  (y mod 4 =? 0) && (negb (y mod 100 =? 0) || (y mod 400 =? 0)).

Definition days_in_month (y m : nat) : nat :=
  match m with
  | 2 => if is_leap y then 29 else 28
  | 4 | 6 | 9 | 11 => 30
  | _ => 31
  end.

(** The checks of the [datetime] constructor (a year of four digits is
    below its upper bound). *)
Definition valid_datetime (t : datetime) : bool :=
  (1 <=? year t)
  && (1 <=? month t) && (month t <=? 12)
  && (1 <=? day t) && (day t <=? days_in_month (year t) (month t))
  && (hour t <=? 23) && (minute t <=? 59) && (second t <=? 59).

(** [datetime.strptime(s, fmt)]; [None] stands for [ValueError]: no match,
    text left over, or a date that does not exist. *)
Definition strptime (s : string) (fmt : list directive) : option datetime :=
  match match_format fmt s blank_datetime with
  | Some (t, EmptyString) => if valid_datetime t then Some t else None
  | _ => None
  end.

(** The formats of the engine. *)
Definition ymd (sep : ascii) : list directive := [Year; Lit sep; Month; Lit sep; Day].
Definition mdy (sep : ascii) : list directive := [Month; Lit sep; Day; Lit sep; Year].
Definition dmy (sep : ascii) : list directive := [Day; Lit sep; Month; Lit sep; Year].
Definition hms : list directive := [Hour; Lit ":"; Minute; Lit ":"; Second].

End Strptime.

(** ** Type Profiler *)

Inductive sql_type := INTEGER | FLOAT | DATE | TIMESTAMP_NTZ | VARCHAR.

Definition profiler_date_only_formats : list (list Strptime.directive) :=
  [ Strptime.ymd "-"; Strptime.mdy "/"; Strptime.dmy "/" ].

Definition profiler_timestamp_formats : list (list Strptime.directive) :=
  [ Strptime.ymd "-" ++ [Strptime.Spaces] ++ Strptime.hms;
    Strptime.mdy "/" ++ [Strptime.Spaces] ++ Strptime.hms;
    Strptime.dmy "/" ++ [Strptime.Spaces] ++ Strptime.hms;
    Strptime.ymd "-" ++ [Strptime.Lit "T"] ++ Strptime.hms ].

Definition parses_with (formats : list (list Strptime.directive))
    (val_str : string) : bool :=
  existsb (fun fmt => match Strptime.strptime val_str fmt with
                      | Some _ => true
                      | None => false
                      end) formats.

(** How the loop of [analyze_column_types] takes one value. *)
Inductive value_kind :=
  | Skipped | AsInt | AsFloat | AsDate | AsTimestamp | AsText.

Definition classify (val : string) : value_kind :=
  let val_str := strip val in
  if is_blank val_str then Skipped
  else if match py_int val_str with Some _ => true | None => false end then AsInt
  else if float_parses val_str then AsFloat
  else if parses_with profiler_date_only_formats val_str then AsDate
  else if parses_with profiler_timestamp_formats val_str then AsTimestamp
  else AsText.

(** The counters of the loop. *)
Record type_counts := {
  int_count : nat;
  float_count : nat;
  date_count : nat;
  has_timestamp : bool
}.

Definition count_step (st : type_counts) (val : string) : type_counts :=
  match classify val with
  | AsInt => {| int_count := S (int_count st); float_count := float_count st;
                date_count := date_count st; has_timestamp := has_timestamp st |}
  | AsFloat => {| int_count := int_count st; float_count := S (float_count st);
                  date_count := date_count st; has_timestamp := has_timestamp st |}
  | AsDate => {| int_count := int_count st; float_count := float_count st;
                 date_count := S (date_count st); has_timestamp := has_timestamp st |}
  | AsTimestamp => {| int_count := int_count st; float_count := float_count st;
                      date_count := S (date_count st); has_timestamp := true |}
  | Skipped | AsText => st
  end.

Definition count_types (series : list string) : type_counts :=
  fold_left count_step series
    {| int_count := 0; float_count := 0; date_count := 0; has_timestamp := false |}.

(** [count / total * 100] *)
Definition percent (count total : nat) : Q :=
  if 0 <? total then ratio count total * 100 else 0.

(** The recommendation from the three percentages. *)
Definition recommend (pct_int pct_float pct_date : Q) (with_time : bool) : sql_type :=
  if Qle_bool 80 pct_date then (if with_time then TIMESTAMP_NTZ else DATE)
  else if Qle_bool 90 pct_int then INTEGER
  else if Qle_bool 80 pct_float then FLOAT
  else VARCHAR.

(** What the profile keeps of a column (the percentages it also reports,
    rounded to one decimal, are left out). *)
Record column_profile := {
  recommended_type : sql_type;
  sample_values : list string
}.

(** [df[col].dropna().astype(str)] *)
Definition dropna_astype_str (col_data : list cell) : list string :=
  map astype_str (List.filter safe_notna col_data).

(** The body of the loop of [analyze_column_types] for one column. *)
Definition analyze_column (col_data : list cell) : column_profile :=
  let series := dropna_astype_str col_data in
  match series with
  | [] => {| recommended_type := VARCHAR; sample_values := [] |}
  | _ =>
      let total := length series in
      let st := count_types series in
      {| recommended_type :=
           recommend (percent (int_count st) total)
             (percent (float_count st) total)
             (percent (date_count st) total) (has_timestamp st);
         sample_values := List.firstn 3 (List.firstn 5 series) |}
  end.

(** [analyze_column_types(df)] *)
Definition analyze_column_types (df : frame) : gmap string column_profile :=
  if empty df then ∅
  else
    fold_left
      (fun type_analysis col =>
         match get_column col df with
         | Some col_data => <[col := analyze_column col_data]> type_analysis
         | None => type_analysis
         end)
      (List.filter (fun c => negb (String.eqb c "__possible_duplicate"))
         (columns df))
      ∅.

(** ** SQL Sanitizer *)

(** The literals of the first pass of [sanitize_for_sql]. *)
Definition missing_literals : list string :=
  [ ""; "nan"; "None"; "null"; "NULL"; "NaN"; "N/A"; "n/a" ].

(** [series.replace(missing_literals, pd.NA)] on one cell. *)
Definition replace_missing (v : cell) : cell :=
  match v with
  | Str s => if in_list s missing_literals then NA else v
  | _ => v
  end.

(** The characters [sanitize_string_value] keeps: of the control
    characters only tab, newline and carriage return, and not DEL. *)
Definition keeps_char (c : ascii) : bool :=
  if (code c <? 32)%N
  then (code c =? 9)%N || (code c =? 10)%N || (code c =? 13)%N
  else negb (code c =? 127)%N.

(** [sanitize_string_value(val)] *)
Definition sanitize_string_value (val : cell) : cell :=
  if safe_isna val then NA
  else
    let result := filter_chars keeps_char (astype_str val) in
    if String.eqb (strip result) "" then NA else Str result.

(** The body of the loop of [validate_numeric_values] for
    [numeric_type == 'INTEGER']. *)
Definition validate_integer_value (val : cell) : cell :=
  if safe_isna val then val
  else
    let val_str := strip (astype_str val) in
    if is_blank val_str then NA
    else
      let clean_val := strip (strip_formatting val_str) in
      match py_float clean_val with
      | Some x =>
          match int_of_double x with
          | Some int_val => Str (str_int int_val)
          | None => NA
          end
      | None => NA
      end.

Definition sanitizer_date_only_formats : list (list Strptime.directive) :=
  [ Strptime.ymd "-"; Strptime.mdy "/"; Strptime.dmy "/";
    Strptime.ymd "/"; Strptime.dmy "-"; Strptime.mdy "-" ].

Definition sanitizer_timestamp_formats : list (list Strptime.directive) :=
  [ Strptime.ymd "-" ++ [Strptime.Spaces] ++ Strptime.hms;
    Strptime.mdy "/" ++ [Strptime.Spaces] ++ Strptime.hms;
    Strptime.dmy "/" ++ [Strptime.Spaces] ++ Strptime.hms;
    Strptime.ymd "-" ++ [Strptime.Lit "T"] ++ Strptime.hms;
    Strptime.ymd "/" ++ [Strptime.Spaces] ++ Strptime.hms;
    Strptime.dmy "/" ++ [Strptime.Spaces] ++ Strptime.hms;
    Strptime.ymd "-" ++ [Strptime.Spaces] ++ Strptime.hms
      ++ [Strptime.Lit "."; Strptime.Micro];
    Strptime.ymd "-" ++ [Strptime.Lit "T"] ++ Strptime.hms
      ++ [Strptime.Lit "."; Strptime.Micro] ].

(** A number written with at least [width] digits. *)
Definition zero_padded (width n : nat) : string :=
  let digits := str_nat n in
  string_of_list_ascii (repeat "0"%char (width - String.length digits)) +:+ digits.

(** [strftime('%Y-%m-%d')] and [strftime('%Y-%m-%dT%H:%M:%S')] *)
Definition iso_date (t : Strptime.datetime) : string :=
  zero_padded 4 (Strptime.year t) +:+ "-" +:+ zero_padded 2 (Strptime.month t)
  +:+ "-" +:+ zero_padded 2 (Strptime.day t).

Definition iso_timestamp (t : Strptime.datetime) : string :=
  iso_date t +:+ "T" +:+ zero_padded 2 (Strptime.hour t)
  +:+ ":" +:+ zero_padded 2 (Strptime.minute t)
  +:+ ":" +:+ zero_padded 2 (Strptime.second t).

Section Sanitizer.

(** Two library functions are left open: the flexible parser
    [pd.to_datetime], which returns a date or raises, and [str] of a finite
    double. *)
Variable to_datetime : string -> option Strptime.datetime.
Variable float_repr : Q -> string.

(** The body of the loop of [standardize_dates]. *)
Definition standardize_date_value (date_type : sql_type) (val : cell) : cell :=
  if safe_isna val then val
  else
    let val_str := strip (astype_str val) in
    if is_blank val_str then NA
    else
      let formats :=
        match date_type with
        | TIMESTAMP_NTZ => sanitizer_timestamp_formats
        | _ => sanitizer_date_only_formats
        end in
      let parsed :=
        match Strptime.first_success (Strptime.strptime val_str) formats with
        | Some t => Some t
        | None => to_datetime val_str
        end in
      match parsed with
      | None => NA
      | Some t =>
          match date_type with
          | TIMESTAMP_NTZ => Str (iso_timestamp t)
          | _ => Str (iso_date t)
          end
      end.

(** The body of the loop of [validate_numeric_values]. *)
Definition validate_numeric_value (numeric_type : sql_type) (val : cell) : cell :=
  match numeric_type with
  | INTEGER => validate_integer_value val
  | _ =>
      if safe_isna val then val
      else
        let val_str := strip (astype_str val) in
        if is_blank val_str then NA
        else
          match py_float (strip (strip_formatting val_str)) with
          | Some (Finite q) => Str (float_repr q)
          | _ => NA
          end
  end.

(** What [sanitize_for_sql] does to one cell of a column whose recommended
    type is [rt]: the four passes in their order. *)
Definition sanitize_value (rt : sql_type) (val : cell) : cell :=
  let val := replace_missing val in
  let val :=
    match rt with
    | DATE | TIMESTAMP_NTZ => standardize_date_value rt val
    | _ => val
    end in
  let val :=
    match rt with
    | VARCHAR => sanitize_string_value val
    | _ => val
    end in
  match rt with
  | INTEGER | FLOAT => validate_numeric_value rt val
  | _ => val
  end.

(** [type_analysis.get(col, {}).get('recommended_type', 'VARCHAR')] *)
Definition recommended_for (type_analysis : gmap string column_profile)
    (col : string) : sql_type :=
  match type_analysis !! col with
  | Some profile => recommended_type profile
  | None => VARCHAR
  end.

(** [sanitize_for_sql(df, type_analysis)], for a frame whose column labels
    are distinct. *)
Definition sanitize_for_sql (df : frame)
    (type_analysis : gmap string column_profile) : frame :=
  if empty df then df
  else
    fold_left
      (fun df_sanitized col =>
         match get_column col df_sanitized with
         | Some col_data =>
             set_column col
               (map (sanitize_value (recommended_for type_analysis col)) col_data)
               df_sanitized
         | None => df_sanitized
         end)
      (List.filter (fun c => negb (in_list c internal_columns)) (columns df))
      df.

End Sanitizer.

(** ** Pipeline Orchestrator *)

(** [find_candidate_keys(df)] *)
Definition find_candidate_keys (df : frame) : list string :=
  if empty df then []
  else
    List.filter
      (fun col =>
         match get_column col df with
         | Some col_data =>
             let series := dropna_astype_str col_data in
             (0 <? length series)
             && Qle_bool (7 # 10) (ratio (length series) (len df))
             && Qle_bool (7 # 10) (ratio (nunique series) (length series))
         | None => false
         end)
      (List.filter (fun c => negb (String.eqb c "__possible_duplicate"))
         (columns df)).

(** [len(s.encode('utf-8'))] for code points below 256. *)
Definition utf8_length (s : string) : nat :=
  list_sum (map (fun c => if (code c <? 128)%N then 1 else 2)
              (list_ascii_of_string s)).

(** An exception: a [ValueError] or one of another class, with [str(e)]. *)
Inductive exn :=
  | ValueError (text : string)
  | OtherError (text : string).

Definition exn_text (e : exn) : string :=
  match e with
  | ValueError text | OtherError text => text
  end.

(** A sheet as the reader and the Region Segmenter deliver it: reading
    raises, or gives the regions with their bounds and raw cells. *)
Record region := { bounds : string; region_df_raw : frame }.

Record sheet := { sheet_name : string; read : exn + list region }.

(** A row of [meta_rows]. *)
Record meta_row := {
  tab_name : string;
  source_tab : string;
  source_table_id : string;
  clean_status : string;
  meta_rows_in : nat;
  meta_rows_out : nat;
  rows_after_clean : nat;
  columns_after_clean : nat;
  table_bounds : string;
  possible_key_columns : list string;
  exact_duplicate_rows : nat;
  meta_repeated_header_rows_dropped : nat;
  meta_totals_rows_dropped : nat;
  meta_warnings : list message;
  meta_errors : list message;
  comments : option string
}.

(** What the loops of [normalize_spreadsheet] accumulate. *)
Record run_state := {
  cleaned_sheets : gmap string frame;
  sheet_metadata : gmap string metadata;
  meta_rows : list meta_row;
  all_errors : list (string * message);
  all_warnings : list (string * message);
  all_info : list (string * message)
}.

Definition initial_state : run_state :=
  {| cleaned_sheets := ∅; sheet_metadata := ∅; meta_rows := [];
     all_errors := []; all_warnings := []; all_info := [] |}.

(** The test of the inner handler on the text of a [ValueError]. *)
Definition is_ambiguity (text : string) : bool :=
  contains "truth value" (lower text) || contains "ambiguous" (lower text).

(** The metadata the inner handler builds for a failed region. *)
Definition failed_metadata (region_rows : nat) (error_msg : message) : metadata :=
  {| duplicate_column_names_fixed := 0; repeated_header_rows_dropped := 0;
     totals_rows_dropped := 0; totals_rows_flagged := 0;
     header_row_index := 0; header_depth_used := 1;
     context_columns_filled := []; rows_in := region_rows; rows_out := 0;
     info := []; warnings := []; errors := [error_msg] |}.

(** [pd.DataFrame()] *)
Definition empty_frame : frame := {| columns := []; rows := [] |}.

(** The row the outer handler appends for a sheet that failed. *)
Definition sheet_error_row (name text : string) : meta_row :=
  {| tab_name := name; source_tab := name; source_table_id := "";
     clean_status := "ERROR"; meta_rows_in := 0; meta_rows_out := 0;
     rows_after_clean := 0; columns_after_clean := 0; table_bounds := "";
     possible_key_columns := []; exact_duplicate_rows := 0;
     meta_repeated_header_rows_dropped := 0; meta_totals_rows_dropped := 0;
     meta_warnings := []; meta_errors := [Raised text];
     comments := Some text |}.

Definition count_flags (col_data : list cell) : nat :=
  length (List.filter (fun v => cell_eqb v (Flag true)) col_data).

Section Orchestrator.

(** [clean_single_sheet] as the interpreter runs it: it returns, or an
    exception escapes it.  The two open library functions of the
    sanitizer, and [validate_data_for_sql] with its two message lists
    (warnings, errors). *)
Variable clean : frame -> exn + frame * metadata.
Variable to_datetime : string -> option Strptime.datetime.
Variable float_repr : Q -> string.
Variable validate_data_for_sql :
  frame -> gmap string column_profile -> list message * list message.

(** [f"{sheet_name}__table{region_idx:02d}"] when the sheet has several
    regions, else the sheet name. *)
Definition virtual_name (name : string) (n_regions region_idx : nat) : string :=
  if 1 <? n_regions then name +:+ "__table" +:+ zero_padded 2 region_idx
  else name.

(** The inner [try]: the cleaned frame and its metadata, with the error the
    handler records; or the exception it lets through. *)
Definition clean_region (name virtual : string) (r : region)
  : exn + (frame * metadata * list (string * message)) :=
  match clean (region_df_raw r) with
  | inr (df_clean, clean_metadata) => inr (df_clean, clean_metadata, [])
  | inl (ValueError text) =>
      if is_ambiguity text then
        let error_msg := DataStructureIssue name text in
        inr (empty_frame, failed_metadata (len (region_df_raw r)) error_msg,
             [(virtual, error_msg)])
      else inl (ValueError text)
  | inl e => inl e
  end.

(** The body of the loop over the regions of a sheet. *)
Definition process_region (name : string) (n_regions : nat) (st : run_state)
    (region_idx : nat) (r : region) : exn + run_state :=
  let virtual := virtual_name name n_regions region_idx in
  match clean_region name virtual r with
  | inl e => inl e
  | inr (df_clean, clean_metadata, handler_errors) =>
      let candidate_keys := find_candidate_keys df_clean in
      let dup_count :=
        match get_column "__possible_duplicate" df_clean with
        | Some col_data => count_flags col_data
        | None => 0
        end in
      let type_analysis := analyze_column_types df_clean in
      let '(validation_warnings, validation_errors) :=
        validate_data_for_sql df_clean type_analysis in
      let table_warnings :=
        warnings clean_metadata
        ++ when (1 <? n_regions) (SheetSplit n_regions)
        ++ validation_warnings in
      let table_errors := errors clean_metadata ++ validation_errors in
      let df_sanitized :=
        sanitize_for_sql to_datetime float_repr df_clean type_analysis in
      let tag := map (fun m => (virtual, m)) in
      inr
        {| cleaned_sheets := <[virtual := df_sanitized]> (cleaned_sheets st);
           sheet_metadata :=
             <[virtual :=
                 {| duplicate_column_names_fixed :=
                      duplicate_column_names_fixed clean_metadata;
                    repeated_header_rows_dropped :=
                      repeated_header_rows_dropped clean_metadata;
                    totals_rows_dropped := totals_rows_dropped clean_metadata;
                    totals_rows_flagged := totals_rows_flagged clean_metadata;
                    header_row_index := header_row_index clean_metadata;
                    header_depth_used := header_depth_used clean_metadata;
                    context_columns_filled := context_columns_filled clean_metadata;
                    rows_in := rows_in clean_metadata;
                    rows_out := rows_out clean_metadata;
                    info := info clean_metadata;
                    warnings := table_warnings;
                    errors := table_errors |}]> (sheet_metadata st);
           meta_rows :=
             meta_rows st ++
             [ {| tab_name := virtual; source_tab := name;
                  source_table_id :=
                    if 1 <? n_regions
                    then "table" +:+ zero_padded 2 region_idx else "";
                  clean_status := "OK";
                  meta_rows_in := rows_in clean_metadata;
                  meta_rows_out := rows_out clean_metadata;
                  rows_after_clean := len df_sanitized;
                  columns_after_clean := length (columns df_sanitized);
                  table_bounds := bounds r;
                  possible_key_columns := candidate_keys;
                  exact_duplicate_rows := dup_count;
                  meta_repeated_header_rows_dropped :=
                    repeated_header_rows_dropped clean_metadata;
                  meta_totals_rows_dropped := totals_rows_dropped clean_metadata;
                  meta_warnings := table_warnings;
                  meta_errors := table_errors;
                  comments := None |} ];
           all_errors :=
             all_errors st ++ handler_errors ++ tag (errors clean_metadata)
             ++ tag validation_errors;
           all_warnings :=
             all_warnings st ++ tag (warnings clean_metadata)
             ++ tag validation_warnings;
           all_info := all_info st ++ tag (info clean_metadata) |}
  end.

(** [for region_idx, region in enumerate(regions, 1)]: the state reached,
    and the exception that ended the loop early, if any. *)
Fixpoint process_regions (name : string) (n_regions : nat) (st : run_state)
    (region_idx : nat) (regions : list region) : run_state * option exn :=
  match regions with
  | [] => (st, None)
  | r :: rest =>
      match process_region name n_regions st region_idx r with
      | inl e => (st, Some e)
      | inr st' => process_regions name n_regions st' (S region_idx) rest
      end
  end.

(** The outer handler. *)
Definition record_sheet_error (name : string) (e : exn) (st : run_state)
  : run_state :=
  {| cleaned_sheets := cleaned_sheets st;
     sheet_metadata := sheet_metadata st;
     meta_rows := meta_rows st ++ [sheet_error_row name (exn_text e)];
     all_errors := all_errors st ++ [(name, Raised (exn_text e))];
     all_warnings := all_warnings st;
     all_info := all_info st |}.

(** The body of the loop over the sheets. *)
Definition process_sheet (st : run_state) (sh : sheet) : run_state :=
  match read sh with
  | inl e => record_sheet_error (sheet_name sh) e st
  | inr regions =>
      match process_regions (sheet_name sh) (length regions) st 1 regions with
      | (st', None) => st'
      | (st', Some e) => record_sheet_error (sheet_name sh) e st'
      end
  end.

(** The quality flag of a row of [meta_df]. *)
Definition flag (r : meta_row) : string :=
  if negb (String.eqb (clean_status r) "OK") then "ERROR - Check tab"
  else if match meta_errors r with [] => false | _ => true end
  then "ERROR - Check tab"
  else if match meta_warnings r with [] => false | _ => true end
  then "REVIEW - Warnings present"
  else if 100 <=? exact_duplicate_rows r then "REVIEW - High duplicate count"
  else if 0 <? meta_totals_rows_dropped r then "REVIEW - Totals removed"
  else if 0 <? meta_repeated_header_rows_dropped r
  then "REVIEW - Repeated headers removed"
  else "OK".

(** What [normalize_spreadsheet] returns, without the files it writes. *)
Record run_result := {
  result_sheets : gmap string frame;
  result_metadata : gmap string metadata;
  meta_df : list (meta_row * string);
  status : string;
  result_info : list (string * message);
  result_warnings : list (string * message);
  result_errors : list (string * message)
}.

(** [normalize_spreadsheet], on the sheets of the workbook. *)
Definition normalize_spreadsheet (sheets : list sheet) : run_result :=
  let st := fold_left process_sheet sheets initial_state in
  {| result_sheets := cleaned_sheets st;
     result_metadata := sheet_metadata st;
     meta_df := map (fun r => (r, flag r)) (meta_rows st);
     status :=
       match all_errors st, all_warnings st with
       | _ :: _, _ => "error"
       | [], _ :: _ => "partial"
       | [], [] => "success"
       end;
     result_info := all_info st;
     result_warnings := all_warnings st;
     result_errors := all_errors st |}.

End Orchestrator.

(** ** Vocabulary of the specification *)

(** The regular expression [^[a-z_][a-z0-9_]*$]. *)
Definition ident_start (c : ascii) : bool := islower_ascii c || Ascii.eqb c "_".

Definition ident_char (c : ascii) : bool :=
  islower_ascii c || isdecimal c || Ascii.eqb c "_".

Definition matches_identifier (s : string) : bool :=
  match s with
  | EmptyString => false
  | String c r => ident_start c && forall_chars ident_char r
  end.

(** A header whose text has only code points below 128. *)
Definition ascii_text (h : cell) : bool :=
  forall_chars (fun c => (code c <? 128)%N) (astype_str h).

(** An identifier cut by the length check: 252 characters of an identifier
    and the ellipsis. *)
Definition truncated_identifier (s : string) : Prop :=
  exists p, s = p +:+ "..." /\ String.length p = 252 /\ matches_identifier p = true.

(** The test of a repeated header as the specification words it: overlap
    of at least 0.70 of the row's value set, or positional match ratio of at
    least 0.70 and overlap of at least 0.35 times the header-set size. *)
Definition claimed_repeated_header (normalized_headers : list string)
    (row_data : list cell) : bool :=
  let header_set := header_value_set normalized_headers in
  let row_values := map astype_str row_data in
  let row_set := row_value_set row_values in
  let overlap := size (row_set ∩ header_set) in
  (0 <? size row_set)
  && (Qle_bool (7 # 10) (ratio overlap (size row_set))
      || ((0 <? length normalized_headers)
          && Qle_bool (7 # 10)
               (ratio (position_matches normalized_headers row_values)
                  (length normalized_headers))
          && Qle_bool (of_count (size header_set) * (35 # 100))
               (of_count overlap))).

(** The outcome of [detect_total_rows] on one row of the frame that
    carries the tag column: whether it is flagged, whether it is dropped
    (in a frame of [n] rows), and the row with its tag set. *)
Definition flagged_row (r : row) : bool := is_total (cells r).

Definition dropped_row (n : nat) (r : row) : bool :=
  flagged_row r && high_confidence n (label r) (cells r).

Definition tag_row (cols : list string) (r : row) : row :=
  if flagged_row r
  then {| label := label r;
          cells := set_cells "__is_total_row" (Flag true) cols (cells r) |}
  else r.

(** A frame of body rows given by their texts, labelled from 0. *)
Definition frame_of (cols : list string) (body : list (list string)) : frame :=
  {| columns := cols;
     rows := imap (fun i r => {| label := i; cells := map Str r |}) body |}.

(** Two tables of the total-row examples: two rows ending in a
    "Grand Total" row, and ten rows ending in a given row. *)
Definition small_totals_table : frame :=
  frame_of ["item"; "q1"; "q2"]
    [["widget"; "1"; "2"]; ["Grand Total"; "3"; "4"]].


(** The number of values of a series that the profiler takes as [k]. *)
Definition kind_eqb (a b : value_kind) : bool :=
  match a, b with
  | Skipped, Skipped | AsInt, AsInt | AsFloat, AsFloat
  | AsDate, AsDate | AsTimestamp, AsTimestamp | AsText, AsText => true
  | _, _ => false
  end.

Definition count_kind (k : value_kind) (series : list string) : nat :=
  length (List.filter (fun val => kind_eqb (classify val) k) series).

(** A threshold of [pct] percent, in whole numbers. *)
Definition reaches (pct count total : nat) : bool :=
  (0 <? total) && (pct * total <=? 100 * count).












(** A lowercased character of the ASCII range. *)
Definition lowered (c : ascii) : bool :=
  (code c <? 128)%N && negb (isupper_ascii c).

(** What the specification promises of an identifier, up to the length
    check. *)
Definition identifier_or_truncated (s : string) : Prop :=
  matches_identifier s = true \/ truncated_identifier s.

(** A header of 256 letters. *)
Definition long_header : string := string_of_list_ascii (repeat "a"%char 256).

(** ** Further functions of the engine *)

(** *** [sanitize_identifier] and the names of the DDL *)

(** [s.replace(' ', '_')] *)
Fixpoint replace_space (s : string) : string :=
  match s with
  | EmptyString => EmptyString
  | String c r =>
      String (if Ascii.eqb c " " then "_"%char else c) (replace_space r)
  end.

(** [sanitize_identifier(identifier)] *)
Definition sanitize_identifier (identifier : string) : string :=
  if String.eqb identifier "" then "unnamed"
  else
    let clean :=
      filter_chars isword (replace_space (lower (strip identifier))) in
    if String.eqb clean "" || String.eqb clean "nan" then "unnamed"
    else
      let clean :=
        if starts_with_digit clean then "col_" +:+ clean else clean in
      let clean :=
        if bool_decide (clean ∈ SQL_RESERVED_WORDS)
        then clean +:+ "_col" else clean in
      if 255 <? String.length clean then take 252 clean +:+ "..." else clean.

(** The table name of [generate_create_table_statements]. *)
Definition ddl_table_name (sheet_name : string) : string :=
  let table_name := sanitize_identifier sheet_name in
  let table_name :=
    if String.eqb table_name "" || starts_with_digit table_name
    then "table_" +:+ table_name else table_name in
  let table_name :=
    if bool_decide (table_name ∈ SQL_RESERVED_WORDS)
    then table_name +:+ "_tbl" else table_name in
  if 255 <? String.length table_name
  then take 252 table_name +:+ "..." else table_name.

(** The column name of [generate_create_table_statements]. *)
Definition ddl_column_name (col : string) : string :=
  let col_safe := sanitize_identifier col in
  let col_safe :=
    if String.eqb col_safe "" || starts_with_digit col_safe
    then "col_" +:+ col_safe else col_safe in
  if bool_decide (col_safe ∈ SQL_RESERVED_WORDS)
  then col_safe +:+ "_col" else col_safe.

(** The size of a VARCHAR column of the DDL, from the largest UTF-8 length
    of its values. *)
Definition varchar_size (max_len : N) : N :=
  if (max_len =? 0)%N then 16777216%N
  else if (max_len <? 100)%N then 255%N
  else if (max_len <? 500)%N then 500%N
  else if (max_len <? 2000)%N then 2000%N
  else if (max_len <? 10000)%N then 10000%N
  else 16777216%N.

(** The loop that finds [max_len] over [df[col].dropna()]. *)
Definition column_max_len (col_data : list cell) : N :=
  fold_left
    (fun max_len val => N.max max_len (N.of_nat (utf8_length (astype_str val))))
    (List.filter safe_notna col_data) 0%N.

(** *** [detect_header_row] *)

(** [detect_header_row(df)], the legacy detector: the label of the first
    row with enough non-empty cells, else the first label; [None] is the
    [IndexError] of [df.index[0]] on a frame without rows. *)
Definition detect_header_row (df : frame) : option nat :=
  let min_ne := min_non_empty (length (columns df)) in
  match find (fun r => min_ne <=? notna_count (map replace_empty (cells r)))
          (rows df) with
  | Some r => Some (label r)
  | None => head (index df)
  end.

(** *** Region Segmenter: [detect_table_regions] *)

(** A cell the segmenter takes as blank: its text is one of
    [['nan', 'None', 'null', '']]. *)
Definition segmenter_blank (v : cell) : bool :=
  in_list (astype_str v) ["nan"; "None"; "null"; ""].

(** [separator_rows] and [separator_cols]: the positions of the rows and of
    the columns that are blank throughout. *)
Definition separator_rows (df : frame) : list nat :=
  List.filter
    (fun i => match nth_error (rows df) i with
              | Some r => forallb segmenter_blank (cells r)
              | None => false
              end)
    (seq 0 (len df)).

Definition separator_cols (df : frame) : list nat :=
  List.filter
    (fun j => forallb (fun r => segmenter_blank (nth j (cells r) NaN)) (rows df))
    (seq 0 (length (columns df))).

(** The loop that splits [0 .. n-1] at the separators: [start] is where the
    current range begins. *)
Fixpoint split_ranges (start : nat) (separators : list nat) (n : nat)
  : list (nat * nat) :=
  match separators with
  | [] => if start <? n then [(start, n - 1)] else []
  | sep :: rest =>
      (if start <? sep then [(start, sep - 1)] else [])
      ++ split_ranges (sep + 1) rest n
  end.

(** The positions of a range, and the cells of the frame in a rectangle
    ([df_str.iloc[row_start:row_end+1, col_start:col_end+1]]). *)
Definition span (range : nat * nat) : list nat :=
  seq (fst range) (snd range + 1 - fst range).

Definition rectangle_cells (df : frame) (candidate : (nat * nat) * (nat * nat))
  : list cell :=
  flat_map
    (fun r => firstn (snd (snd candidate) + 1 - fst (snd candidate))
                (skipn (fst (snd candidate)) (cells r)))
    (firstn (snd (fst candidate) + 1 - fst (fst candidate))
       (skipn (fst (fst candidate)) (rows df))).

(** The test that keeps a candidate: two rows, two columns and a density
    of at least 0.3. *)
Definition dense_enough (df : frame) (candidate : (nat * nat) * (nat * nat))
  : bool :=
  let region_cells := rectangle_cells df candidate in
  let non_empty_count :=
    length (List.filter (fun v => negb (segmenter_blank v)) region_cells) in
  let total_count := length region_cells in
  let density :=
    if 0 <? total_count then ratio non_empty_count total_count else 0%Q in
  (2 <=? snd (fst candidate) - fst (fst candidate) + 1)
  && (2 <=? snd (snd candidate) - fst (snd candidate) + 1)
  && Qle_bool (3 # 10) density.

(** The candidates that are kept: row range and column range. *)
Definition kept_candidates (df : frame) : list ((nat * nat) * (nat * nat)) :=
  List.filter (dense_enough df)
    (list_prod (split_ranges 0 (separator_rows df) (len df))
       (split_ranges 0 (separator_cols df) (length (columns df)))).

(** A region as the segmenter reports it. *)
Record table_region := {
  min_row : nat;
  max_row : nat;
  min_col : string;
  max_col : string;
  region_bounds : string
}.

Definition bounds_text (r1 c1 r2 c2 : nat) : string :=
  "R" +:+ str_nat r1 +:+ "C" +:+ str_nat c1
  +:+ ":R" +:+ str_nat r2 +:+ "C" +:+ str_nat c2.

Definition region_of (df : frame) (candidate : (nat * nat) * (nat * nat))
  : table_region :=
  {| min_row := nth (fst (fst candidate)) (index df) 0;
     max_row := nth (snd (fst candidate)) (index df) 0;
     min_col := nth (fst (snd candidate)) (columns df) "";
     max_col := nth (snd (snd candidate)) (columns df) "";
     region_bounds :=
       bounds_text (fst (fst candidate) + 1) (fst (snd candidate) + 1)
         (snd (fst candidate) + 1) (snd (snd candidate) + 1) |}.

(** The whole sheet as one region. *)
Definition whole_sheet (df : frame) : table_region :=
  {| min_row := hd 0 (index df);
     max_row := List.last (index df) 0;
     min_col := hd "" (columns df);
     max_col := List.last (columns df) "";
     region_bounds := bounds_text 1 1 (len df) (length (columns df)) |}.

(** [detect_table_regions(df)] *)
Definition detect_table_regions (df : frame) : list table_region :=
  if empty df then []
  else
    match separator_rows df, separator_cols df with
    | [], [] => [whole_sheet df]
    | _, _ =>
        match kept_candidates df with
        | [] => [whole_sheet df]
        | kept => map (region_of df) kept
        end
    end.

(** *** Vocabulary of the further properties *)

(** Two cells of the same position in two rectangles. *)
Definition overlap (a b : (nat * nat) * (nat * nat)) : Prop :=
  exists i j, In i (span (fst a)) /\ In j (span (snd a))
              /\ In i (span (fst b)) /\ In j (span (snd b)).

(** The number of earlier occurrences of the header at position [i]. *)
Definition seen_before (l : list string) (i : nat) (h : string) : nat :=
  length (List.filter (String.eqb h) (firstn i l)).

(** A sheet with a blank row and a blank column between four blocks. *)
Definition four_block_sheet : frame :=
  frame_of ["0"; "1"; "2"; "3"; "4"]
    [["a"; "b"; ""; "p"; "q"];
     ["1"; "2"; ""; "3"; "4"];
     ["";  "";  ""; "";  ""];
     ["c"; "d"; ""; "r"; "s"];
     ["5"; "6"; ""; "7"; "8"]].

(** A row of the metadata table that records an error: its status is not
    ["OK"] or its error list is not empty. *)
Definition errored (r : meta_row) : bool :=
  negb (String.eqb (clean_status r) "OK")
  || match meta_errors r with [] => false | _ => true end.

(** Whether a list has no element. *)
Definition is_nil {A} (l : list A) : bool :=
  match l with [] => true | _ => false end.

(** The tab names of the rows of the metadata table whose status is
    ["OK"]. *)
Definition ok_tabs (table : list meta_row) : gset string :=
  list_to_set
    (map tab_name
       (List.filter (fun r => String.eqb (clean_status r) "OK") table)).
(** * Properties *)

(** ** Text *)

Lemma append_cons (c : ascii) (a b : string) :
  String c a +:+ b = String c (a +:+ b).
Proof. reflexivity. Qed.

Lemma append_empty (b : string) : EmptyString +:+ b = b.
Proof. reflexivity. Qed.

Ltac unfold_append := repeat (rewrite append_cons || rewrite append_empty).

Lemma append_assoc (a b c : string) : (a +:+ b) +:+ c = a +:+ (b +:+ c).
Proof.
  induction a as [|x a IH]; unfold_append; [reflexivity | now rewrite IH].
Qed.

Lemma length_append (a b : string) :
  String.length (a +:+ b) = String.length a + String.length b.
Proof.
  induction a as [|c a IH]; unfold_append; [reflexivity |].
  simpl. now rewrite IH.
Qed.

Lemma take_length_le (n : nat) (s : string) :
  n <= String.length s -> String.length (take n s) = n.
Proof.
  revert s; induction n as [|n IH]; intros [|c s]; simpl; intros H;
    try reflexivity; try lia.
  rewrite IH; [reflexivity | lia].
Qed.

Lemma take_append_exact (p r : string) :
  take (String.length p) (p +:+ r) = p.
Proof.
  induction p as [|c p IH]; unfold_append; simpl.
  - reflexivity.
  - now rewrite IH.
Qed.

Lemma forall_chars_append (f : ascii -> bool) (a b : string) :
  forall_chars f (a +:+ b) = forall_chars f a && forall_chars f b.
Proof.
  induction a as [|c a IH]; unfold_append; simpl; [reflexivity |].
  rewrite IH. now rewrite andb_assoc.
Qed.

Lemma forall_chars_take (f : ascii -> bool) (n : nat) (s : string) :
  forall_chars f s = true -> forall_chars f (take n s) = true.
Proof.
  revert s; induction n as [|n IH]; intros [|c s]; simpl; try reflexivity.
  intros [Hc Hs]%andb_true_iff. rewrite Hc. simpl. now apply IH.
Qed.

Lemma forall_chars_impl (f g : ascii -> bool) (s : string) :
  (forall c, f c = true -> g c = true) ->
  forall_chars f s = true -> forall_chars g s = true.
Proof.
  intros Hfg. induction s as [|c s IH]; simpl; [reflexivity |].
  intros [Hc Hs]%andb_true_iff. rewrite (Hfg _ Hc). simpl. now apply IH.
Qed.

Lemma forall_chars_lstrip (f : ascii -> bool) (s : string) :
  forall_chars f s = true -> forall_chars f (lstrip s) = true.
Proof.
  induction s as [|c s IH]; simpl; [reflexivity |].
  intros H. destruct (isspace c); [| exact H].
  apply andb_true_iff in H as [_ H]. now apply IH.
Qed.

Lemma forall_chars_rstrip (f : ascii -> bool) (s : string) :
  forall_chars f s = true -> forall_chars f (rstrip s) = true.
Proof.
  induction s as [|c s IH]; simpl; [reflexivity |].
  intros [Hc Hs]%andb_true_iff. specialize (IH Hs).
  destruct (rstrip s) as [|d t].
  - destruct (isspace c); simpl; [reflexivity | now rewrite Hc].
  - simpl in *. now rewrite Hc, IH.
Qed.

Lemma forall_chars_strip (f : ascii -> bool) (s : string) :
  forall_chars f s = true -> forall_chars f (strip s) = true.
Proof. intros H. now apply forall_chars_rstrip, forall_chars_lstrip. Qed.

(** Every character of [str(n)] is a decimal digit. *)
Lemma str_nat_digits (n : nat) : forall_chars isdecimal (str_nat n) = true.
Proof.
  unfold str_nat. generalize (Nat.to_uint n). intros d.
  induction d; simpl; try reflexivity; exact IHd.
Qed.

(** ** Identifier Normalizer *)

Lemma cap_length_le (s : string) : String.length (cap_length s) <= 255.
Proof.
  unfold cap_length. destruct (255 <? String.length s) eqn:E.
  - apply Nat.ltb_lt in E. rewrite length_append, take_length_le by lia.
    simpl. lia.
  - apply Nat.ltb_ge in E. exact E.
Qed.

(** The invariant of the uniqueness loop: a property of the headers that
    the renaming keeps holds of every identifier produced. *)
Lemma dedup_fold_invariant (P : string -> Prop) (l : list string) :
  (forall h n, P h -> P (cap_length (h +:+ "_" +:+ str_nat n))) ->
  forall st,
    Forall P l -> Forall P (final_headers st) ->
    Forall P (final_headers (fold_left dedup_step l st)).
Proof.
  intros Hsuffix. induction l as [|h l IH]; intros st Hl Hst; simpl.
  - exact Hst.
  - inversion Hl as [|? ? Hh Hl']; subst. apply IH; [exact Hl' |].
    unfold dedup_step. destruct (seen st !! h); simpl;
      apply Forall_app; split; auto.
Qed.

Lemma dedup_fold_length (l : list string) (st : dedup_state) :
  length (final_headers (fold_left dedup_step l st))
  = length (final_headers st) + length l.
Proof.
  revert st; induction l as [|h l IH]; intros st; simpl; [lia |].
  rewrite IH. unfold dedup_step.
  destruct (seen st !! h); simpl; rewrite length_app; simpl; lia.
Qed.

Lemma name_unnamed_length (k : nat) (l : list string) :
  length (name_unnamed k l) = length l.
Proof.
  revert k; induction l as [|v l IH]; intros k; simpl; [reflexivity |].
  destruct (_ || _); simpl; now rewrite IH.
Qed.

(** Every input position gives one identifier. *)
Lemma normalise_headers_length (headers : list cell) :
  length (fst (normalise_headers headers)) = length headers.
Proof.
  unfold normalise_headers, sql_safe_list. simpl.
  rewrite dedup_fold_length. simpl.
  now rewrite length_map, name_unnamed_length, length_map.
Qed.

(** C1 (the code at the failing input).  The header row [a, a, a_2] is
    normalised to [a, a_2, a_2]: the second [a] is renamed to [a_2], which
    the third header already is, and the output holds a duplicate. *)
Theorem normalise_headers_duplicate :
  normalise_headers [Str "a"; Str "a"; Str "a_2"] = (["a"; "a_2"; "a_2"], 1)
  /\ ~ NoDup (fst (normalise_headers [Str "a"; Str "a"; Str "a_2"])).
Proof.
  assert (E : normalise_headers [Str "a"; Str "a"; Str "a_2"]
              = (["a"; "a_2"; "a_2"], 1)) by (vm_compute; reflexivity).
  split; [exact E |].
  rewrite E. simpl. intros H.
  apply NoDup_cons in H as [_ H]. apply NoDup_cons in H as [H _].
  apply H. left.
Qed.

Ltac ascii_cases c :=
  destruct c as [[] [] [] [] [] [] [] []]; vm_compute;
  try reflexivity; try discriminate; intros;
  try reflexivity; try discriminate.

Lemma lower_char_lowered (c : ascii) :
  (code c <? 128)%N = true -> lowered (lower_char c) = true.
Proof. ascii_cases c. Qed.

Lemma lowered_word_ident (c : ascii) :
  lowered c = true -> isword c = true -> ident_char c = true.
Proof. ascii_cases c. Qed.

Lemma ident_char_not_digit (c : ascii) :
  ident_char c = true -> isdigit c = false -> ident_start c = true.
Proof. ascii_cases c. Qed.

Lemma isdecimal_ident_char (c : ascii) : isdecimal c = true -> ident_char c = true.
Proof. ascii_cases c. Qed.

Lemma ident_start_char (c : ascii) : ident_start c = true -> ident_char c = true.
Proof. ascii_cases c. Qed.

Lemma lower_lowered (s : string) :
  forall_chars (fun c => (code c <? 128)%N) s = true ->
  forall_chars lowered (lower s) = true.
Proof.
  induction s as [|c s IH]; simpl; [reflexivity |].
  intros [Hc Hs]%andb_true_iff.
  now rewrite lower_char_lowered, IH.
Qed.

Lemma sub_spaces_lowered (b : bool) (s : string) :
  forall_chars lowered s = true -> forall_chars lowered (sub_spaces b s) = true.
Proof.
  revert b; induction s as [|c s IH]; intros b; simpl; [reflexivity |].
  intros [Hc Hs]%andb_true_iff.
  destruct (isspace c); [destruct b |]; simpl; rewrite ?Hc, ?IH; auto.
Qed.

Lemma filter_word_ident (s : string) :
  forall_chars lowered s = true ->
  forall_chars ident_char (filter_chars isword s) = true.
Proof.
  induction s as [|c s IH]; simpl; [reflexivity |].
  intros [Hc Hs]%andb_true_iff.
  destruct (isword c) eqn:Hw; simpl; rewrite ?IH; auto.
  now rewrite (lowered_word_ident c Hc Hw).
Qed.

(** Step 1 on ASCII text leaves only [a-z0-9_]. *)
Lemma clean_header_ident (h : cell) :
  ascii_text h = true -> forall_chars ident_char (clean_header h) = true.
Proof.
  intros H. unfold clean_header.
  apply filter_word_ident, sub_spaces_lowered, lower_lowered,
    forall_chars_strip, H.
Qed.

Lemma matches_identifier_chars (s : string) :
  matches_identifier s = true -> forall_chars ident_char s = true.
Proof.
  destruct s as [|c s]; simpl; [discriminate |].
  intros [Hc Hs]%andb_true_iff. now rewrite (ident_start_char c Hc), Hs.
Qed.

Lemma matches_identifier_append (s t : string) :
  matches_identifier s = true -> forall_chars ident_char t = true ->
  matches_identifier (s +:+ t) = true.
Proof.
  destruct s as [|c s]; simpl; [discriminate |].
  intros [Hc Hs]%andb_true_iff Ht. unfold_append. simpl.
  now rewrite Hc, forall_chars_append, Hs, Ht.
Qed.

Lemma matches_identifier_take (n : nat) (s : string) :
  matches_identifier s = true -> matches_identifier (take (S n) s) = true.
Proof.
  destruct s as [|c s]; simpl; [discriminate |].
  intros [Hc Hs]%andb_true_iff. now rewrite Hc, forall_chars_take.
Qed.

(** The length check keeps an identifier or cuts it to 252 characters and
    the ellipsis. *)
Lemma cap_length_identifier (s : string) :
  matches_identifier s = true -> identifier_or_truncated (cap_length s).
Proof.
  intros H. unfold cap_length.
  destruct (255 <? String.length s) eqn:E; [| now left].
  apply Nat.ltb_lt in E. right. exists (take 252 s).
  split; [reflexivity |]. split.
  - apply take_length_le. lia.
  - now apply matches_identifier_take.
Qed.

(** Renaming a duplicate keeps the form: a suffix [_n] on an identifier, and
    a cut name is cut to itself. *)
Lemma cap_length_suffix (h : string) (n : nat) :
  identifier_or_truncated h ->
  identifier_or_truncated (cap_length (h +:+ "_" +:+ str_nat n)).
Proof.
  intros [H | (p & -> & Hlen & Hp)].
  - apply cap_length_identifier, matches_identifier_append; [exact H |].
    unfold_append. simpl.
    apply (forall_chars_impl _ _ _ isdecimal_ident_char), str_nat_digits.
  - right. exists p. split; [| now split].
    unfold cap_length.
    assert (E : (255 <? String.length ((p +:+ "...") +:+ "_" +:+ str_nat n))
                = true).
    { apply Nat.ltb_lt. rewrite !length_append, Hlen. simpl. lia. }
    rewrite E. f_equal.
    rewrite <- Hlen at 1. rewrite append_assoc.
    apply take_append_exact.
Qed.

Lemma name_unnamed_ident (k : nat) (l : list string) :
  Forall (fun s => forall_chars ident_char s = true) l ->
  Forall (fun s => s <> EmptyString /\ forall_chars ident_char s = true)
    (name_unnamed k l).
Proof.
  revert k; induction l as [|v l IH]; intros k Hl; simpl; [constructor |].
  inversion Hl as [|? ? Hv Hl']; subst.
  destruct (String.eqb v "") eqn:E; simpl.
  - constructor; [| now apply IH]. split; [discriminate |].
    rewrite forall_chars_append. simpl.
    apply (forall_chars_impl _ _ _ isdecimal_ident_char), str_nat_digits.
  - destruct (String.eqb v "nan"); constructor; try (now apply IH).
    + split; [discriminate |]. rewrite forall_chars_append. simpl.
      apply (forall_chars_impl _ _ _ isdecimal_ident_char), str_nat_digits.
    + split; [| exact Hv]. now apply String.eqb_neq in E.
Qed.

Lemma sql_safe_identifier (s : string) :
  s <> EmptyString -> forall_chars ident_char s = true ->
  identifier_or_truncated (sql_safe s).
Proof.
  intros Hne Hs. unfold sql_safe.
  apply cap_length_identifier.
  assert (H1 : matches_identifier
                 (if starts_with_digit s then "col_" +:+ s else s) = true).
  { destruct s as [|c s]; [congruence |]. simpl in Hs.
    apply andb_true_iff in Hs as [Hc Hs]. simpl.
    destruct (isdigit c) eqn:Hd.
    - unfold_append. simpl. now rewrite Hc, Hs.
    - simpl. now rewrite (ident_char_not_digit c Hc Hd), Hs. }
  destruct (bool_decide _); [| exact H1].
  now apply matches_identifier_append.
Qed.

(** C2 (counterexample).  A header of 256 letters is cut to 252 letters and
    ["..."], which [^[a-z_][a-z0-9_]*$] does not match. *)
Lemma truncated_header_not_identifier :
  forallb matches_identifier (fst (normalise_headers [Str long_header])) = false.
Proof. vm_compute. reflexivity. Qed.

(** A letter above the ASCII range is a word character and stays: the
    header of the one code point 233 is returned as it is. *)
Lemma latin_letter_kept :
  fst (normalise_headers [Str (String (ascii_of_nat 233) "")])
  = [String (ascii_of_nat 233) ""]
  /\ matches_identifier (String (ascii_of_nat 233) "") = false.
Proof. split; vm_compute; reflexivity. Qed.

(** C2 (amended).  Every identifier has at most 255 characters; when the
    header text is ASCII, every identifier matches [^[a-z_][a-z0-9_]*$] or
    is 252 characters of such an identifier followed by ["..."]. *)
Theorem normalise_headers_shape (headers : list cell) :
  Forall (fun s => String.length s <= 255) (fst (normalise_headers headers))
  /\ (forallb ascii_text headers = true ->
      Forall identifier_or_truncated (fst (normalise_headers headers))).
Proof.
  unfold normalise_headers. cbn [fst]. split.
  - apply dedup_fold_invariant.
    + intros h n _. apply cap_length_le.
    + unfold sql_safe_list. apply Forall_map, Forall_forall.
      intros s _. apply cap_length_le.
    + constructor.
  - intros Hascii. apply dedup_fold_invariant.
    + intros h n Hh. now apply cap_length_suffix.
    + unfold sql_safe_list. apply Forall_map.
      assert (Hclean : Forall (fun s => forall_chars ident_char s = true)
                         (map clean_header headers)).
      { apply Forall_map. apply Forall_forall. intros h Hin.
        apply clean_header_ident.
        rewrite forallb_forall in Hascii. apply Hascii.
        now apply list_elem_of_In. }
      apply (name_unnamed_ident 1) in Hclean.
      eapply Forall_impl; [exact Hclean |].
      intros s [Hne Hs]. now apply sql_safe_identifier.
    + constructor.
Qed.

Lemma normalise_headers_shape_witness :
  forallb ascii_text
    [Str " Order  ID "; NaN; Str "2020 Sales"; Str "select";
     Str "Amount ($)"; Str "Amount ($)"; Str long_header] = true
  /\ Forall identifier_or_truncated
       (fst (normalise_headers
          [Str " Order  ID "; NaN; Str "2020 Sales"; Str "select";
           Str "Amount ($)"; Str "Amount ($)"; Str long_header])).
Proof.
  split; [vm_compute; reflexivity |].
  apply normalise_headers_shape. vm_compute. reflexivity.
Defined.

(** ** Ratios *)

Lemma Zpos_of_nat (b : nat) : 0 < b -> Zpos (Pos.of_nat b) = Z.of_nat b.
Proof.
  intros H. rewrite <- positive_nat_Z, Nat2Pos.id by lia. reflexivity.
Qed.

(** A threshold [n/d] against the quotient of two counts. *)
Lemma Qle_bool_ratio (n : Z) (d : positive) (a b : nat) :
  0 < b ->
  Qle_bool (n # d) (ratio a b) = true
  <-> (n * Z.of_nat b <= Z.of_nat a * Zpos d)%Z.
Proof.
  intros Hb. unfold Qle_bool, ratio. simpl.
  rewrite Zpos_of_nat by exact Hb. apply Z.leb_le.
Qed.

Lemma Qlt_bool_ratio (n : Z) (d : positive) (a b : nat) :
  0 < b ->
  Qlt_bool (ratio a b) (n # d) = true
  <-> (Z.of_nat a * Zpos d < n * Z.of_nat b)%Z.
Proof.
  intros Hb. unfold Qlt_bool. rewrite negb_true_iff.
  rewrite <- not_true_iff_false, Qle_bool_ratio by exact Hb. lia.
Qed.

Lemma Qle_bool_scaled (n : Z) (d : positive) (a b : nat) :
  Qle_bool (of_count a * (n # d)) (of_count b) = true
  <-> (Z.of_nat a * n <= Z.of_nat b * Zpos d)%Z.
Proof.
  unfold Qle_bool, of_count. simpl. rewrite Z.leb_le. lia.
Qed.

(** ** Frames *)


(** The labels a loop collects are those on which its test holds. *)
Lemma collect_labels (f : nat -> bool) (l acc : list nat) :
  fold_left (fun acc idx => if f idx then acc ++ [idx] else acc) l acc
  = acc ++ List.filter f l.
Proof.
  revert acc; induction l as [|x l IH]; intros acc; simpl.
  - now rewrite app_nil_r.
  - rewrite IH. destruct (f x); [| reflexivity].
    now rewrite <- app_assoc.
Qed.

Lemma existsb_filter_label (f : nat -> bool) (l : list nat) (x : nat) :
  In x l -> existsb (Nat.eqb x) (List.filter f l) = f x.
Proof.
  intros Hin. destruct (f x) eqn:E.
  - apply existsb_exists. exists x. split; [| apply Nat.eqb_refl].
    apply filter_In. now split.
  - apply not_true_iff_false. intros (y & Hy & Hxy)%existsb_exists.
    apply Nat.eqb_eq in Hxy. subst y.
    apply filter_In in Hy as [_ Hy]. congruence.
Qed.

Lemma filter_ext_in {A} (f g : A -> bool) (l : list A) :
  (forall x, In x l -> f x = g x) -> List.filter f l = List.filter g l.
Proof.
  induction l as [|x l IH]; simpl; intros H; [reflexivity |].
  rewrite (H x) by now left. rewrite IH; [reflexivity |].
  intros y Hy. apply H. now right.
Qed.

(** Dropping the labels a test selects keeps the rows on which it fails. *)
Lemma drop_selected (f : nat -> bool) (df : frame) :
  rows (drop_index (List.filter f (index df)) df)
  = List.filter (fun r => negb (f (label r))) (rows df).
Proof.
  unfold drop_index. simpl. apply filter_ext_in. intros r Hr.
  rewrite existsb_filter_label; [reflexivity |].
  unfold index. now apply in_map.
Qed.

Lemma imap_cells (f : nat -> row -> row) (l : list row) :
  (forall i r, cells (f i r) = cells r) ->
  map cells (imap f l) = map cells l.
Proof.
  revert f; induction l as [|r l IH]; intros f Hf; [reflexivity |].
  rewrite imap_cons. simpl. rewrite Hf. f_equal.
  apply IH. intros i x. apply Hf.
Qed.

Lemma reset_index_cells (df : frame) :
  map cells (rows (reset_index df)) = map cells (rows df).
Proof. unfold reset_index. simpl. now apply imap_cells. Qed.

Lemma reset_index_len (df : frame) : len (reset_index df) = len df.
Proof. unfold len, reset_index. simpl. apply length_imap. Qed.

Lemma filter_map_label (f : nat -> bool) (l : list row) :
  List.filter f (map label l) = map label (List.filter (fun r => f (label r)) l).
Proof.
  induction l as [|r l IH]; simpl; [reflexivity |].
  destruct (f (label r)); simpl; now rewrite IH.
Qed.

(** ** Noise Row Filter: repeated headers *)





(** The value set of a row holds the stripped, lowercased text of its
    non-blank values. *)
Lemma elem_of_row_value_set (row_values : list string) (x : string) :
  x ∈ row_value_set row_values
  <-> exists v, In v row_values /\ strip v <> EmptyString /\ x = lower (strip v).
Proof.
  unfold row_value_set.
  assert (H : forall (acc : gset string),
             x ∈ fold_left
                   (fun row_set v =>
                      if String.eqb (strip v) ""
                      then row_set else {[ lower (strip v) ]} ∪ row_set)
                   row_values acc
             <-> x ∈ acc
                 \/ exists v, In v row_values /\ strip v <> EmptyString
                              /\ x = lower (strip v)).
  { induction row_values as [|v l IH]; intros acc; cbn [fold_left].
    - split; [auto | intros [H | (v & [] & _)]; exact H].
    - rewrite IH. destruct (String.eqb_spec (strip v) "") as [E | E].
      + split.
        * intros [H | (w & Hw & Hne & Hx)]; [auto |].
          right. exists w. split; [now right | auto].
        * intros [H | (w & [<- | Hw] & Hne & Hx)]; [auto | congruence |].
          right. exists w. auto.
      + rewrite elem_of_union, elem_of_singleton. split.
        * intros [[-> | H] | (w & Hw & Hne & Hx)]; [| auto |].
          -- right. exists v. split; [now left | auto].
          -- right. exists w. split; [now right | auto].
        * intros [H | (w & [<- | Hw] & Hne & Hx)]; [auto | auto |].
          right. exists w. auto. }
  rewrite H. split; [| auto].
  intros [Hx | Hx]; [now apply not_elem_of_empty in Hx | exact Hx].
Qed.

Lemma lower_nonempty (s : string) : s <> EmptyString -> lower s <> EmptyString.
Proof. destruct s; [congruence | discriminate]. Qed.

Lemma matched_names_distinct (hs row_values : list string) :
  NoDup (map (fun h => lower (strip h)) hs) ->
  NoDup (map (fun hv => lower (strip (fst hv)))
           (List.filter
              (fun hv => String.eqb (lower (strip (snd hv)))
                           (lower (strip (fst hv))))
              (combine hs row_values))).
Proof.
  revert row_values.
  induction hs as [|h hs IH]; intros [|v vs] Hnd; cbn [combine List.filter map];
    try constructor.
  apply NoDup_cons in Hnd as [Hh Hnd]. cbn [fst snd].
  destruct (String.eqb _ _); cbn [map fst]; [| now apply IH].
  apply NoDup_cons. split; [| now apply IH].
  intros Hin. apply Hh. apply list_elem_of_In in Hin.
  apply in_map_iff in Hin as ([h' v'] & E & Hin').
  apply filter_In in Hin' as [Hin' _]. apply in_combine_l in Hin'.
  cbn [fst] in E. rewrite <- E.
  apply list_elem_of_In, (in_map (fun h => lower (strip h))). exact Hin'.
Qed.

(** Where the header names are distinct and non-blank, the overlap of a row
    with the header set is at least the number of positions that match. *)
Lemma overlap_covers_matches (hs row_values : list string) :
  NoDup (map (fun h => lower (strip h)) hs) ->
  Forall (fun h => strip h <> EmptyString) hs ->
  position_matches hs row_values
  <= size (row_value_set row_values ∩ header_value_set hs).
Proof.
  intros Hnd Hne. unfold position_matches.
  set (matched := List.filter
                    (fun hv => String.eqb (lower (strip (snd hv)))
                                 (lower (strip (fst hv))))
                    (combine hs row_values)).
  set (names := map (fun hv => lower (strip (fst hv))) matched).
  assert (Hnames : NoDup names)
    by (apply matched_names_distinct, Hnd).
  rewrite <- (length_map (fun hv => lower (strip (fst hv))) matched).
  fold names. rewrite <- (size_list_to_set (C := gset string) names Hnames).
  apply subseteq_size. intros x Hx.
  apply elem_of_list_to_set, list_elem_of_In, in_map_iff in Hx
    as ([h v] & <- & Hin).
  apply filter_In in Hin as [Hin Heq]. cbn [fst snd] in *.
  apply String.eqb_eq in Heq.
  assert (Hh : strip h <> EmptyString).
  { rewrite Forall_forall in Hne. apply Hne, list_elem_of_In.
    now apply in_combine_l in Hin. }
  apply elem_of_intersection. split.
  - apply elem_of_row_value_set. exists v. split; [now apply in_combine_r in Hin |].
    split; [| now symmetry].
    intros E. rewrite E in Heq. cbn [lower] in Heq.
    now apply (lower_nonempty _ Hh).
  - unfold header_value_set. apply elem_of_list_to_set, list_elem_of_In.
    apply (in_map (fun h => lower (strip h))), filter_In.
    split; [now apply in_combine_l in Hin |].
    apply negb_true_iff, String.eqb_neq, Hh.
Qed.

Lemma header_value_set_size (hs : list string) :
  NoDup (map (fun h => lower (strip h)) hs) ->
  Forall (fun h => strip h <> EmptyString) hs ->
  size (header_value_set hs) = length hs.
Proof.
  intros Hnd Hne. unfold header_value_set.
  replace (List.filter (fun h => negb (String.eqb (strip h) "")) hs) with hs.
  - rewrite size_list_to_set by exact Hnd. apply length_map.
  - clear Hnd. induction hs as [|h hs IH]; [reflexivity |].
    apply Forall_cons in Hne as [Hh Hne]. cbn [List.filter].
    apply String.eqb_neq in Hh. rewrite Hh. cbn [negb]. now rewrite <- IH.
Qed.

(** On header names that are distinct and non-blank, as the Identifier
    Normalizer means them to be, the test of the specification and the test
    of the engine agree. *)
Lemma claimed_test_agrees (hs : list string) (row_data : list cell) :
  NoDup (map (fun h => lower (strip h)) hs) ->
  Forall (fun h => strip h <> EmptyString) hs ->
  claimed_repeated_header hs row_data
  = is_repeated_header hs (header_value_set hs) row_data.
Proof.
  intros Hnd Hne. unfold claimed_repeated_header, is_repeated_header.
  pose proof (overlap_covers_matches hs (map astype_str row_data) Hnd Hne)
    as Hcover.
  pose proof (header_value_set_size hs Hnd Hne) as Hsize.
  assert (Hsub : size (row_value_set (map astype_str row_data)
                       ∩ header_value_set hs)
                 <= size (row_value_set (map astype_str row_data))).
  { apply subseteq_size, intersection_subseteq_l. }
  set (rs := row_value_set (map astype_str row_data)) in *.
  set (pm := position_matches hs (map astype_str row_data)) in *.
  set (ov := size (rs ∩ header_value_set hs)) in *.
  destruct (0 <? size rs) eqn:Hrs; [| reflexivity]. cbn [andb].
  f_equal. apply Nat.ltb_lt in Hrs.
  destruct (0 <? length hs) eqn:Hn; cbn [andb].
  - apply Nat.ltb_lt in Hn. apply eq_true_iff_eq.
    rewrite !andb_true_iff, Qle_bool_ratio, !Qle_bool_scaled by exact Hn.
    rewrite Hsize. lia.
  - symmetry. apply andb_false_iff. left. reflexivity.
Qed.

(** ** Noise Row Filter: total rows *)

Lemma zip_with_repeat {A B C} (f : A -> B -> C) (l : list A) (v : B) :
  zip_with f l (repeat v (length l)) = map (fun x => f x v) l.
Proof. induction l as [|x l IH]; simpl; [reflexivity | now rewrite IH]. Qed.

Lemma set_column_scalar_labels (name : string) (v : cell) (df : frame) :
  index (set_column_scalar name v df) = index df.
Proof.
  unfold index, set_column_scalar, set_column, len.
  destruct (in_list name (columns df)); simpl;
    rewrite zip_with_repeat, map_map; reflexivity.
Qed.

Lemma set_column_scalar_len (name : string) (v : cell) (df : frame) :
  len (set_column_scalar name v df) = len df.
Proof.
  unfold len at 1 2. rewrite <- (length_map label (rows (set_column_scalar _ _ _))).
  fold (index (set_column_scalar name v df)).
  rewrite set_column_scalar_labels. unfold index. apply length_map.
Qed.

Lemma tag_row_label (cols : list string) (r : row) : label (tag_row cols r) = label r.
Proof. unfold tag_row. now destruct (flagged_row r). Qed.

Lemma find_label_app (done todo : list row) (r : row) :
  ~ In (label r) (map label done) ->
  find (fun x => label x =? label r) (done ++ r :: todo) = Some r.
Proof.
  induction done as [|x done IH]; simpl; intros Hnot.
  - now rewrite Nat.eqb_refl.
  - destruct (label x =? label r) eqn:E.
    + apply Nat.eqb_eq in E. exfalso. apply Hnot. now left.
    + apply IH. intros H. apply Hnot. now right.
Qed.

Lemma map_unlabelled (f : row -> row) (idx : nat) (l : list row) :
  ~ In idx (map label l) ->
  map (fun r => if label r =? idx then f r else r) l = l.
Proof.
  induction l as [|x l IH]; simpl; intros Hnot; [reflexivity |].
  destruct (label x =? idx) eqn:E.
  - apply Nat.eqb_eq in E. exfalso. apply Hnot. now left.
  - rewrite IH; [reflexivity |]. intros H. apply Hnot. now right.
Qed.

Lemma set_at_len (idx : nat) (name : string) (v : cell) (df : frame) :
  len (set_at idx name v df) = len df.
Proof. unfold len, set_at. simpl. apply length_map. Qed.

Lemma set_at_rows (name : string) (v : cell) (df : frame)
    (done todo : list row) (r : row) :
  rows df = done ++ r :: todo ->
  ~ In (label r) (map label done) ->
  ~ In (label r) (map label todo) ->
  rows (set_at (label r) name v df)
  = done ++ {| label := label r;
               cells := set_cells name v (columns df) (cells r) |} :: todo.
Proof.
  intros Hrows Hdone Htodo. unfold set_at. cbn [rows]. rewrite Hrows.
  rewrite map_app. cbn [map]. rewrite Nat.eqb_refl.
  now rewrite !map_unlabelled.
Qed.

(** The loop of [detect_total_rows], when the labels are distinct: the rows
    still to visit are as they were, and visiting them tags the flagged
    ones and collects the two lists of labels. *)
Lemma totals_loop (todo done : list row) (st : totals_state) :
  rows (tagged st) = done ++ todo ->
  NoDup (map label (done ++ todo)) ->
  rows (tagged (fold_left totals_step (map label todo) st))
  = done ++ map (tag_row (columns (tagged st))) todo
  /\ columns (tagged (fold_left totals_step (map label todo) st))
     = columns (tagged st)
  /\ flagged_indices (fold_left totals_step (map label todo) st)
     = flagged_indices st ++ map label (List.filter flagged_row todo)
  /\ dropped_indices (fold_left totals_step (map label todo) st)
     = dropped_indices st
       ++ map label (List.filter (dropped_row (len (tagged st))) todo).
Proof.
  revert done st. induction todo as [|r todo IH]; intros done st Hrows Hnd.
  - simpl. rewrite !app_nil_r in *. auto.
  - cbn [map fold_left].
    assert (Hsplit := Hnd). rewrite map_app in Hsplit. cbn [map] in Hsplit.
    apply NoDup_app in Hsplit as (_ & Hdisj & Htodo).
    apply NoDup_cons in Htodo as [Hnot_todo _].
    assert (Hnot_done : ~ In (label r) (map label done)).
    { intros Hin%list_elem_of_In. apply (Hdisj _ Hin). left. }
    assert (Hloc : loc (tagged st) (label r) = cells r).
    { unfold loc. rewrite Hrows, find_label_app by exact Hnot_done.
      reflexivity. }
    assert (Hstep : rows (tagged (totals_step st (label r)))
                    = (done ++ [tag_row (columns (tagged st)) r]) ++ todo
                    /\ columns (tagged (totals_step st (label r)))
                       = columns (tagged st)
                    /\ len (tagged (totals_step st (label r))) = len (tagged st)
                    /\ flagged_indices (totals_step st (label r))
                       = flagged_indices st
                         ++ map label (List.filter flagged_row [r])
                    /\ dropped_indices (totals_step st (label r))
                       = dropped_indices st
                         ++ map label
                              (List.filter (dropped_row (len (tagged st))) [r])).
    { unfold totals_step, tag_row, dropped_row, flagged_row.
      rewrite Hloc. cbn [List.filter].
      destruct (is_total (cells r)) eqn:Ht; cbn [tagged flagged_indices dropped_indices].
      - rewrite set_at_len.
        rewrite (set_at_rows _ _ _ done todo r Hrows Hnot_done)
          by (intros H%list_elem_of_In; contradiction).
        rewrite <- app_assoc. repeat split; try reflexivity.
        cbn [andb]. destruct (high_confidence _ _ _); cbn [map];
          now rewrite ?app_nil_r.
      - cbn [map]. rewrite Hrows, <- app_assoc, !app_nil_r. auto. }
    destruct Hstep as (Hr & Hc & Hl & Hf & Hd).
    destruct (IH (done ++ [tag_row (columns (tagged st)) r])
                (totals_step st (label r)) Hr) as (IHr & IHc & IHf & IHd).
    { rewrite !map_app in *. cbn [map] in *.
      rewrite tag_row_label, <- app_assoc. exact Hnd. }
    rewrite IHr, IHc, IHf, IHd, Hc, Hl, Hf, Hd, <- !app_assoc.
    cbn [map List.filter app].
    repeat split; try reflexivity.
    + destruct (flagged_row r); reflexivity.
    + destruct (dropped_row (len (tagged st)) r); reflexivity.
Qed.

Lemma NoDup_label_eq (l : list row) (x y : row) :
  NoDup (map label l) -> In x l -> In y l -> label x = label y -> x = y.
Proof.
  induction l as [|z l IH]; simpl; [tauto |].
  intros [Hz Hnd]%NoDup_cons [-> | Hx] [-> | Hy] E; auto.
  - exfalso. apply Hz. rewrite E. now apply list_elem_of_In, in_map.
  - exfalso. apply Hz. rewrite <- E. now apply list_elem_of_In, in_map.
Qed.

Lemma existsb_selected_label (f : row -> bool) (l : list row) (r : row) :
  NoDup (map label l) -> In r l ->
  existsb (Nat.eqb (label r)) (map label (List.filter f l)) = f r.
Proof.
  intros Hnd Hr. destruct (f r) eqn:E.
  - apply existsb_exists. exists (label r). split; [| apply Nat.eqb_refl].
    apply in_map, filter_In. now split.
  - apply not_true_iff_false. intros (i & Hi & Hri)%existsb_exists.
    apply Nat.eqb_eq in Hri. subst i.
    apply in_map_iff in Hi as (y & Hy & Hin).
    apply filter_In in Hin as [Hin Hfy].
    rewrite (NoDup_label_eq l r y Hnd Hr Hin (eq_sym Hy)) in E. congruence.
Qed.

Lemma filter_none_all {A} (f : A -> bool) (l : list A) :
  List.filter f l = [] -> List.filter (fun x => negb (f x)) l = l.
Proof.
  induction l as [|x l IH]; simpl; [reflexivity |].
  destruct (f x); [discriminate |]. intros H. simpl. now rewrite IH.
Qed.

Lemma filter_map_tag (g : row -> row) (f : row -> bool) (keep : nat -> bool)
    (l : list row) :
  (forall r, label (g r) = label r) ->
  (forall r, In r l -> keep (label r) = f r) ->
  List.filter (fun r => keep (label r)) (map g l) = map g (List.filter f l).
Proof.
  intros Hg. induction l as [|r l IH]; simpl; intros Hk; [reflexivity |].
  rewrite Hg, (Hk r) by now left.
  rewrite IH by (intros x Hx; apply Hk; now right).
  now destruct (f r).
Qed.

Lemma is_near_end_rule (n idx : nat) :
  is_near_end n idx = true <-> 9 * n <= 10 * idx.
Proof. unfold is_near_end. rewrite Qle_bool_scaled. lia. Qed.

(** What [detect_total_rows] returns, read off the rows of the frame with
    the tag column. *)
Lemma detect_total_rows_outcome (df : frame) :
  NoDup (index df) -> empty df = false ->
  map cells (rows (fst (fst (detect_total_rows df))))
  = map cells
      (map (tag_row (columns (set_column_scalar "__is_total_row" (Flag false) df)))
         (List.filter (fun r => negb (dropped_row (len df) r))
            (rows (set_column_scalar "__is_total_row" (Flag false) df))))
  /\ snd (fst (detect_total_rows df))
     = length (List.filter flagged_row
                 (rows (set_column_scalar "__is_total_row" (Flag false) df)))
  /\ snd (detect_total_rows df)
     = length (List.filter (dropped_row (len df))
                 (rows (set_column_scalar "__is_total_row" (Flag false) df))).
Proof.
  intros Hnd Hne. unfold detect_total_rows. rewrite Hne.
  set (df0 := set_column_scalar "__is_total_row" (Flag false) df).
  set (st0 := {| tagged := df0; flagged_indices := []; dropped_indices := [] |}).
  assert (Hnd0 : NoDup (map label (rows df0))).
  { change (NoDup (index df0)). unfold df0.
    now rewrite set_column_scalar_labels. }
  destruct (totals_loop (rows df0) [] st0 eq_refl Hnd0) as (Hr & Hc & Hf & Hd).
  change (map label (rows df0)) with (index df0) in Hr, Hc, Hf, Hd.
  cbn [tagged flagged_indices dropped_indices app st0] in Hr, Hc, Hf, Hd.
  replace (len df0) with (len df) in Hd
    by (symmetry; apply set_column_scalar_len).
  cbn [fst snd]. rewrite Hf, Hd, !length_map.
  split; [| split; reflexivity].
  destruct (map label (List.filter (dropped_row (len df)) (rows df0)))
    as [|i rest] eqn:E.
  - rewrite Hr. rewrite filter_none_all; [reflexivity |].
    now apply map_eq_nil in E.
  - rewrite reset_index_cells. unfold drop_index. cbn [rows]. rewrite Hr.
    rewrite <- E. f_equal.
    apply (filter_map_tag _ (fun r => negb (dropped_row (len df) r))
             (fun i => negb (existsb (Nat.eqb i)
                               (map label (List.filter (dropped_row (len df))
                                             (rows df0)))))).
    + apply tag_row_label.
    + intros r Hin. now rewrite existsb_selected_label.
Qed.

(** The drop test of one flagged row. *)
Lemma dropped_row_rule (n : nat) (r : row) :
  dropped_row n r = true
  <-> flagged_row r = true
      /\ any_keyword specific_keywords (row_string (cells r)) = true
      /\ (mostly_numeric (cells r) = true \/ 9 * n <= 10 * label r).
Proof.
  unfold dropped_row, high_confidence.
  rewrite !andb_true_iff, orb_true_iff, is_near_end_rule. tauto.
Qed.




(** ** SQL Sanitizer *)

(** C5 (the code at the failing input).  In a VARCHAR column the first pass
    replaces "NULL", which is in its list, and leaves "Null", "NONE" and
    "none", which are not; the VARCHAR pass keeps them as text. *)
Theorem sanitize_keeps_case_variants
    (to_datetime : string -> option Strptime.datetime) (float_repr : Q -> string) :
  analyze_column_types
    (frame_of ["note"] [["Null"]; ["NONE"]; ["none"]; ["NULL"]; ["kept"]])
    !! "note"
  = Some {| recommended_type := VARCHAR;
            sample_values := ["Null"; "NONE"; "none"] |}
  /\ sanitize_for_sql to_datetime float_repr
       (frame_of ["note"] [["Null"]; ["NONE"]; ["none"]; ["NULL"]; ["kept"]])
       (analyze_column_types
          (frame_of ["note"] [["Null"]; ["NONE"]; ["none"]; ["NULL"]; ["kept"]]))
     = {| columns := ["note"];
          rows := [ {| label := 0; cells := [Str "Null"] |};
                    {| label := 1; cells := [Str "NONE"] |};
                    {| label := 2; cells := [Str "none"] |};
                    {| label := 3; cells := [NA] |};
                    {| label := 4; cells := [Str "kept"] |} ] |}.
Proof. split; vm_compute; reflexivity. Qed.








(** ** Pipeline Orchestrator *)

Section OrchestratorFacts.

Variable clean : frame -> exn + frame * metadata.
Variable to_datetime : string -> option Strptime.datetime.
Variable float_repr : Q -> string.
Variable validate_data_for_sql :
  frame -> gmap string column_profile -> list message * list message.

Local Abbreviation region_step :=
  (process_region clean to_datetime float_repr validate_data_for_sql).
Local Abbreviation regions_loop :=
  (process_regions clean to_datetime float_repr validate_data_for_sql).
Local Abbreviation sheet_step :=
  (process_sheet clean to_datetime float_repr validate_data_for_sql).













End OrchestratorFacts.



(** ** One region: the row count *)

Lemma filter_length_le' {A} (f : A -> bool) (l : list A) :
  length (List.filter f l) <= length l.
Proof.
  induction l as [|x l IH]; simpl; [lia |]. destruct (f x); simpl; lia.
Qed.

Lemma zip_with_length_le {A B C} (f : A -> B -> C) (l : list A) (k : list B) :
  length (zip_with f l k) <= length l.
Proof.
  revert k; induction l as [|x l IH]; intros [|y k]; simpl; try lia.
  specialize (IH k). lia.
Qed.

(** Header-row removal keeps a part of the rows. *)
Lemma loc_from_len (k : nat) (df : frame) : len (loc_from k df) <= len df.
Proof. apply filter_length_le'. Qed.

Lemma drop_index_len (labels : list nat) (df : frame) :
  len (drop_index labels df) <= len df.
Proof. apply filter_length_le'. Qed.

(** Repeated-header removal only removes rows. *)
Lemma detect_repeated_headers_len (df : frame) (hs : list string) :
  len (fst (detect_repeated_headers df hs)) <= len df.
Proof.
  unfold detect_repeated_headers.
  destruct (empty df || (length hs =? 0)); [simpl; lia |].
  destruct (size (header_value_set hs) =? 0); [simpl; lia |].
  destruct (fold_left _ _ _); cbn [fst]; [lia |].
  rewrite reset_index_len. apply drop_index_len.
Qed.

(** Dropping empty rows only removes rows. *)
Lemma dropna_rows_len (df : frame) : len (dropna_rows df) <= len df.
Proof. apply filter_length_le'. Qed.

Lemma totals_loop_len (l : list nat) (st : totals_state) :
  len (tagged (fold_left totals_step l st)) = len (tagged st).
Proof.
  revert st; induction l as [|idx l IH]; intros st; [reflexivity |].
  cbn [fold_left]. rewrite IH. unfold totals_step.
  destruct (is_total _); [apply set_at_len | reflexivity].
Qed.

(** Total-row removal tags rows and only removes rows. *)
Lemma detect_total_rows_len (df : frame) :
  len (fst (fst (detect_total_rows df))) <= len df.
Proof.
  unfold detect_total_rows. destruct (empty df); [simpl; lia |].
  cbn [fst].
  set (st := fold_left _ _ _).
  assert (H : len (tagged st) = len df).
  { unfold st. rewrite totals_loop_len. apply set_column_scalar_len. }
  destruct (dropped_indices st); [lia |].
  rewrite reset_index_len, <- H. apply drop_index_len.
Qed.

Lemma set_column_len (name : string) (values : list cell) (df : frame) :
  len (set_column name values df) <= len df.
Proof.
  unfold set_column, len.
  destruct (in_list name (columns df)); apply zip_with_length_le.
Qed.

(** Fill-down rewrites cells and adds no row. *)
Lemma fill_down_context_len (df : frame) (context_columns : list string) :
  len (fill_down_context df context_columns) <= len df.
Proof.
  unfold fill_down_context. destruct context_columns as [|c cs]; [lia |].
  destruct (empty df); [lia |].
  generalize (c :: cs). intros l. revert df.
  induction l as [|col l IH]; intros df; [simpl; lia |].
  cbn [fold_left]. etransitivity; [apply IH |].
  unfold fill_column. destruct (get_column col df); [| lia].
  apply set_column_len.
Qed.

(** C7.  The row count a region reports on input is that of the region
    without its empty rows, and the count it reports on output is no
    larger: header-row removal, repeated-header removal, empty-row dropping,
    total-row removal, fill-down and duplicate flagging add no row. *)
Theorem clean_single_sheet_rows (df_raw : frame) :
  rows_in (snd (clean_single_sheet df_raw))
  = len (dropna_columns (dropna_rows df_raw))
  /\ rows_out (snd (clean_single_sheet df_raw))
     <= rows_in (snd (clean_single_sheet df_raw)).
Proof.
  unfold clean_single_sheet.
  set (df := dropna_columns (dropna_rows df_raw)).
  destruct (empty df); [simpl; split; [reflexivity | lia] |].
  destruct (detect_header_depth df) as [header_idx header_depth].
  destruct (normalise_headers _) as [normalized_headers dup_col_count].
  set (df1 := set_columns normalized_headers
                (reset_index (loc_from (header_idx + header_depth) df))).
  assert (H1 : len df1 <= len df).
  { unfold df1, set_columns, len at 1. cbn [rows].
    fold (len (reset_index (loc_from (header_idx + header_depth) df))).
    rewrite reset_index_len. apply loc_from_len. }
  pose proof (detect_repeated_headers_len df1 normalized_headers) as H2.
  destruct (detect_repeated_headers df1 normalized_headers) as [df2 rep].
  cbn [fst] in H2.
  pose proof (dropna_rows_len df2) as H3.
  set (df3 := dropna_rows df2) in *.
  assert (H4 : len (fst (fst (if empty df3 then (df3, 0, 0)
                              else detect_total_rows df3))) <= len df3).
  { destruct (empty df3); [simpl; lia | apply detect_total_rows_len]. }
  destruct (if empty df3 then (df3, 0, 0) else detect_total_rows df3)
    as [[df4 flagged] dropped].
  cbn [fst] in H4.
  set (ctx := if empty df4 then [] else detect_context_columns df4 normalized_headers).
  pose proof (fill_down_context_len df4 ctx) as H5.
  set (df5 := fill_down_context df4 ctx) in *.
  pose proof (set_column_len "__possible_duplicate"
                (if empty df5 then [] else duplicated df5) df5) as H6.
  cbn [snd rows_in rows_out]. split; [reflexivity | lia].
Qed.

(** ** Type Profiler *)

(** The counters of the loop are the numbers of values of each kind. *)
Lemma count_types_loop (series : list string) (st : type_counts) :
  int_count (fold_left count_step series st)
  = int_count st + count_kind AsInt series
  /\ float_count (fold_left count_step series st)
     = float_count st + count_kind AsFloat series
  /\ date_count (fold_left count_step series st)
     = date_count st + count_kind AsDate series + count_kind AsTimestamp series
  /\ has_timestamp (fold_left count_step series st)
     = has_timestamp st || (0 <? count_kind AsTimestamp series).
Proof.
  revert st. induction series as [|val series IH]; intros st.
  - unfold count_kind. simpl. rewrite orb_false_r. repeat split; lia.
  - cbn [fold_left]. destruct (IH (count_step st val)) as (Hi & Hf & Hd & Ht).
    rewrite Hi, Hf, Hd, Ht. unfold count_kind, count_step. cbn [List.filter].
    destruct (classify val); cbn [kind_eqb length int_count float_count
                                  date_count has_timestamp];
      repeat split; try lia;
      rewrite ?orb_true_r, ?orb_true_l; try reflexivity.
Qed.

Lemma percent_reaches (pct count total : nat) :
  Qle_bool (inject_Z (Z.of_nat pct)) (percent count total)
  = reaches pct count total \/ pct = 0.
Proof.
  unfold percent, reaches. destruct (0 <? total) eqn:Ht.
  - left. apply Nat.ltb_lt in Ht. apply eq_true_iff_eq.
    unfold Qle_bool, ratio, Qmult, inject_Z. cbn [Qnum Qden andb].
    rewrite Pos.mul_1_r, Zpos_of_nat by exact Ht.
    rewrite Z.leb_le, Nat.leb_le. lia.
  - destruct pct; [now right | left]. reflexivity.
Qed.

(** C8.  The recommendation follows the thresholds in their order: date
    values at least 80% of the column (TIMESTAMP_NTZ when one of them had a
    time part, else DATE), else integers at least 90%, else floats at least
    80%, else VARCHAR.  So 1, 2, 3, x is VARCHAR and 1, 2, 3, 4 is INTEGER. *)
Theorem analyze_column_thresholds (col_data : list cell) :
  recommended_type (analyze_column col_data)
  = (if reaches 80
          (count_kind AsDate (dropna_astype_str col_data)
           + count_kind AsTimestamp (dropna_astype_str col_data))
          (length (dropna_astype_str col_data))
     then (if 0 <? count_kind AsTimestamp (dropna_astype_str col_data)
           then TIMESTAMP_NTZ else DATE)
     else if reaches 90 (count_kind AsInt (dropna_astype_str col_data))
               (length (dropna_astype_str col_data))
     then INTEGER
     else if reaches 80 (count_kind AsFloat (dropna_astype_str col_data))
               (length (dropna_astype_str col_data))
     then FLOAT
     else VARCHAR)
  /\ recommended_type (analyze_column (map Str ["1"; "2"; "3"; "x"])) = VARCHAR
  /\ recommended_type (analyze_column (map Str ["1"; "2"; "3"; "4"])) = INTEGER
  /\ recommended_type
       <$> analyze_column_types (frame_of ["n"] [["1"]; ["2"]; ["3"]; ["x"]])
           !! "n"
     = Some VARCHAR
  /\ recommended_type
       <$> analyze_column_types (frame_of ["n"] [["1"]; ["2"]; ["3"]; ["4"]])
           !! "n"
     = Some INTEGER.
Proof.
  split; [| repeat split; vm_compute; reflexivity].
  unfold analyze_column.
  set (series := dropna_astype_str col_data).
  destruct series as [|val rest] eqn:E.
  - reflexivity.
  - rewrite <- E. clear E val rest. cbn [recommended_type].
    unfold count_types.
    destruct (count_types_loop series
                {| int_count := 0; float_count := 0; date_count := 0;
                   has_timestamp := false |}) as (Hi & Hf & Hd & Ht).
    rewrite Hi, Hf, Hd, Ht. cbn [int_count float_count date_count has_timestamp
                                 orb Nat.add].
    unfold recommend.
    change 80%Q with (inject_Z (Z.of_nat 80)).
    change 90%Q with (inject_Z (Z.of_nat 90)).
    destruct (percent_reaches 80
                (count_kind AsDate series + count_kind AsTimestamp series)
                (length series)) as [-> | ?]; [| discriminate].
    destruct (percent_reaches 90 (count_kind AsInt series) (length series))
      as [-> | ?]; [| discriminate].
    destruct (percent_reaches 80 (count_kind AsFloat series) (length series))
      as [-> | ?]; [| discriminate].
    reflexivity.
Qed.

(** ** Context Filler *)

Lemma fill_series_length (lv : option string) (series : list string) :
  length (fill_series lv series) = length series.
Proof.
  revert lv; induction series as [|val rest IH]; intros lv; simpl;
    [reflexivity |].
  destruct (is_blank (strip val)); [destruct lv |]; simpl; now rewrite IH.
Qed.




Lemma column_position_in_list (name : string) (cols : list string) (i : nat) :
  column_position name cols = Some i -> in_list name cols = true.
Proof.
  revert i; induction cols as [|c cols IH]; intros i; simpl; [discriminate |].
  rewrite (String.eqb_sym name c).
  destruct (String.eqb c name); [reflexivity |].
  destruct (column_position name cols) as [j|]; [| discriminate].
  intros _. simpl. now apply (IH j).
Qed.





(** ** Identifiers: what the normalizer never returns *)

Lemma reserved_check (P : string -> bool) (l : list string) :
  forallb P l = true ->
  forall x, x ∈ (list_to_set l : gset string) -> P x = true.
Proof.
  intros H x Hx. apply elem_of_list_to_set, list_elem_of_In in Hx.
  rewrite forallb_forall in H. now apply H.
Qed.

Lemma unlisted (l : list string) (x : string) :
  in_list x l = false -> x ∉ (list_to_set l : gset string).
Proof.
  intros H Hx. apply elem_of_list_to_set, list_elem_of_In in Hx.
  unfold in_list in H. apply not_true_iff_false in H. apply H.
  apply existsb_exists. exists x. split; [easy|apply String.eqb_refl].
Qed.

Lemma reserved_plain (x : string) :
  x ∈ SQL_RESERVED_WORDS ->
  forall_chars (fun c => islower_ascii c || Ascii.eqb c "_") x = true.
Proof.
  revert x.
  apply (reserved_check
           (forall_chars (fun c => islower_ascii c || Ascii.eqb c "_"))).
  vm_compute. reflexivity.
Qed.

Lemma reserved_short (x : string) :
  x ∈ SQL_RESERVED_WORDS -> (String.length x <=? 255) = true.
Proof.
  revert x. apply (reserved_check (fun x => String.length x <=? 255)).
  vm_compute. reflexivity.
Qed.

Lemma reserved_suffix_free (t : string) (l : list string) :
  forallb (fun x => negb (in_list (x +:+ t) l)) l = true ->
  forall x, x ∈ (list_to_set l : gset string) ->
            x +:+ t ∉ (list_to_set l : gset string).
Proof.
  intros H x Hx Ht.
  apply (reserved_check _ _ H), negb_true_iff in Hx.
  apply elem_of_list_to_set, list_elem_of_In in Ht.
  unfold in_list in Hx. apply not_true_iff_false in Hx. apply Hx.
  apply existsb_exists. exists (x +:+ t). split; [easy|apply String.eqb_refl].
Qed.

Lemma reserved_col_free (x : string) :
  x ∈ SQL_RESERVED_WORDS -> x +:+ "_col" ∉ SQL_RESERVED_WORDS.
Proof. revert x. apply reserved_suffix_free. vm_compute. reflexivity. Qed.

Lemma reserved_tbl_free (x : string) :
  x ∈ SQL_RESERVED_WORDS -> x +:+ "_tbl" ∉ SQL_RESERVED_WORDS.
Proof. revert x. apply reserved_suffix_free. vm_compute. reflexivity. Qed.

Lemma cap_length_reserved (s : string) :
  cap_length s ∈ SQL_RESERVED_WORDS -> s ∈ SQL_RESERVED_WORDS.
Proof.
  unfold cap_length. destruct (255 <? String.length s) eqn:E; [|easy].
  intros H. apply reserved_plain in H.
  rewrite forall_chars_append in H. apply andb_true_iff in H as [_ H].
  vm_compute in H. discriminate.
Qed.

Lemma cap_length_first (s : string) :
  starts_with_digit (cap_length s) = starts_with_digit s.
Proof.
  unfold cap_length. destruct (255 <? String.length s); [|easy].
  destruct s as [|c r]; [easy|]. cbn [take]. now unfold_append.
Qed.

Lemma cap_length_nonempty (s : string) : s <> "" -> cap_length s <> "".
Proof.
  unfold cap_length. destruct (255 <? String.length s); [|easy].
  destruct s as [|c r]; [easy|]. cbn [take]. now unfold_append.
Qed.

Lemma append_first (c : ascii) (r t : string) :
  starts_with_digit (String c r +:+ t) = isdigit c.
Proof. now unfold_append. Qed.

Lemma append_nonempty (s t : string) : s <> "" -> s +:+ t <> "".
Proof. destruct s; [easy|]. intros _. now unfold_append. Qed.

Lemma sql_safe_nonempty (h : string) : h <> "" -> sql_safe h <> "".
Proof.
  intros H. unfold sql_safe. apply cap_length_nonempty.
  assert (H0 : (if starts_with_digit h then "col_" +:+ h else h) <> "").
  { destruct (starts_with_digit h); [now unfold_append|exact H]. }
  destruct (bool_decide _); [now apply append_nonempty|exact H0].
Qed.

Lemma sql_safe_first (h : string) : starts_with_digit (sql_safe h) = false.
Proof.
  unfold sql_safe. rewrite cap_length_first.
  destruct (starts_with_digit h) eqn:E.
  - case_bool_decide; now unfold_append.
  - case_bool_decide; [|easy].
    destruct h as [|c r]; [now unfold_append|]. now rewrite append_first.
Qed.

Lemma sql_safe_not_reserved (h : string) : sql_safe h ∉ SQL_RESERVED_WORDS.
Proof.
  unfold sql_safe. intros H. apply cap_length_reserved in H.
  case_bool_decide as R; [|easy].
  now apply reserved_col_free in R.
Qed.

Lemma str_nat_nonempty (n : nat) : str_nat n <> "".
Proof.
  unfold str_nat. destruct n as [|n]; [easy|].
  destruct (Nat.to_uint (S n)) eqn:E; try easy.
  exfalso. apply (f_equal Nat.of_uint) in E.
  rewrite DecimalNat.Unsigned.of_to in E. discriminate.
Qed.

Lemma suffixed_not_reserved (h : string) (k : nat) :
  cap_length (h +:+ "_" +:+ str_nat k) ∉ SQL_RESERVED_WORDS.
Proof.
  intros H. apply cap_length_reserved, reserved_plain in H.
  rewrite !forall_chars_append in H.
  apply andb_true_iff in H as [_ H]. apply andb_true_iff in H as [_ H].
  pose proof (str_nat_digits k) as D. pose proof (str_nat_nonempty k) as N.
  destruct (str_nat k) as [|c r]; [easy|].
  cbn [forall_chars] in H, D.
  apply andb_true_iff in H as [H _]. apply andb_true_iff in D as [D _].
  revert H D. ascii_cases c.
Qed.

Lemma dedup_names (P : string -> Prop) (l : list string) (st : dedup_state) :
  (forall h, In h l -> P h) ->
  (forall h k, P h -> P (cap_length (h +:+ "_" +:+ str_nat k))) ->
  Forall P (final_headers st) ->
  Forall P (final_headers (fold_left dedup_step l st)).
Proof.
  intros Hl Hs. revert st. induction l as [|x l IH]; intros st Hst; [easy|].
  cbn [fold_left]. apply IH.
  - intros h Hh. apply Hl. now right.
  - unfold dedup_step. destruct (seen st !! x); cbn [final_headers];
      apply Forall_app; split; try easy; constructor; try constructor.
    + apply Hs, Hl. now left.
    + apply Hl. now left.
Qed.

Lemma name_unnamed_nonempty (k : nat) (l : list string) :
  Forall (fun h => h <> "") (name_unnamed k l).
Proof.
  revert k. induction l as [|x l IH]; intros k; cbn [name_unnamed]; [constructor|].
  destruct (String.eqb x "" || String.eqb x "nan") eqn:E; constructor; try apply IH.
  - now unfold_append.
  - intros ->. discriminate.
Qed.

(** X1: whatever the headers are, no name that [normalise_headers] returns
    is empty, starts with a digit or is an SQL reserved word. *)
Theorem normalise_headers_never_unsafe (headers : list cell) (h : string) :
  In h (fst (normalise_headers headers)) ->
  h <> "" /\ starts_with_digit h = false /\ h ∉ SQL_RESERVED_WORDS.
Proof.
  intros H. unfold normalise_headers in H. cbn [fst] in H.
  assert (D : Forall
    (fun h => h <> "" /\ starts_with_digit h = false /\ h ∉ SQL_RESERVED_WORDS)
    (final_headers (fold_left dedup_step (sql_safe_list headers) dedup_init))).
  { apply dedup_names; [| |constructor].
    - intros x Hx. unfold sql_safe_list in Hx.
      apply in_map_iff in Hx as (y & <- & Hy). split; [|split].
      + apply sql_safe_nonempty.
        pose proof (name_unnamed_nonempty 1 (map clean_header headers)) as N.
        rewrite Forall_forall in N. now apply N, list_elem_of_In.
      + apply sql_safe_first.
      + apply sql_safe_not_reserved.
    - intros x k (Hn & Hd & _). split; [|split].
      + now apply cap_length_nonempty, append_nonempty.
      + rewrite cap_length_first. destruct x as [|c r]; [easy|].
        now rewrite append_first.
      + apply suffixed_not_reserved. }
  rewrite Forall_forall in D. now apply D, list_elem_of_In.
Qed.

Lemma normalise_headers_never_unsafe_witness :
  "select_col" <> "" /\ starts_with_digit "select_col" = false
  /\ "select_col" ∉ SQL_RESERVED_WORDS.
Proof.
  apply (normalise_headers_never_unsafe [Str "Select"; Str "2020"]).
  vm_compute. now left.
Defined.

(** ** [sanitize_identifier] and the names of the DDL *)

Lemma sanitize_identifier_cases (s : string) :
  sanitize_identifier s = "unnamed"
  \/ exists clean, clean <> "" /\ sanitize_identifier s = sql_safe clean.
Proof.
  unfold sanitize_identifier. destruct (String.eqb s ""); [now left|].
  set (clean := filter_chars isword _).
  destruct (String.eqb clean "") eqn:E; [now left|].
  destruct (String.eqb clean "nan"); [now left|]. cbn [orb].
  right. exists clean. split; [|reflexivity].
  intros ->. discriminate.
Qed.

Lemma sql_safe_le (h : string) : String.length (sql_safe h) <= 255.
Proof. unfold sql_safe. apply cap_length_le. Qed.

Lemma sanitize_identifier_facts (s : string) :
  sanitize_identifier s <> ""
  /\ starts_with_digit (sanitize_identifier s) = false
  /\ (sanitize_identifier s ∉ SQL_RESERVED_WORDS)
  /\ String.length (sanitize_identifier s) <= 255.
Proof.
  destruct (sanitize_identifier_cases s) as [-> | (c & Hc & ->)].
  - split; [easy|]. split; [reflexivity|]. split; [|cbn; lia].
    apply unlisted. vm_compute. reflexivity.
  - repeat split.
    + now apply sql_safe_nonempty.
    + apply sql_safe_first.
    + apply sql_safe_not_reserved.
    + apply sql_safe_le.
Qed.

(** X2: whatever its argument, [sanitize_identifier] returns a name that is
    not empty, does not start with a digit, is no SQL reserved word and has
    at most 255 characters. *)
Theorem sanitize_identifier_safe (identifier : string) :
  sanitize_identifier identifier <> ""
  /\ starts_with_digit (sanitize_identifier identifier) = false
  /\ (sanitize_identifier identifier ∉ SQL_RESERVED_WORDS)
  /\ String.length (sanitize_identifier identifier) <= 255.
Proof. apply sanitize_identifier_facts. Qed.

(** X3: the second round of checks in [generate_create_table_statements]
    never fires: the table name and every column name of the DDL are
    exactly what [sanitize_identifier] returns, so no [table_] or [col_]
    prefix and no [_tbl] or [_col] suffix is ever added there. *)
Theorem ddl_names_are_sanitized (name : string) :
  ddl_table_name name = sanitize_identifier name
  /\ ddl_column_name name = sanitize_identifier name.
Proof.
  destruct (sanitize_identifier_facts name) as (Hn & Hd & Hr & Hl).
  unfold ddl_table_name, ddl_column_name. rewrite Hd.
  apply String.eqb_neq in Hn. rewrite Hn. cbn [orb].
  rewrite !bool_decide_eq_false_2 by exact Hr.
  split; [|reflexivity].
  destruct (255 <? String.length (sanitize_identifier name)) eqn:E;
    [|reflexivity].
  apply Nat.ltb_lt in E. lia.
Qed.

Lemma ident_char_plain (c : ascii) :
  ident_char c = true ->
  isspace c = false /\ lower_char c = c /\ isword c = true
  /\ Ascii.eqb c " " = false.
Proof. ascii_cases c; repeat split; reflexivity. Qed.

Lemma plain_text_kept (s : string) :
  forall_chars ident_char s = true ->
  lstrip s = s /\ rstrip s = s /\ lower s = s /\ replace_space s = s
  /\ sub_spaces false s = s /\ filter_chars isword s = s.
Proof.
  induction s as [|c r IH]; [easy|]. cbn [forall_chars].
  intros H. apply andb_true_iff in H as [Hc Hr].
  destruct (ident_char_plain c Hc) as (H1 & H2 & H3 & H4).
  destruct (IH Hr) as (I1 & I2 & I3 & I4 & I5 & I6).
  cbn [lstrip rstrip lower replace_space sub_spaces filter_chars].
  rewrite H1, H2, H3, H4, I2, I3, I4, I5, I6.
  repeat split. now destruct r.
Qed.

Lemma identifier_plain (s : string) :
  matches_identifier s = true ->
  s <> "" /\ forall_chars ident_char s = true /\ starts_with_digit s = false.
Proof.
  destruct s as [|c r]; [discriminate|]. cbn [matches_identifier].
  intros H. apply andb_true_iff in H as [Hc Hr]. split; [easy|].
  cbn [forall_chars starts_with_digit]. rewrite Hr, (ident_start_char c Hc).
  split; [reflexivity|]. revert Hc. ascii_cases c.
Qed.

Lemma sql_safe_fixed (s : string) :
  starts_with_digit s = false -> s ∉ SQL_RESERVED_WORDS ->
  String.length s <= 255 -> sql_safe s = s.
Proof.
  intros Hd Hr Hl. unfold sql_safe, cap_length. rewrite Hd.
  rewrite bool_decide_eq_false_2 by exact Hr.
  destruct (255 <? String.length s) eqn:E; [|reflexivity].
  apply Nat.ltb_lt in E. lia.
Qed.

(** X4: an identifier that is already safe is a fixed point: if the text
    matches [^[a-z_][a-z0-9_]*$], is no reserved word, is not ["nan"] and
    has at most 255 characters, [sanitize_identifier] returns it
    unchanged. *)
Theorem sanitize_identifier_fixed_point (identifier : string) :
  matches_identifier identifier = true ->
  identifier ∉ SQL_RESERVED_WORDS ->
  identifier <> "nan" ->
  String.length identifier <= 255 ->
  sanitize_identifier identifier = identifier.
Proof.
  intros Hm Hr Hn Hl.
  destruct (identifier_plain identifier Hm) as (He & Hp & Hd).
  destruct (plain_text_kept identifier Hp) as (I1 & I2 & I3 & I4 & _ & I6).
  unfold sanitize_identifier, strip.
  rewrite I1, I2, I3, I4, I6.
  apply String.eqb_neq in He, Hn. rewrite He, Hn. cbn [orb].
  rewrite Hd. rewrite bool_decide_eq_false_2 by exact Hr.
  destruct (255 <? String.length identifier) eqn:E; [|reflexivity].
  apply Nat.ltb_lt in E. lia.
Qed.

Lemma sanitize_identifier_fixed_point_witness :
  sanitize_identifier "net_sales_2020" = "net_sales_2020".
Proof.
  apply sanitize_identifier_fixed_point.
  - reflexivity.
  - apply unlisted. vm_compute. reflexivity.
  - discriminate.
  - vm_compute. lia.
Defined.

(** ** The uniqueness loop of [normalise_headers] in closed form *)

Lemma seen_before_all (l : list string) (h : string) :
  seen_before l (length l) h = length (List.filter (String.eqb h) l).
Proof. unfold seen_before. now rewrite firstn_all. Qed.

Lemma occurrences_zero (l : list string) (h : string) :
  length (List.filter (String.eqb h) l) = 0 <-> h ∉ l.
Proof.
  induction l as [|x l IH]; cbn [List.filter].
  - split; [intros _ H; inversion H|easy].
  - destruct (String.eqb h x) eqn:E.
    + apply String.eqb_eq in E as ->. split; [discriminate|].
      intros H. exfalso. apply H. constructor.
    + apply String.eqb_neq in E. rewrite IH. rewrite not_elem_of_cons. tauto.
Qed.

Lemma occurrences_snoc (l : list string) (h x : string) :
  length (List.filter (String.eqb h) (l ++ [x]))
  = length (List.filter (String.eqb h) l) + (if String.eqb h x then 1 else 0).
Proof.
  rewrite List.filter_app, length_app. cbn [List.filter].
  now destruct (String.eqb h x).
Qed.

(** The state of the uniqueness loop after the names [l]: what it has
    seen, the names it has given, and its count of duplicates. *)
Lemma dedup_loop (l : list string) :
  let st := fold_left dedup_step l dedup_init in
  (forall h, seen st !! h
             = let c := length (List.filter (String.eqb h) l) in
               if c =? 0 then None else Some c)
  /\ length (final_headers st) = length l
  /\ (forall i h, nth_error l i = Some h ->
        nth_error (final_headers st) i
        = Some (if seen_before l i h =? 0 then h
                else cap_length (h +:+ "_" +:+ str_nat (S (seen_before l i h)))))
  /\ duplicate_count st + size (list_to_set l : gset string) = length l.
Proof.
  induction l as [|x l IH] using rev_ind.
  - cbn. repeat split; try easy. intros [|i] h H; discriminate.
  - cbn zeta in *. rewrite fold_left_app. cbn [fold_left].
    set (st := fold_left dedup_step l dedup_init) in *.
    destruct IH as (Hseen & Hlen & Hnth & Hdup).
    assert (Hfinal : final_headers (dedup_step st x)
      = final_headers st
        ++ [if seen_before (l ++ [x]) (length l) x =? 0 then x
            else cap_length
                   (x +:+ "_" +:+ str_nat (S (seen_before (l ++ [x]) (length l) x)))]).
    { unfold seen_before. rewrite firstn_app, Nat.sub_diag, firstn_all.
      cbn [firstn]. rewrite app_nil_r.
      unfold dedup_step. rewrite (Hseen x).
      destruct (length (List.filter (String.eqb x) l)) as [|c]; reflexivity. }
    split; [|split; [|split]].
    + intros h. rewrite occurrences_snoc.
      unfold dedup_step. rewrite (Hseen x).
      destruct (String.eqb h x) eqn:E.
      * apply String.eqb_eq in E as ->.
        destruct (length (List.filter (String.eqb x) l)) as [|c] eqn:C;
          cbn [seen Nat.eqb]; rewrite lookup_insert_eq; cbn.
        -- reflexivity.
        -- f_equal. lia.
      * apply String.eqb_neq in E.
        destruct (length (List.filter (String.eqb x) l)) as [|c] eqn:C;
          cbn [seen Nat.eqb]; (rewrite lookup_insert_ne by congruence);
          rewrite (Hseen h), Nat.add_0_r; reflexivity.
    + rewrite Hfinal, !length_app, Hlen. reflexivity.
    + intros i h Hi. rewrite Hfinal.
      destruct (Nat.lt_ge_cases i (length l)) as [Lt | Ge].
      * rewrite nth_error_app1 in Hi by lia.
        rewrite nth_error_app1 by lia. rewrite (Hnth i h Hi).
        unfold seen_before. rewrite firstn_app.
        replace (i - length l) with 0 by lia. cbn [firstn].
        now rewrite app_nil_r.
      * assert (i = length l) as ->.
        { assert (i < length (l ++ [x])) as Hb
            by (apply nth_error_Some; congruence).
          rewrite length_app in Hb. cbn in Hb. lia. }
        rewrite nth_error_app2 in Hi by lia. rewrite Nat.sub_diag in Hi.
        injection Hi as <-.
        rewrite nth_error_app2 by lia. rewrite Hlen, Nat.sub_diag. reflexivity.
    + rewrite length_app. cbn [length].
      rewrite list_to_set_app_L, list_to_set_singleton.
      unfold dedup_step. rewrite (Hseen x). cbn zeta.
      destruct (length (List.filter (String.eqb x) l)) as [|c] eqn:C.
      * apply occurrences_zero in C. cbn [Nat.eqb duplicate_count].
        rewrite size_union, size_singleton.
        -- lia.
        -- apply disjoint_singleton_r. now rewrite elem_of_list_to_set.
      * assert (x ∈ l) as Hx.
        { destruct (decide (x ∈ l)) as [|N]; [easy|].
          apply occurrences_zero in N. lia. }
        cbn [Nat.eqb duplicate_count].
        rewrite (union_comm_L (list_to_set l) {[x]}).
        rewrite (subseteq_union_1_L {[x]} (list_to_set l : gset string)).
        -- lia.
        -- apply singleton_subseteq_l, elem_of_list_to_set, Hx.
Qed.

Lemma sql_safe_list_length (headers : list cell) :
  length (sql_safe_list headers) = length headers.
Proof.
  unfold sql_safe_list. now rewrite length_map, name_unnamed_length, length_map.
Qed.

(** X5: the renaming rule of [normalise_headers].  The name at position [i]
    is the SQL-safe name [h] itself when [h] has not occurred before, and
    otherwise [h], an underscore and one more than the number of earlier
    occurrences, cut to 255 characters. *)
Theorem normalise_headers_renaming (headers : list cell) (i : nat) (h : string) :
  nth_error (sql_safe_list headers) i = Some h ->
  nth_error (fst (normalise_headers headers)) i
  = Some (if seen_before (sql_safe_list headers) i h =? 0 then h
          else cap_length
                 (h +:+ "_"
                  +:+ str_nat (S (seen_before (sql_safe_list headers) i h)))).
Proof.
  intros H. unfold normalise_headers. cbn [fst].
  now apply (dedup_loop (sql_safe_list headers)).
Qed.

Lemma normalise_headers_renaming_witness :
  nth_error (fst (normalise_headers [Str "Id"; Str "Name"; Str "ID"; Str "id "])) 3
  = Some "id_3".
Proof.
  apply (normalise_headers_renaming
           [Str "Id"; Str "Name"; Str "ID"; Str "id "] 3 "id").
  reflexivity.
Defined.

(** X6: the duplicate count that [normalise_headers] reports is the number
    of headers minus the number of distinct SQL-safe names among them. *)
Theorem normalise_headers_duplicate_count (headers : list cell) :
  snd (normalise_headers headers)
  + size (list_to_set (sql_safe_list headers) : gset string)
  = length headers.
Proof.
  unfold normalise_headers. cbn [snd].
  rewrite <- (sql_safe_list_length headers).
  apply (dedup_loop (sql_safe_list headers)).
Qed.

Lemma first_occurrence (l : list string) (i : nat) (h : string) :
  NoDup l -> nth_error l i = Some h -> seen_before l i h = 0.
Proof.
  unfold seen_before. revert i. induction l as [|x l IH]; intros i Hn Hi.
  - now destruct i.
  - apply NoDup_cons in Hn as [Hx Hn]. destruct i as [|i]; [reflexivity|].
    cbn [nth_error] in Hi. cbn [firstn List.filter].
    destruct (String.eqb h x) eqn:E.
    + apply String.eqb_eq in E as ->. exfalso. apply Hx.
      apply list_elem_of_In. now apply nth_error_In in Hi.
    + now apply IH.
Qed.

Lemma name_unnamed_named (k : nat) (l : list string) :
  Forall (fun h => h <> "" /\ h <> "nan") l -> name_unnamed k l = l.
Proof.
  induction 1 as [|x l [H1 H2] _ IH]; [reflexivity|]. cbn [name_unnamed].
  apply String.eqb_neq in H1, H2. rewrite H1, H2. cbn [orb]. now rewrite IH.
Qed.

Lemma clean_header_fixed (s : string) :
  forall_chars ident_char s = true -> clean_header (Str s) = s.
Proof.
  intros H. destruct (plain_text_kept s H) as (I1 & I2 & I3 & _ & I5 & I6).
  unfold clean_header, strip. cbn [astype_str]. now rewrite I1, I2, I3, I5, I6.
Qed.

(** X7: headers that are already distinct safe identifiers go through
    [normalise_headers] unchanged, and no duplicate is counted: each matches
    [^[a-z_][a-z0-9_]*$], is no reserved word, is not ["nan"] and has at
    most 255 characters. *)
Theorem normalise_headers_fixed_point (names : list string) :
  NoDup names ->
  Forall (fun h => matches_identifier h = true /\ (h ∉ SQL_RESERVED_WORDS)
                   /\ h <> "nan" /\ String.length h <= 255) names ->
  normalise_headers (map Str names) = (names, 0).
Proof.
  intros Hn Hall.
  assert (Hs : sql_safe_list (map Str names) = names).
  { unfold sql_safe_list. rewrite map_map.
    assert (map (fun x => clean_header (Str x)) names = names) as ->.
    { rewrite <- (map_id names) at 2. apply map_ext_in. intros h Hh.
      rewrite Forall_forall in Hall.
      apply list_elem_of_In, Hall in Hh as (Hm & _).
      now apply clean_header_fixed, identifier_plain. }
    rewrite name_unnamed_named.
    - rewrite <- (map_id names) at 2. apply map_ext_in. intros h Hh.
      rewrite Forall_forall in Hall.
      apply list_elem_of_In, Hall in Hh as (Hm & Hr & _ & Hl).
      apply sql_safe_fixed; [now apply identifier_plain|easy|easy].
    - eapply Forall_impl; [exact Hall|]. intros h (Hm & _ & Hnan & _).
      split; [now apply identifier_plain|easy]. }
  unfold normalise_headers. rewrite Hs.
  destruct (dedup_loop names) as (_ & Hlen & Hnth & Hdup). cbn zeta in *.
  f_equal.
  - apply nth_error_ext. intros i.
    destruct (nth_error names i) as [h|] eqn:E.
    + rewrite (Hnth i h E), (first_occurrence names i h Hn E). reflexivity.
    + apply nth_error_None. apply nth_error_None in E. lia.
  - rewrite (size_list_to_set names Hn) in Hdup. lia.
Qed.

Lemma normalise_headers_fixed_point_witness :
  normalise_headers (map Str ["region"; "net_sales"; "q1"])
  = (["region"; "net_sales"; "q1"], 0).
Proof.
  apply normalise_headers_fixed_point.
  - apply (bool_decide_unpack _). vm_compute. reflexivity.
  - repeat (apply Forall_cons; split;
              [split; [reflexivity|]; split;
               [apply unlisted; vm_compute; reflexivity|];
               split; [discriminate|vm_compute; lia]|]).
    apply Forall_nil. exact I.
Defined.

(** ** Region Segmenter *)

Lemma span_range (a b : nat) : a < b -> span (a, b - 1) = seq a (b - a).
Proof. intros H. unfold span. cbn [fst snd]. f_equal. lia. Qed.

Lemma split_ranges_from (p : nat -> bool) (m a start : nat) :
  start <= a ->
  flat_map span (split_ranges start (List.filter p (seq a m)) (a + m))
  = seq start (a - start) ++ List.filter (fun i => negb (p i)) (seq a m).
Proof.
  revert a start. induction m as [|m IH]; intros a start H.
  - cbn [seq List.filter split_ranges]. rewrite Nat.add_0_r, app_nil_r.
    destruct (start <? a) eqn:E.
    + apply Nat.ltb_lt in E. cbn [flat_map]. rewrite app_nil_r.
      now apply span_range.
    + apply Nat.ltb_ge in E. now replace (a - start) with 0 by lia.
  - cbn [seq List.filter]. replace (a + S m) with (S a + m) by lia.
    destruct (p a) eqn:P; cbn [negb].
    + cbn [split_ranges]. rewrite flat_map_app.
      replace (a + 1) with (S a) by lia.
      rewrite (IH (S a) (S a)) by lia. rewrite Nat.sub_diag. cbn [seq app].
      f_equal. destruct (start <? a) eqn:E.
      * apply Nat.ltb_lt in E. cbn [flat_map]. rewrite app_nil_r.
        now apply span_range.
      * apply Nat.ltb_ge in E. now replace (a - start) with 0 by lia.
    + rewrite (IH (S a) start) by lia.
      replace (S a - start) with (S (a - start)) by lia.
      rewrite seq_S, <- app_assoc. cbn [app].
      now replace (start + (a - start)) with a by lia.
Qed.

Lemma split_ranges_cover (p : nat -> bool) (n : nat) :
  flat_map span (split_ranges 0 (List.filter p (seq 0 n)) n)
  = List.filter (fun i => negb (p i)) (seq 0 n).
Proof. exact (split_ranges_from p n 0 0 (Nat.le_refl 0)). Qed.

(** X8: the ranges that the segmenter cuts at the separators hold every
    position that is no separator, each once and in order, and no separator:
    the positions of the ranges, put end to end, are the positions
    [0 .. n-1] without the separators. *)
Theorem split_ranges_partition (is_separator : nat -> bool) (n : nat) :
  flat_map span (split_ranges 0 (List.filter is_separator (seq 0 n)) n)
  = List.filter (fun i => negb (is_separator i)) (seq 0 n).
Proof. apply split_ranges_cover. Qed.

Lemma flat_map_disjoint {A B : Type} (f : A -> list B) (l : list A) :
  List.NoDup (flat_map f l) ->
  forall x y i, In x l -> In y l -> In i (f x) -> In i (f y) -> x = y.
Proof.
  induction l as [|a l IH]; intros Hn x y i Hx Hy Hix Hiy; [easy|].
  cbn [flat_map] in Hn. apply NoDup_ListNoDup, NoDup_app in Hn as (_ & Hd & Hn).
  apply NoDup_ListNoDup in Hn.
  assert (Hd' : forall z, In z l -> In i (f a) -> In i (f z) -> False).
  { intros z Hz Ha Hfz. apply list_elem_of_In in Ha.
    apply (Hd i Ha), list_elem_of_In, in_flat_map. now exists z. }
  destruct Hx as [<-|Hx], Hy as [<-|Hy]; try easy.
  - exfalso. now apply (Hd' y).
  - exfalso. now apply (Hd' x).
  - now apply (IH Hn x y i).
Qed.

Lemma ranges_disjoint (p : nat -> bool) (n : nat) (r1 r2 : nat * nat) (i : nat) :
  In r1 (split_ranges 0 (List.filter p (seq 0 n)) n) ->
  In r2 (split_ranges 0 (List.filter p (seq 0 n)) n) ->
  In i (span r1) -> In i (span r2) -> r1 = r2.
Proof.
  apply flat_map_disjoint. rewrite split_ranges_cover.
  apply List.NoDup_filter, List.seq_NoDup.
Qed.

(** X9: the regions that [detect_table_regions] keeps never share a cell:
    two different kept candidates have no row position and column position
    in common. *)
Theorem regions_do_not_overlap (df : frame)
    (a b : (nat * nat) * (nat * nat)) :
  In a (kept_candidates df) -> In b (kept_candidates df) ->
  a <> b -> ~ overlap a b.
Proof.
  unfold kept_candidates. intros Ha Hb Hab (i & j & Hi1 & Hj1 & Hi2 & Hj2).
  apply filter_In in Ha as [Ha _]. apply filter_In in Hb as [Hb _].
  destruct a as [ra ca], b as [rb cb]. cbn [fst snd] in *.
  apply in_prod_iff in Ha as [Hra Hca]. apply in_prod_iff in Hb as [Hrb Hcb].
  apply Hab. f_equal.
  - exact (ranges_disjoint _ _ ra rb i Hra Hrb Hi1 Hi2).
  - exact (ranges_disjoint _ _ ca cb j Hca Hcb Hj1 Hj2).
Qed.

Lemma regions_do_not_overlap_witness :
  ~ overlap ((0, 1), (0, 1)) ((0, 1), (3, 4)).
Proof.
  apply (regions_do_not_overlap four_block_sheet).
  - vm_compute. now left.
  - vm_compute. right. now left.
  - discriminate.
Defined.

Lemma candidate_positions (df : frame)
    (a : (nat * nat) * (nat * nat)) (i j : nat) :
  In a (kept_candidates df) -> In i (span (fst a)) -> In j (span (snd a)) ->
  (i < len df /\ ~ In i (separator_rows df))
  /\ (j < length (columns df) /\ ~ In j (separator_cols df)).
Proof.
  unfold kept_candidates. intros Ha Hi Hj.
  apply filter_In in Ha as [Ha _]. destruct a as [ra ca]. cbn [fst snd] in *.
  apply in_prod_iff in Ha as [Hra Hca].
  assert (Hi' : In i (flat_map span
                        (split_ranges 0 (separator_rows df) (len df))))
    by (apply in_flat_map; now exists ra).
  assert (Hj' : In j (flat_map span
                        (split_ranges 0 (separator_cols df)
                           (length (columns df)))))
    by (apply in_flat_map; now exists ca).
  unfold separator_rows in Hi' |- *. unfold separator_cols in Hj' |- *.
  rewrite split_ranges_cover in Hi', Hj'.
  apply filter_In in Hi' as [Hi1 Hi2]. apply filter_In in Hj' as [Hj1 Hj2].
  apply in_seq in Hi1, Hj1. apply negb_true_iff in Hi2, Hj2.
  repeat split; try lia.
  - intros H. apply filter_In in H as [_ H]. congruence.
  - intros H. apply filter_In in H as [_ H]. congruence.
Qed.

(** X10: a region never holds a separator: every row position of a kept
    candidate is a row of the sheet that is not blank throughout, and every
    column position a column that is not blank throughout. *)
Theorem regions_hold_no_separator (df : frame)
    (a : (nat * nat) * (nat * nat)) (i j : nat) :
  In a (kept_candidates df) -> In i (span (fst a)) -> In j (span (snd a)) ->
  (i < len df /\ ~ In i (separator_rows df))
  /\ (j < length (columns df) /\ ~ In j (separator_cols df)).
Proof. apply candidate_positions. Qed.

Lemma regions_hold_no_separator_witness :
  (3 < len four_block_sheet /\ ~ In 3 (separator_rows four_block_sheet))
  /\ (4 < length (columns four_block_sheet)
      /\ ~ In 4 (separator_cols four_block_sheet)).
Proof.
  apply (regions_hold_no_separator four_block_sheet ((3, 4), (3, 4)) 3 4).
  - vm_compute. do 3 right. now left.
  - vm_compute. now left.
  - vm_compute. right. now left.
Defined.

Lemma split_ranges_ordered (start : nat) (separators : list nat) (n : nat)
    (r : nat * nat) :
  In r (split_ranges start separators n) -> fst r <= snd r.
Proof.
  revert start. induction separators as [|sep rest IH]; intros start;
    cbn [split_ranges].
  - destruct (start <? n) eqn:E; [|easy]. apply Nat.ltb_lt in E.
    intros [<-|[]]. cbn. lia.
  - intros H. apply in_app_or in H as [H|H]; [|now apply (IH (sep + 1))].
    destruct (start <? sep) eqn:E; [|easy]. apply Nat.ltb_lt in E.
    destruct H as [<-|[]]. cbn. lia.
Qed.

Lemma span_ends (r : nat * nat) :
  fst r <= snd r -> In (fst r) (span r) /\ In (snd r) (span r).
Proof. intros H. unfold span. split; apply in_seq; lia. Qed.

Lemma last_in {A} (l : list A) (d : A) : l <> [] -> In (List.last l d) l.
Proof.
  induction l as [|x l IH]; [easy|]. intros _. destruct l as [|y l].
  - now left.
  - right. apply IH. discriminate.
Qed.

Lemma head_in {A} (l : list A) (d : A) : l <> [] -> In (hd d l) l.
Proof. destruct l; [easy|]. intros _. now left. Qed.

Lemma region_of_inside (df : frame) (a : (nat * nat) * (nat * nat)) :
  In a (kept_candidates df) ->
  In (min_row (region_of df a)) (index df)
  /\ In (max_row (region_of df a)) (index df)
  /\ In (min_col (region_of df a)) (columns df)
  /\ In (max_col (region_of df a)) (columns df).
Proof.
  intros Ha.
  assert (Hr : fst (fst a) <= snd (fst a) /\ fst (snd a) <= snd (snd a)).
  { unfold kept_candidates in Ha. apply filter_In in Ha as [Ha _].
    destruct a as [ra ca]. apply in_prod_iff in Ha as [Hra Hca].
    split; eapply split_ranges_ordered; eassumption. }
  destruct Hr as [Hrow Hcol].
  destruct (span_ends (fst a) Hrow) as [R1 R2].
  destruct (span_ends (snd a) Hcol) as [C1 C2].
  destruct (candidate_positions df a _ _ Ha R1 C1) as [[L1 _] [K1 _]].
  destruct (candidate_positions df a _ _ Ha R2 C2) as [[L2 _] [K2 _]].
  cbn [region_of min_row max_row min_col max_col].
  repeat split; apply nth_In; try assumption;
    unfold index; rewrite length_map; assumption.
Qed.

(** X11: [detect_table_regions] returns no region exactly for an empty
    frame, and the corners of every region it returns lie inside the
    sheet: the first and last row are row labels of the frame and the first
    and last column are column labels of the frame. *)
Theorem detect_table_regions_inside (df : frame) :
  (detect_table_regions df = [] <-> empty df = true)
  /\ forall r, In r (detect_table_regions df) ->
       In (min_row r) (index df) /\ In (max_row r) (index df)
       /\ In (min_col r) (columns df) /\ In (max_col r) (columns df).
Proof.
  unfold detect_table_regions. destruct (empty df) eqn:E; [easy|].
  assert (Hrows : index df <> [] /\ columns df <> []).
  { unfold empty in E. unfold index.
    destruct (rows df), (columns df); easy. }
  destruct Hrows as [Hi Hc].
  assert (Hwhole : forall r, In r [whole_sheet df] ->
            In (min_row r) (index df) /\ In (max_row r) (index df)
            /\ In (min_col r) (columns df) /\ In (max_col r) (columns df)).
  { intros r [<-|[]]. cbn [whole_sheet min_row max_row min_col max_col].
    repeat split; first [now apply head_in | now apply last_in]. }
  assert (Hkept : forall r, In r (map (region_of df) (kept_candidates df)) ->
            In (min_row r) (index df) /\ In (max_row r) (index df)
            /\ In (min_col r) (columns df) /\ In (max_col r) (columns df)).
  { intros r Hr. apply in_map_iff in Hr as (a & <- & Ha).
    now apply region_of_inside. }
  split.
  - split; [|discriminate].
    destruct (separator_rows df), (separator_cols df);
      try discriminate; destruct (kept_candidates df); discriminate.
  - destruct (separator_rows df), (separator_cols df); try exact Hwhole;
      destruct (kept_candidates df) eqn:K; try exact Hwhole; exact Hkept.
Qed.

(** ** Noise Row Filter: what is counted is what is removed *)

Lemma filter_split_length {A} (f : A -> bool) (l : list A) :
  length (List.filter (fun x => negb (f x)) l) + length (List.filter f l)
  = length l.
Proof.
  induction l as [|x l IH]; [reflexivity|]. cbn [List.filter].
  destruct (f x); cbn [negb length]; lia.
Qed.

Lemma filter_implied_length {A} (f g : A -> bool) (l : list A) :
  (forall x, f x = true -> g x = true) ->
  length (List.filter f l) <= length (List.filter g l).
Proof.
  intros H. induction l as [|x l IH]; [reflexivity|]. cbn [List.filter].
  destruct (f x) eqn:E.
  - rewrite (H x E). cbn [length]. lia.
  - destruct (g x); cbn [length]; lia.
Qed.

Lemma repeated_headers_count (df_data : frame)
    (normalized_headers : list string) :
  len (fst (detect_repeated_headers df_data normalized_headers))
  + snd (detect_repeated_headers df_data normalized_headers)
  = len df_data.
Proof.
  unfold detect_repeated_headers.
  destruct (empty df_data || (length normalized_headers =? 0));
    [cbn [fst snd]; lia|].
  destruct (size (header_value_set normalized_headers) =? 0);
    [cbn [fst snd]; lia|].
  rewrite (collect_labels
             (fun idx => is_repeated_header normalized_headers
                           (header_value_set normalized_headers)
                           (loc df_data idx))).
  cbn [app].
  set (f := fun idx => is_repeated_header _ _ _).
  destruct (List.filter f (index df_data)) eqn:E; [cbn [fst snd]; lia|].
  rewrite <- E. cbn [fst snd]. rewrite reset_index_len. unfold len at 1.
  rewrite drop_selected. unfold index. rewrite filter_map_label, length_map.
  apply (filter_split_length (fun r => f (label r))).
Qed.

(** X12: on a frame with distinct row labels, [detect_repeated_headers]
    removes exactly the rows it counts: the rows of the frame it returns
    and the count it returns add up to the rows it was given. *)
Theorem detect_repeated_headers_accounting (df_data : frame)
    (normalized_headers : list string) :
  NoDup (index df_data) ->
  len (fst (detect_repeated_headers df_data normalized_headers))
  + snd (detect_repeated_headers df_data normalized_headers)
  = len df_data.
Proof. intros _. apply repeated_headers_count. Qed.

Lemma detect_repeated_headers_accounting_witness :
  len (fst (detect_repeated_headers
              (frame_of ["item"; "q1"]
                 [["widget"; "1"]; ["Item"; "Q1"]; ["gadget"; "2"]])
              ["item"; "q1"]))
  + snd (detect_repeated_headers
           (frame_of ["item"; "q1"]
              [["widget"; "1"]; ["Item"; "Q1"]; ["gadget"; "2"]])
           ["item"; "q1"])
  = len (frame_of ["item"; "q1"]
           [["widget"; "1"]; ["Item"; "Q1"]; ["gadget"; "2"]]).
Proof.
  apply detect_repeated_headers_accounting. exact (NoDup_seq 0 3).
Defined.

Lemma total_rows_count (df_data : frame) :
  NoDup (index df_data) ->
  len (fst (fst (detect_total_rows df_data))) + snd (detect_total_rows df_data)
  = len df_data
  /\ snd (detect_total_rows df_data) <= snd (fst (detect_total_rows df_data))
  /\ snd (fst (detect_total_rows df_data)) <= len df_data.
Proof.
  intros Hn. destruct (empty df_data) eqn:E.
  - unfold detect_total_rows. rewrite E. cbn [fst snd]. lia.
  - destruct (detect_total_rows_outcome df_data Hn E) as (Hrows & Hf & Hd).
    apply (f_equal (@length _)) in Hrows. rewrite !length_map in Hrows.
    unfold len at 1. rewrite Hrows, Hf, Hd.
    pose proof (set_column_scalar_len "__is_total_row" (Flag false) df_data) as L.
    unfold len in L at 1.
    split; [|split].
    + rewrite filter_split_length. exact L.
    + apply filter_implied_length. intros r H.
      now apply dropped_row_rule in H.
    + rewrite <- L. apply filter_length_le'.
Qed.

(** X13: on a frame with distinct row labels, [detect_total_rows] removes
    exactly the rows it counts as dropped, drops only rows that it flags,
    and flags no more rows than there are. *)
Theorem detect_total_rows_accounting (df_data : frame) :
  NoDup (index df_data) ->
  len (fst (fst (detect_total_rows df_data))) + snd (detect_total_rows df_data)
  = len df_data
  /\ snd (detect_total_rows df_data) <= snd (fst (detect_total_rows df_data))
  /\ snd (fst (detect_total_rows df_data)) <= len df_data.
Proof. apply total_rows_count. Qed.

Lemma detect_total_rows_accounting_witness :
  len (fst (fst (detect_total_rows small_totals_table)))
  + snd (detect_total_rows small_totals_table)
  = len small_totals_table
  /\ snd (detect_total_rows small_totals_table)
     <= snd (fst (detect_total_rows small_totals_table))
  /\ snd (fst (detect_total_rows small_totals_table)) <= len small_totals_table.
Proof.
  apply detect_total_rows_accounting. exact (NoDup_seq 0 2).
Defined.

(** ** Context Filler: idempotence and the columns it leaves alone *)

Lemma rstrip_idempotent (s : string) : rstrip (rstrip s) = rstrip s.
Proof.
  induction s as [|c r IH]; [reflexivity|]. cbn [rstrip].
  destruct (rstrip r) as [|d t] eqn:E.
  - destruct (isspace c) eqn:S; [reflexivity|]. cbn [rstrip]. now rewrite S.
  - cbn [rstrip]. cbn [rstrip] in IH. now rewrite IH.
Qed.

Lemma rstrip_first (c : ascii) (r : string) :
  isspace c = false -> exists t, rstrip (String c r) = String c t.
Proof.
  intros S. cbn [rstrip]. destruct (rstrip r) as [|d t].
  - rewrite S. now exists EmptyString.
  - now exists (String d t).
Qed.

Lemma lstrip_cases (s : string) :
  lstrip s = EmptyString
  \/ exists c r, lstrip s = String c r /\ isspace c = false.
Proof.
  induction s as [|c r IH]; [now left|]. cbn [lstrip].
  destruct (isspace c) eqn:S; [exact IH|]. right. now exists c, r.
Qed.

Lemma strip_idempotent (s : string) : strip (strip s) = strip s.
Proof.
  unfold strip. destruct (lstrip_cases s) as [-> | (c & r & -> & S)];
    [reflexivity|].
  destruct (rstrip_first c r S) as (t & E). rewrite E.
  cbn [lstrip]. rewrite S, <- E. apply rstrip_idempotent.
Qed.

Lemma fill_series_settled (last_value : option string) (series : list string) :
  match last_value with
  | Some v => strip v = v /\ is_blank v = false
  | None => True
  end ->
  fill_series last_value (fill_series last_value series)
  = fill_series last_value series.
Proof.
  revert last_value. induction series as [|val rest IH]; intros lv Hlv;
    [reflexivity|].
  cbn [fill_series]. destruct (is_blank (strip val)) eqn:B.
  - destruct lv as [v|].
    + destruct Hlv as [Hs Hb]. cbn [fill_series]. rewrite Hs, Hb.
      f_equal. now apply IH.
    + cbn [fill_series]. rewrite B. f_equal. now apply IH.
  - cbn [fill_series]. rewrite strip_idempotent, B. f_equal.
    apply IH. split; [apply strip_idempotent|exact B].
Qed.

(** X14: filling down is idempotent: the loop of [fill_down_context] over a
    column that it has already filled changes nothing. *)
Theorem fill_series_idempotent (series : list string) :
  fill_series None (fill_series None series) = fill_series None series.
Proof. now apply fill_series_settled. Qed.

Lemma nth_set_cells_other (name col : string) (v : cell) (cols : list string)
    (cs : list cell) (i : nat) :
  column_position col cols = Some i -> col <> name ->
  nth i (set_cells name v cols cs) NaN = nth i cs NaN.
Proof.
  revert cs i. induction cols as [|c cols IH]; intros cs i; [discriminate|].
  cbn [column_position]. destruct (String.eqb c col) eqn:E.
  - intros [= <-] Hne. apply String.eqb_eq in E as ->.
    destruct cs as [|x cs]; [reflexivity|]. cbn [set_cells nth].
    apply String.eqb_neq in Hne. now rewrite Hne.
  - destruct (column_position col cols) as [j|]; [|discriminate].
    intros [= <-] Hne. destruct cs as [|x cs]; [reflexivity|].
    cbn [set_cells nth]. now apply IH.
Qed.

Lemma map_zip_with_same {A B C D} (f : A -> B -> C) (g : C -> D) (h : A -> D)
    (l : list A) (k : list B) :
  length k = length l -> (forall a b, g (f a b) = h a) ->
  map g (zip_with f l k) = map h l.
Proof.
  intros Hlen Hg. revert k Hlen.
  induction l as [|a l IH]; intros [|b k] Hlen; try discriminate;
    [reflexivity|].
  cbn [zip_with map]. rewrite Hg. f_equal. apply IH. now injection Hlen.
Qed.

Lemma get_column_length (col : string) (df : frame) (col_data : list cell) :
  get_column col df = Some col_data -> length col_data = len df.
Proof.
  unfold get_column. destruct (column_position col (columns df));
    [|discriminate].
  intros [= <-]. apply length_map.
Qed.

Lemma fill_column_other (df : frame) (c col : string) :
  col <> c -> get_column col (fill_column df c) = get_column col df.
Proof.
  intros Hne. unfold fill_column.
  destruct (get_column c df) as [col_data|] eqn:G; [|reflexivity].
  pose proof (get_column_length c df col_data G) as L.
  unfold get_column in G.
  destruct (column_position c (columns df)) as [j|] eqn:Pc; [|discriminate].
  unfold set_column. rewrite (column_position_in_list _ _ _ Pc).
  unfold get_column. cbn [columns rows].
  destruct (column_position col (columns df)) as [i|] eqn:P; [|reflexivity].
  f_equal. apply map_zip_with_same.
  - now rewrite length_map, fill_series_length, length_map.
  - intros r v. cbn [cells]. now apply (nth_set_cells_other c col).
Qed.

(** X15: [fill_down_context] touches the context columns only: a column
    that is not among them reads the same before and after. *)
Theorem fill_down_context_other_columns (df : frame)
    (context_columns : list string) (col : string) :
  ~ In col context_columns ->
  get_column col (fill_down_context df context_columns) = get_column col df.
Proof.
  unfold fill_down_context. destruct context_columns as [|c cs]; [reflexivity|].
  destruct (empty df); [reflexivity|].
  generalize (c :: cs). intros l. revert df.
  induction l as [|x l IH]; intros df H; [reflexivity|].
  cbn [fold_left]. rewrite IH by (intros Hin; apply H; now right).
  apply fill_column_other. intros ->. apply H. now left.
Qed.

Lemma fill_down_context_other_columns_witness :
  get_column "amount"
    (fill_down_context
       (frame_of ["region"; "amount"] [["north"; "1"]; [""; ""]; [""; "3"]])
       ["region"])
  = get_column "amount"
      (frame_of ["region"; "amount"] [["north"; "1"]; [""; ""]; [""; "3"]]).
Proof.
  apply fill_down_context_other_columns.
  intros [H|[]]. discriminate H.
Defined.

(** ** Pipeline Orchestrator: the status and the flags agree on errors *)

Lemma flag_error (r : meta_row) :
  flag r = "ERROR - Check tab" <-> errored r = true.
Proof.
  unfold flag, errored.
  destruct (negb (String.eqb (clean_status r) "OK")); [easy|].
  destruct (meta_errors r); [|easy]. cbn [orb].
  destruct (meta_warnings r); [|easy].
  destruct (100 <=? exact_duplicate_rows r); [easy|].
  destruct (0 <? meta_totals_rows_dropped r); [easy|].
  destruct (0 <? meta_repeated_header_rows_dropped r); easy.
Qed.

Lemma is_nil_app {A} (l k : list A) : is_nil (l ++ k) = is_nil l && is_nil k.
Proof. now destruct l. Qed.

Lemma is_nil_map {A B} (f : A -> B) (l : list A) : is_nil (map f l) = is_nil l.
Proof. now destruct l. Qed.

Lemma nonempty_is_nil {A} (l : list A) :
  match l with [] => false | _ :: _ => true end = negb (is_nil l).
Proof. now destruct l. Qed.

Section StatusFacts.

Variable clean : frame -> exn + frame * metadata.
Variable to_datetime : string -> option Strptime.datetime.
Variable float_repr : Q -> string.
Variable validate_data_for_sql :
  frame -> gmap string column_profile -> list message * list message.

(** The invariant of the two loops: errors have been collected exactly when
    some row records one. *)
Local Abbreviation errors_recorded st :=
  (is_nil (all_errors st)
   = forallb (fun r => negb (errored r)) (meta_rows st)).

Lemma clean_region_handler (name virtual : string) (r : region)
    (df : frame) (m : metadata) (h : list (string * message)) :
  clean_region clean name virtual r = inr (df, m, h) ->
  is_nil h = true \/ is_nil (errors m) = false.
Proof.
  unfold clean_region.
  destruct (clean (region_df_raw r)) as [[text|text]|[df' m']].
  - destruct (is_ambiguity text); [|discriminate].
    intros [= <- <- <-]. now right.
  - discriminate.
  - intros [= <- <- <-]. now left.
Qed.

Lemma process_region_errors (name : string) (n : nat) (st st' : run_state)
    (idx : nat) (r : region) :
  process_region clean to_datetime float_repr validate_data_for_sql
    name n st idx r = inr st' ->
  errors_recorded st -> errors_recorded st'.
Proof.
  unfold process_region.
  destruct (clean_region clean name (virtual_name name n idx) r)
    as [e|[[df m] h]] eqn:E; [discriminate|].
  destruct (validate_data_for_sql df (analyze_column_types df)) as [vw ve].
  intros [= <-] Hst. cbn [all_errors meta_rows].
  rewrite forallb_app, <- Hst, !is_nil_app, !is_nil_map.
  cbn [forallb]. unfold errored at 1.
  cbn [clean_status meta_errors]. cbn [String.eqb Ascii.eqb Bool.eqb negb orb].
  rewrite andb_true_r.
  rewrite (nonempty_is_nil (errors m ++ ve)), negb_involutive, is_nil_app.
  destruct (clean_region_handler _ _ _ _ _ _ E) as [-> | H];
    [reflexivity|].
  rewrite H. now rewrite andb_false_r.
Qed.

Lemma process_regions_errors (regions : list region) (name : string) (n : nat)
    (st : run_state) (idx : nat) :
  errors_recorded st ->
  errors_recorded
    (fst (process_regions clean to_datetime float_repr validate_data_for_sql
            name n st idx regions)).
Proof.
  revert st idx. induction regions as [|r rest IH]; intros st idx Hst;
    [exact Hst|].
  cbn [process_regions].
  destruct (process_region clean to_datetime float_repr validate_data_for_sql
              name n st idx r) as [e|st'] eqn:E; [exact Hst|].
  apply IH. exact (process_region_errors _ _ _ _ _ _ E Hst).
Qed.

Lemma record_sheet_error_errors (name : string) (e : exn) (st : run_state) :
  errors_recorded (record_sheet_error name e st).
Proof.
  cbn [record_sheet_error all_errors meta_rows].
  rewrite forallb_app, is_nil_app. cbn. now rewrite !andb_false_r.
Qed.

Lemma process_sheet_errors (st : run_state) (sh : sheet) :
  errors_recorded st ->
  errors_recorded
    (process_sheet clean to_datetime float_repr validate_data_for_sql st sh).
Proof.
  intros Hst. unfold process_sheet. destruct (read sh) as [e|regions].
  - apply record_sheet_error_errors.
  - pose proof (process_regions_errors regions (sheet_name sh)
                  (length regions) st 1 Hst) as H.
    destruct (process_regions _ _ _ _ _ _ _ _ _) as [st' [e|]];
      [apply record_sheet_error_errors|exact H].
Qed.

Lemma sheets_loop_errors (sheets : list sheet) (st : run_state) :
  errors_recorded st ->
  errors_recorded
    (fold_left
       (process_sheet clean to_datetime float_repr validate_data_for_sql)
       sheets st).
Proof.
  revert st. induction sheets as [|sh rest IH]; intros st Hst; [exact Hst|].
  cbn [fold_left]. now apply IH, process_sheet_errors.
Qed.

(** X16: the status of a run and the flags of the metadata table agree on
    errors: [normalize_spreadsheet] reports the status ["error"] exactly
    when some row of the table is flagged ["ERROR - Check tab"]. *)
Theorem status_error_iff_flagged (sheets : list sheet) :
  status (normalize_spreadsheet clean to_datetime float_repr
            validate_data_for_sql sheets) = "error"
  <-> exists r,
        In (r, "ERROR - Check tab")
          (meta_df (normalize_spreadsheet clean to_datetime float_repr
                      validate_data_for_sql sheets)).
Proof.
  unfold normalize_spreadsheet. cbn [status meta_df].
  pose proof (sheets_loop_errors sheets initial_state eq_refl) as H.
  set (st := fold_left _ sheets initial_state) in *.
  split.
  - intros Hs.
    assert (Hn : is_nil (all_errors st) = false).
    { destruct (all_errors st); [|reflexivity].
      destruct (all_warnings st); discriminate. }
    rewrite Hn in H. symmetry in H.
    apply not_true_iff_false in H.
    destruct (forallb_forall (fun r => negb (errored r)) (meta_rows st))
      as [_ Hall].
    destruct (existsb errored (meta_rows st)) eqn:X.
    + apply existsb_exists in X as (r & Hr & He). exists r.
      apply flag_error in He. rewrite <- He.
      apply (in_map (fun r => (r, flag r))), Hr.
    + exfalso. apply H, Hall. intros r Hr.
      apply negb_true_iff, not_true_iff_false. intros He.
      apply not_true_iff_false in X. apply X, existsb_exists. now exists r.
  - intros (r & Hr). apply in_map_iff in Hr as (r' & [= -> Hf] & Hr').
    apply flag_error in Hf.
    assert (Hn : is_nil (all_errors st) = false).
    { rewrite H. apply not_true_iff_false. intros Hall.
      rewrite forallb_forall in Hall. specialize (Hall r Hr').
      now rewrite Hf in Hall. }
    now destruct (all_errors st).
Qed.

End StatusFacts.

Lemma ok_tabs_snoc_ok (table : list meta_row) (r : meta_row) :
  clean_status r = "OK" -> ok_tabs (table ++ [r]) = {[tab_name r]} ∪ ok_tabs table.
Proof.
  intros H. unfold ok_tabs. rewrite List.filter_app. cbn [List.filter].
  rewrite H. cbn [String.eqb Ascii.eqb Bool.eqb].
  rewrite map_app, list_to_set_app_L. cbn [map].
  rewrite list_to_set_singleton_L. apply union_comm_L.
Qed.

Lemma ok_tabs_snoc_error (table : list meta_row) (name text : string) :
  ok_tabs (table ++ [sheet_error_row name text]) = ok_tabs table.
Proof.
  unfold ok_tabs. rewrite List.filter_app. cbn [List.filter].
  cbn [sheet_error_row clean_status String.eqb Ascii.eqb Bool.eqb].
  now rewrite app_nil_r.
Qed.

Section TabFacts.

Variable clean : frame -> exn + frame * metadata.
Variable to_datetime : string -> option Strptime.datetime.
Variable float_repr : Q -> string.
Variable validate_data_for_sql :
  frame -> gmap string column_profile -> list message * list message.

(** The invariant of the two loops: the cleaned sheets and the metadata
    entries are keyed by the tab names of the rows with status ["OK"]. *)
Local Abbreviation tabs_recorded st :=
  (dom (cleaned_sheets st) = ok_tabs (meta_rows st)
   /\ dom (sheet_metadata st) = ok_tabs (meta_rows st)).

Lemma process_region_keys (name : string) (n : nat) (st st' : run_state)
    (idx : nat) (r : region) :
  process_region clean to_datetime float_repr validate_data_for_sql
    name n st idx r = inr st' ->
  tabs_recorded st -> tabs_recorded st'.
Proof.
  unfold process_region.
  destruct (clean_region clean name (virtual_name name n idx) r)
    as [e|[[df m] h]]; [discriminate|].
  destruct (validate_data_for_sql df (analyze_column_types df)) as [vw ve].
  intros [= <-] [H1 H2]. cbn [cleaned_sheets sheet_metadata meta_rows].
  rewrite ok_tabs_snoc_ok by reflexivity. cbn [tab_name].
  rewrite !dom_insert_L, H1, H2. now split.
Qed.

Lemma process_regions_keys (regions : list region) (name : string) (n : nat)
    (st : run_state) (idx : nat) :
  tabs_recorded st ->
  tabs_recorded
    (fst (process_regions clean to_datetime float_repr validate_data_for_sql
            name n st idx regions)).
Proof.
  revert st idx. induction regions as [|r rest IH]; intros st idx Hst;
    [exact Hst|].
  cbn [process_regions].
  destruct (process_region clean to_datetime float_repr validate_data_for_sql
              name n st idx r) as [e|st'] eqn:E; [exact Hst|].
  apply IH. exact (process_region_keys _ _ _ _ _ _ E Hst).
Qed.

Lemma process_sheet_keys (st : run_state) (sh : sheet) :
  tabs_recorded st ->
  tabs_recorded
    (process_sheet clean to_datetime float_repr validate_data_for_sql st sh).
Proof.
  intros Hst. unfold process_sheet. destruct (read sh) as [e|regions].
  - cbn [record_sheet_error cleaned_sheets sheet_metadata meta_rows].
    now rewrite ok_tabs_snoc_error.
  - pose proof (process_regions_keys regions (sheet_name sh)
                  (length regions) st 1 Hst) as H.
    destruct (process_regions _ _ _ _ _ _ _ _ _) as [st' [e|]];
      [|exact H].
    cbn [fst] in H.
    cbn [record_sheet_error cleaned_sheets sheet_metadata meta_rows].
    now rewrite ok_tabs_snoc_error.
Qed.

Lemma sheets_loop_keys (sheets : list sheet) (st : run_state) :
  tabs_recorded st ->
  tabs_recorded
    (fold_left
       (process_sheet clean to_datetime float_repr validate_data_for_sql)
       sheets st).
Proof.
  revert st. induction sheets as [|sh rest IH]; intros st Hst; [exact Hst|].
  cbn [fold_left]. now apply IH, process_sheet_keys.
Qed.

(** X17: the cleaned sheets and the per-sheet metadata that
    [normalize_spreadsheet] returns have the same keys, and these are the
    tab names of the rows of the metadata table whose status is ["OK"]: an
    error row has no sheet, and every other row has one. *)
Theorem cleaned_sheets_match_table (sheets : list sheet) :
  dom (result_sheets (normalize_spreadsheet clean to_datetime float_repr
                        validate_data_for_sql sheets))
  = ok_tabs (map fst (meta_df (normalize_spreadsheet clean to_datetime
                                 float_repr validate_data_for_sql sheets)))
  /\ dom (result_metadata (normalize_spreadsheet clean to_datetime float_repr
                             validate_data_for_sql sheets))
     = ok_tabs (map fst (meta_df (normalize_spreadsheet clean to_datetime
                                    float_repr validate_data_for_sql sheets))).
Proof.
  unfold normalize_spreadsheet. cbn [result_sheets result_metadata meta_df].
  rewrite map_map. cbn [fst]. rewrite map_id.
  apply sheets_loop_keys. split; reflexivity.
Qed.

End TabFacts.

(** ** Type Profiler: one entry per column, and exclusive thresholds *)

Lemma insert_loop {D V} (get : string -> option D) (g : D -> V)
    (l : list string) (m : gmap string V) (col : string) :
  fold_left (fun acc c => match get c with
                          | Some d => <[c := g d]> acc
                          | None => acc
                          end) l m !! col
  = if in_list col l
    then match get col with Some d => Some (g d) | None => m !! col end
    else m !! col.
Proof.
  revert m. induction l as [|c l IH]; intros m; [reflexivity|].
  cbn [fold_left]. rewrite IH. unfold in_list. cbn [existsb].
  fold (in_list col l).
  destruct (String.eqb col c) eqn:E.
  - apply String.eqb_eq in E. subst c. cbn [orb].
    destruct (get col) as [d|] eqn:F.
    + now destruct (in_list col l); [|rewrite lookup_insert_eq].
    + now destruct (in_list col l).
  - apply String.eqb_neq in E. cbn [orb].
    destruct (get c) as [d|]; [|reflexivity].
    rewrite lookup_insert_ne by congruence. reflexivity.
Qed.

Lemma in_list_filter (p : string -> bool) (l : list string) (col : string) :
  in_list col (List.filter p l) = in_list col l && p col.
Proof.
  unfold in_list. induction l as [|c l IH]; [reflexivity|].
  cbn [List.filter existsb]. destruct (String.eqb col c) eqn:E.
  - apply String.eqb_eq in E. subst c. cbn [orb]. destruct (p col) eqn:P.
    + cbn [existsb]. now rewrite String.eqb_refl.
    + rewrite IH. now rewrite !andb_false_r.
  - cbn [orb]. destruct (p c); [cbn [existsb]; rewrite E|]; exact IH.
Qed.

Lemma column_position_missing (col : string) (cols : list string) :
  in_list col cols = false -> column_position col cols = None.
Proof.
  unfold in_list. induction cols as [|c cols IH]; [reflexivity|].
  cbn [existsb column_position]. rewrite (String.eqb_sym c col).
  destruct (String.eqb col c); [discriminate|]. cbn [orb].
  intros H. now rewrite IH.
Qed.

(** X18: on a frame that is not empty, the profile of
    [analyze_column_types] has an entry for every column but the duplicate
    flag, and nothing else: under a column label it holds the profile of
    that column's cells, and under any other key nothing. *)
Theorem analyze_column_types_entries (df : frame) (col : string) :
  empty df = false ->
  analyze_column_types df !! col
  = if String.eqb col "__possible_duplicate" then None
    else option_map analyze_column (get_column col df).
Proof.
  intros E. unfold analyze_column_types. rewrite E.
  rewrite (insert_loop (fun c => get_column c df) analyze_column).
  rewrite in_list_filter, lookup_empty.
  destruct (String.eqb col "__possible_duplicate"); cbn [negb].
  - now rewrite andb_false_r.
  - rewrite andb_true_r. destruct (in_list col (columns df)) eqn:I.
    + now destruct (get_column col df).
    + unfold get_column. now rewrite column_position_missing.
Qed.

Lemma analyze_column_types_entries_witness :
  analyze_column_types (frame_of ["n"] [["1"]; ["2"]; ["3"]; ["4"]]) !! "n"
  = if String.eqb "n" "__possible_duplicate" then None
    else option_map analyze_column
           (get_column "n" (frame_of ["n"] [["1"]; ["2"]; ["3"]; ["4"]])).
Proof. apply analyze_column_types_entries. reflexivity. Defined.

Lemma kinds_counted_once (series : list string) :
  count_kind AsInt series + count_kind AsFloat series
  + count_kind AsDate series + count_kind AsTimestamp series
  <= length series.
Proof.
  unfold count_kind. induction series as [|val series IH]; [cbn; lia|].
  cbn [List.filter length].
  destruct (classify val); cbn [kind_eqb length]; lia.
Qed.

Lemma reaches_threshold (pct count total : nat) :
  0 < pct ->
  Qle_bool (inject_Z (Z.of_nat pct)) (percent count total)
  = reaches pct count total.
Proof.
  intros H. destruct (percent_reaches pct count total) as [E|E]; [exact E|lia].
Qed.

(** X19: the three tests of the type recommendation exclude one another.
    The integer, float and date counts of a column add up to no more than
    its values, so at most one of "dates at least 80%", "integers at least
    90%" and "floats at least 80%" holds, and the order in which
    [analyze_column_types] tries them decides nothing. *)
Theorem profile_tests_exclusive (series : list string) :
  let st := count_types series in
  let total := length series in
  int_count st + float_count st + date_count st <= total
  /\ Qle_bool 80 (percent (date_count st) total)
     && Qle_bool 90 (percent (int_count st) total) = false
  /\ Qle_bool 80 (percent (date_count st) total)
     && Qle_bool 80 (percent (float_count st) total) = false
  /\ Qle_bool 90 (percent (int_count st) total)
     && Qle_bool 80 (percent (float_count st) total) = false.
Proof.
  cbn zeta. unfold count_types.
  destruct (count_types_loop series
              {| int_count := 0; float_count := 0; date_count := 0;
                 has_timestamp := false |}) as (Hi & Hf & Hd & _).
  cbn [int_count float_count date_count] in Hi, Hf, Hd.
  rewrite Hi, Hf, Hd. pose proof (kinds_counted_once series) as K.
  change 80%Q with (inject_Z (Z.of_nat 80)).
  change 90%Q with (inject_Z (Z.of_nat 90)).
  rewrite !reaches_threshold by lia. unfold reaches.
  split; [lia|].
  destruct (0 <? length series) eqn:T; [|easy]. cbn [andb].
  apply Nat.ltb_lt in T.
  repeat split; apply andb_false_iff;
    rewrite !Nat.leb_gt; lia.
Qed.

(** ** Header Detector: the band lies inside the frame *)

Lemma depth_loop_band (df_tmp : frame) (min_ne start_idx : nat) (k depth : nat) :
  (forall i, i < depth -> In (start_idx + i) (index df_tmp)) ->
  depth <= depth_loop df_tmp min_ne start_idx depth (seq (S depth) k)
         <= depth + k
  /\ forall i,
       i < depth_loop df_tmp min_ne start_idx depth (seq (S depth) k) ->
       In (start_idx + i) (index df_tmp).
Proof.
  revert depth. induction k as [|k IH]; intros depth H.
  - cbn [seq depth_loop]. split; [lia|exact H].
  - cbn [seq depth_loop].
    replace (start_idx + S depth - 1) with (start_idx + depth) by lia.
    destruct (existsb (Nat.eqb (start_idx + depth)) (index df_tmp)) eqn:E;
      [|cbn [andb]; split; [lia|exact H]].
    cbn [andb].
    destruct (header_like min_ne (loc df_tmp (start_idx + depth)));
      [|split; [lia|exact H]].
    destruct (IH (S depth)) as [Hb Hin].
    + intros i Hi. destruct (Nat.eq_dec i depth) as [->|N].
      * apply existsb_exists in E as (x & Hx & Hxe).
        apply Nat.eqb_eq in Hxe. now subst x.
      * apply H. lia.
    + split; [lia|exact Hin].
Qed.

Lemma find_label_in (f : row -> bool) (l : list row) (r : row) :
  find f l = Some r -> In (label r) (map label l).
Proof.
  intros H. apply find_some in H as [H _]. now apply in_map.
Qed.

Lemma detect_header_depth_facts (df : frame) :
  rows df <> [] ->
  1 <= snd (detect_header_depth df) <= 3
  /\ forall i, i < snd (detect_header_depth df) ->
               In (fst (detect_header_depth df) + i) (index df).
Proof.
  intros Hrows. unfold detect_header_depth.
  set (df_tmp := {| columns := columns df; rows := map _ (rows df) |}).
  assert (Hidx : index df_tmp = index df).
  { unfold index, df_tmp. cbn [rows]. rewrite map_map. reflexivity. }
  destruct (find _ (rows df_tmp)) as [r|] eqn:F; cbn [fst snd].
  - assert (Hr : In (label r) (index df)).
    { rewrite <- Hidx. now apply (find_label_in _ _ _ F). }
    destruct (depth_loop_band df_tmp (min_non_empty (length (columns df)))
                (label r) (Nat.min 3 (len df_tmp - label r) - 1) 1)
      as [Hb Hin].
    + intros i Hi. replace i with 0 by lia. rewrite Nat.add_0_r.
      now rewrite Hidx.
    + rewrite Hidx in Hin. split; [lia|exact Hin].
  - split; [lia|]. intros i Hi. replace i with 0 by lia.
    rewrite Nat.add_0_r. unfold index.
    destruct (rows df) as [|r l]; [easy|]. now left.
Qed.

(** X20: the header band that [detect_header_depth] reports lies inside the
    frame: on a frame with a row the depth is 1, 2 or 3, and every label
    from the start label on, as many as the depth, is a label of the
    frame. *)
Theorem detect_header_depth_band (df : frame) :
  rows df <> [] ->
  1 <= snd (detect_header_depth df) <= 3
  /\ forall i, i < snd (detect_header_depth df) ->
               In (fst (detect_header_depth df) + i) (index df).
Proof. apply detect_header_depth_facts. Qed.

Lemma detect_header_depth_band_witness :
  1 <= snd (detect_header_depth four_block_sheet) <= 3
  /\ forall i, i < snd (detect_header_depth four_block_sheet) ->
               In (fst (detect_header_depth four_block_sheet) + i)
                 (index four_block_sheet).
Proof. apply detect_header_depth_band. discriminate. Defined.

Lemma find_map_row (f : row -> row) (p : row -> bool) (l : list row) :
  (forall r, label (f r) = label r) ->
  option_map label (find p (map f l))
  = option_map label (find (fun r => p (f r)) l).
Proof.
  intros Hf. induction l as [|r l IH]; [reflexivity|]. cbn [map find].
  destruct (p (f r)); [cbn; now rewrite Hf|exact IH].
Qed.

(** X21: the legacy detector and the depth detector agree on where the
    header starts: on a frame with a row, [detect_header_row] returns the
    start label that [detect_header_depth] returns. *)
Theorem detect_header_row_agrees (df : frame) :
  rows df <> [] ->
  detect_header_row df = Some (fst (detect_header_depth df)).
Proof.
  unfold detect_header_row, detect_header_depth.
  intros Hrows. cbn [rows].
  pose proof (find_map_row
    (fun r => {| label := label r; cells := map replace_empty (cells r) |})
    (fun r => min_non_empty (length (columns df)) <=? notna_count (cells r))
    (rows df) (fun r => eq_refl)) as H.
  cbn [cells] in H.
  destruct (find _ (map _ (rows df))) as [r|];
    destruct (find _ (rows df)) as [r'|]; try discriminate; cbn [fst].
  - cbn in H. now injection H as ->.
  - unfold index. destruct (rows df) as [|r l]; [easy|]. reflexivity.
Qed.

Lemma detect_header_row_agrees_witness :
  detect_header_row four_block_sheet
  = Some (fst (detect_header_depth four_block_sheet)).
Proof. apply detect_header_row_agrees. discriminate. Defined.

(** ** One region: where the rows go *)

Lemma imap_labels (g : nat -> nat) (l : list row) :
  map label (imap (fun i r => {| label := g i; cells := cells r |}) l)
  = map g (seq 0 (length l)).
Proof.
  revert g. induction l as [|r l IH]; intros g; [reflexivity|].
  rewrite imap_cons. cbn [map length seq label]. f_equal.
  rewrite <- seq_shift, map_map. apply (IH (fun i => g (S i))).
Qed.

Lemma reset_index_labels (df : frame) :
  index (reset_index df) = seq 0 (len df).
Proof.
  unfold index, reset_index, len. cbn [rows].
  rewrite (imap_labels (fun i => i)). apply map_id.
Qed.

Lemma filter_labels_NoDup (f : row -> bool) (l : list row) :
  NoDup (map label l) -> NoDup (map label (List.filter f l)).
Proof.
  induction l as [|r l IH]; [easy|]. cbn [map List.filter].
  intros [Hr Hl]%NoDup_cons. destruct (f r); [|now apply IH].
  cbn [map]. apply NoDup_cons. split; [|now apply IH].
  intros H. apply Hr. apply list_elem_of_In in H. apply list_elem_of_In.
  apply in_map_iff in H as (x & Hx & Hin). apply in_map_iff. exists x.
  split; [exact Hx|]. now apply filter_In in Hin.
Qed.

Lemma detect_repeated_headers_labels (df : frame) (hs : list string) :
  NoDup (index df) -> NoDup (index (fst (detect_repeated_headers df hs))).
Proof.
  intros H. unfold detect_repeated_headers.
  destruct (empty df || (length hs =? 0)); [exact H|].
  destruct (size (header_value_set hs) =? 0); [exact H|].
  destruct (fold_left _ _ _); [exact H|]. cbn [fst].
  rewrite reset_index_labels. apply NoDup_seq.
Qed.

Lemma band_rows (df : frame) (h d : nat) :
  (forall i, i < d -> In (h + i) (index df)) ->
  len (loc_from (h + d) df) + d <= len df.
Proof.
  intros H. unfold len, loc_from. cbn [rows].
  rewrite <- (filter_split_length (fun r => h + d <=? label r) (rows df)).
  assert (Hs : length (seq h d)
               <= length (map label
                            (List.filter (fun r => negb (h + d <=? label r))
                               (rows df))));
    [|rewrite length_seq, length_map in Hs; lia].
  apply List.NoDup_incl_length; [apply List.seq_NoDup|].
  intros x Hx. apply in_seq in Hx.
  specialize (H (x - h) ltac:(lia)).
  replace (h + (x - h)) with x in H by lia.
  unfold index in H. apply in_map_iff in H as (r & Hr & Hin).
  apply in_map_iff. exists r. split; [exact Hr|].
  apply filter_In. split; [exact Hin|].
  apply negb_true_iff, Nat.leb_gt. lia.
Qed.

Lemma empty_has_rows (df : frame) : empty df = false -> rows df <> [].
Proof. unfold empty. now destruct (rows df). Qed.

(** X22: where the rows of a region go.  When the region is not empty
    after its empty rows and columns are dropped, the rows that
    [clean_single_sheet] returns, the header rows, the repeated-header rows
    it dropped and the total rows it dropped are together no more than the
    rows it counted on input. *)
Theorem clean_single_sheet_accounting (df_raw : frame) :
  empty (dropna_columns (dropna_rows df_raw)) = false ->
  rows_out (snd (clean_single_sheet df_raw))
  + header_depth_used (snd (clean_single_sheet df_raw))
  + repeated_header_rows_dropped (snd (clean_single_sheet df_raw))
  + totals_rows_dropped (snd (clean_single_sheet df_raw))
  <= rows_in (snd (clean_single_sheet df_raw)).
Proof.
  unfold clean_single_sheet.
  set (df := dropna_columns (dropna_rows df_raw)). intros E. rewrite E.
  destruct (detect_header_depth_facts df (empty_has_rows df E)) as [_ Hband].
  destruct (detect_header_depth df) as [header_idx header_depth].
  cbn [fst snd] in Hband.
  pose proof (band_rows df header_idx header_depth Hband) as H0.
  destruct (normalise_headers _) as [normalized_headers dup_col_count].
  set (df1 := set_columns normalized_headers
                (reset_index (loc_from (header_idx + header_depth) df))).
  assert (H1 : len df1 = len (loc_from (header_idx + header_depth) df)).
  { unfold df1, set_columns, len at 1. cbn [rows].
    fold (len (reset_index (loc_from (header_idx + header_depth) df))).
    apply reset_index_len. }
  assert (N1 : NoDup (index df1)).
  { unfold df1, set_columns, index. cbn [rows].
    fold (index (reset_index (loc_from (header_idx + header_depth) df))).
    rewrite reset_index_labels. apply NoDup_seq. }
  pose proof (repeated_headers_count df1 normalized_headers) as H2.
  pose proof (detect_repeated_headers_labels df1 normalized_headers N1) as N2.
  destruct (detect_repeated_headers df1 normalized_headers) as [df2 rep].
  cbn [fst snd] in H2, N2.
  pose proof (dropna_rows_len df2) as H3.
  assert (N3 : NoDup (index (dropna_rows df2)))
    by (apply filter_labels_NoDup, N2).
  set (df3 := dropna_rows df2) in *.
  assert (H4 : len (fst (fst (if empty df3 then (df3, 0, 0)
                              else detect_total_rows df3)))
               + snd (if empty df3 then (df3, 0, 0) else detect_total_rows df3)
               = len df3).
  { destruct (empty df3); [cbn [fst snd]; lia|].
    apply (total_rows_count df3 N3). }
  destruct (if empty df3 then (df3, 0, 0) else detect_total_rows df3)
    as [[df4 flagged] dropped].
  cbn [fst snd] in H4.
  set (ctx := if empty df4 then [] else detect_context_columns df4 normalized_headers).
  pose proof (fill_down_context_len df4 ctx) as H5.
  set (df5 := fill_down_context df4 ctx) in *.
  pose proof (set_column_len "__possible_duplicate"
                (if empty df5 then [] else duplicated df5) df5) as H6.
  cbn [snd rows_in rows_out header_depth_used repeated_header_rows_dropped
       totals_rows_dropped].
  lia.
Qed.

Lemma clean_single_sheet_accounting_witness :
  rows_out (snd (clean_single_sheet small_totals_table))
  + header_depth_used (snd (clean_single_sheet small_totals_table))
  + repeated_header_rows_dropped (snd (clean_single_sheet small_totals_table))
  + totals_rows_dropped (snd (clean_single_sheet small_totals_table))
  <= rows_in (snd (clean_single_sheet small_totals_table)).
Proof. apply clean_single_sheet_accounting. reflexivity. Defined.

(** ** Header Flattener *)

Lemma join_nonempty (sep p : string) (rest : list string) :
  p <> "" -> join sep (p :: rest) <> "".
Proof.
  intros H. cbn [join]. destruct rest; [exact H|]. now apply append_nonempty.
Qed.

Lemma header_parts_nonempty (header_rows : list (list cell)) (col_idx : nat)
    (p : string) :
  In p (header_parts header_rows col_idx) -> p <> "".
Proof.
  unfold header_parts. intros H. apply filter_In in H as [_ H].
  apply negb_true_iff in H. now apply String.eqb_neq in H.
Qed.

(** X23: a flattened header of two or more rows names every column: when
    the start label is a label of the frame, [flatten_multirow_headers]
    returns one entry per cell of the first header row, and every entry is
    a text that is not empty. *)
Theorem flatten_multirow_headers_named (df : frame) (start_idx depth : nat) :
  2 <= depth -> In start_idx (index df) ->
  length (flatten_multirow_headers df start_idx depth)
  = length (loc df start_idx)
  /\ Forall (fun v => exists s, v = Str s /\ s <> "")
       (flatten_multirow_headers df start_idx depth).
Proof.
  intros Hd Hin. unfold flatten_multirow_headers.
  destruct (depth =? 1) eqn:E; [apply Nat.eqb_eq in E; lia|].
  destruct depth as [|depth]; [lia|]. cbn [seq map List.filter].
  rewrite Nat.add_0_r.
  assert (X : existsb (Nat.eqb start_idx) (index df) = true).
  { apply existsb_exists. exists start_idx. split; [exact Hin|].
    apply Nat.eqb_refl. }
  rewrite X. cbn [map]. split.
  - now rewrite length_map, length_seq.
  - apply Forall_forall. intros v Hv. apply list_elem_of_In in Hv.
    apply in_map_iff in Hv as (col_idx & <- & _).
    destruct (header_parts _ col_idx) as [|p rest] eqn:P.
    + eexists. split; [reflexivity|]. now unfold_append.
    + eexists. split; [reflexivity|]. cbn [collapse_repeats app].
      apply join_nonempty.
      eapply header_parts_nonempty. rewrite P. now left.
Qed.

Lemma flatten_multirow_headers_named_witness :
  length (flatten_multirow_headers four_block_sheet 0 2)
  = length (loc four_block_sheet 0)
  /\ Forall (fun v => exists s, v = Str s /\ s <> "")
       (flatten_multirow_headers four_block_sheet 0 2).
Proof.
  apply flatten_multirow_headers_named; [lia|]. vm_compute. now left.
Defined.

(** ** SQL Sanitizer: text values *)

Lemma filter_chars_all (p : ascii -> bool) (s : string) :
  forall_chars p (filter_chars p s) = true.
Proof.
  induction s as [|c r IH]; [reflexivity|]. cbn [filter_chars].
  destruct (p c) eqn:E; [|exact IH]. cbn [forall_chars]. now rewrite E.
Qed.

Lemma filter_chars_kept (p : ascii -> bool) (s : string) :
  forall_chars p s = true -> filter_chars p s = s.
Proof.
  induction s as [|c r IH]; [reflexivity|]. cbn [forall_chars filter_chars].
  intros [Hc Hr]%andb_true_iff. rewrite Hc. now rewrite IH.
Qed.

Lemma sanitize_string_value_cases (val : cell) :
  sanitize_string_value val = NA
  \/ exists result,
       sanitize_string_value val = Str result
       /\ forall_chars keeps_char result = true
       /\ strip result <> "".
Proof.
  unfold sanitize_string_value. destruct (safe_isna val); [now left|].
  set (result := filter_chars keeps_char (astype_str val)).
  destruct (String.eqb (strip result) "") eqn:E; [now left|].
  right. exists result. split; [reflexivity|]. split.
  - apply filter_chars_all.
  - now apply String.eqb_neq.
Qed.

(** X24: [sanitize_string_value] returns a missing value or a text that
    holds no control character other than tab, newline and carriage return,
    no DEL, and is not blank; and sanitizing what it returns changes
    nothing. *)
Theorem sanitize_string_value_settled (val : cell) :
  (sanitize_string_value val = NA
   \/ exists result,
        sanitize_string_value val = Str result
        /\ forall_chars keeps_char result = true
        /\ strip result <> "")
  /\ sanitize_string_value (sanitize_string_value val)
     = sanitize_string_value val.
Proof.
  split; [apply sanitize_string_value_cases|].
  destruct (sanitize_string_value_cases val) as [-> | (r & -> & Hk & Hs)];
    [reflexivity|].
  unfold sanitize_string_value. cbn [safe_isna astype_str].
  rewrite (filter_chars_kept keeps_char r Hk).
  apply String.eqb_neq in Hs. now rewrite Hs.
Qed.

(** ** The VARCHAR size of the DDL *)

Lemma column_max_len_bound (col_data : list cell) (acc : N) (val : cell) :
  In val col_data -> safe_notna val = true ->
  (N.of_nat (utf8_length (astype_str val))
   <= fold_left
        (fun max_len v => N.max max_len (N.of_nat (utf8_length (astype_str v))))
        (List.filter safe_notna col_data) acc)%N.
Proof.
  assert (Hmono : forall l a,
            (a <= fold_left
                    (fun max_len v =>
                       N.max max_len (N.of_nat (utf8_length (astype_str v))))
                    l a)%N).
  { induction l as [|x l IH]; intros a; [cbn; lia|]. cbn [fold_left].
    etransitivity; [|apply IH]. lia. }
  revert acc. induction col_data as [|x l IH]; intros acc Hin Hv; [easy|].
  cbn [List.filter]. destruct Hin as [->|Hin].
  - rewrite Hv. cbn [fold_left]. etransitivity; [|apply Hmono]. lia.
  - destruct (safe_notna x); [cbn [fold_left]|]; now apply IH.
Qed.

Lemma varchar_size_fits (max_len : N) :
  (max_len <= 16777216)%N -> (max_len <= varchar_size max_len)%N.
Proof.
  intros H. unfold varchar_size.
  destruct (max_len =? 0)%N eqn:E0; [lia|].
  destruct (max_len <? 100)%N eqn:E1; [apply N.ltb_lt in E1; lia|].
  destruct (max_len <? 500)%N eqn:E2; [apply N.ltb_lt in E2; lia|].
  destruct (max_len <? 2000)%N eqn:E3; [apply N.ltb_lt in E3; lia|].
  destruct (max_len <? 10000)%N eqn:E4; [apply N.ltb_lt in E4; lia|].
  exact H.
Qed.

(** X25: the VARCHAR size that [generate_create_table_statements] declares
    for a column holds every value of the column: when the longest value
    has at most 16777216 bytes, no value that is not missing has more bytes
    than the declared size. *)
Theorem varchar_size_holds_values (col_data : list cell) (val : cell) :
  (column_max_len col_data <= 16777216)%N ->
  In val col_data -> safe_notna val = true ->
  (N.of_nat (utf8_length (astype_str val))
   <= varchar_size (column_max_len col_data))%N.
Proof.
  intros Hmax Hin Hv. etransitivity; [|now apply varchar_size_fits].
  now apply column_max_len_bound.
Qed.

Lemma varchar_size_holds_values_witness :
  (N.of_nat (utf8_length (astype_str (Str "north-east")))
   <= varchar_size (column_max_len [Str "north"; NaN; Str "north-east"]))%N.
Proof.
  apply varchar_size_holds_values.
  - vm_compute. discriminate.
  - right. right. now left.
  - reflexivity.
Defined.

(** ** Noise Row Filter: a row that repeats the headers is found *)

Lemma elem_of_header_value_set (hs : list string) (x : string) :
  x ∈ header_value_set hs
  <-> exists h, In h hs /\ strip h <> EmptyString /\ x = lower (strip h).
Proof.
  unfold header_value_set. rewrite elem_of_list_to_set, list_elem_of_In.
  rewrite in_map_iff. split.
  - intros (h & <- & Hh). apply filter_In in Hh as [Hin Hne].
    exists h. split; [exact Hin|]. split; [|reflexivity].
    apply negb_true_iff in Hne. now apply String.eqb_neq.
  - intros (h & Hin & Hne & ->). exists h. split; [reflexivity|].
    apply filter_In. split; [exact Hin|].
    apply negb_true_iff. now apply String.eqb_neq.
Qed.

Lemma lower_empty (s : string) : lower s = EmptyString -> s = EmptyString.
Proof. now destruct s. Qed.

Lemma same_names_same_values (hs row_values : list string) (x : string) :
  Forall2 (fun h v => lower (strip v) = lower (strip h)) hs row_values ->
  (exists v, In v row_values /\ strip v <> EmptyString /\ x = lower (strip v))
  <-> (exists h, In h hs /\ strip h <> EmptyString /\ x = lower (strip h)).
Proof.
  induction 1 as [|h v hs vs Hhv _ IH].
  - split; intros (y & [] & _).
  - split.
    + intros (w & [<-|Hw] & Hne & ->).
      * exists h. split; [now left|]. split; [|exact Hhv].
        intros Hh. rewrite Hh in Hhv. apply Hne. now apply lower_empty.
      * destruct (proj1 IH) as (h' & Hh' & Hne' & Hx'); [now exists w|].
        exists h'. split; [now right|]. now split.
    + intros (w & [<-|Hw] & Hne & ->).
      * exists v. split; [now left|]. split; [|now rewrite Hhv].
        intros Hv. rewrite Hv in Hhv. apply Hne. symmetry in Hhv.
        now apply lower_empty.
      * destruct (proj2 IH) as (v' & Hv' & Hne' & Hx'); [now exists w|].
        exists v'. split; [now right|]. now split.
Qed.

(** X26: a row that repeats the headers is found.  When every cell of a
    row is the header of its column up to case and surrounding whitespace,
    and some header is not blank, the test of [detect_repeated_headers]
    holds for the row. *)
Theorem repeated_header_found (normalized_headers : list string)
    (row_data : list cell) (h : string) :
  Forall2 (fun h v => lower (strip (astype_str v)) = lower (strip h))
    normalized_headers row_data ->
  In h normalized_headers -> strip h <> "" ->
  is_repeated_header normalized_headers (header_value_set normalized_headers)
    row_data = true.
Proof.
  intros Hrow Hin Hne.
  assert (Hsame : row_value_set (map astype_str row_data)
                  = header_value_set normalized_headers).
  { apply set_eq. intros x.
    rewrite elem_of_row_value_set, elem_of_header_value_set.
    apply same_names_same_values.
    clear Hin. induction Hrow; constructor; auto. }
  assert (Hpos : 0 < size (header_value_set normalized_headers)).
  { destruct (size (header_value_set normalized_headers)) eqn:S; [|lia].
    apply size_empty_inv in S.
    assert (lower (strip h) ∈ header_value_set normalized_headers)
      by (apply elem_of_header_value_set; now exists h).
    exfalso. apply (S (lower (strip h))) in H. now apply not_elem_of_empty in H. }
  unfold is_repeated_header. rewrite Hsame.
  rewrite (proj2 (Nat.ltb_lt _ _) Hpos).
  rewrite intersection_idemp_L.
  apply orb_true_iff. left. apply Qle_bool_ratio; [exact Hpos|]. lia.
Qed.

Lemma repeated_header_found_witness :
  is_repeated_header ["item"; "q1"] (header_value_set ["item"; "q1"])
    [Str " Item"; Str "Q1 "] = true.
Proof.
  apply (repeated_header_found ["item"; "q1"] [Str " Item"; Str "Q1 "] "item").
  - repeat constructor.
  - now left.
  - discriminate.
Defined.

(** ** Integers through the numeric validation *)

Lemma uint_value_acc (d : Decimal.uint) (acc : positive) :
  digits_value_from (Zpos acc) (NilEmpty.string_of_uint d)
  = Zpos (Pos.of_uint_acc d acc).
Proof.
  revert acc. induction d; intros acc; cbn [NilEmpty.string_of_uint
    digits_value_from Pos.of_uint_acc]; [reflexivity|..];
    rewrite <- IHd; f_equal; unfold digit_value; cbn; lia.
Qed.

Lemma uint_value (d : Decimal.uint) :
  digits_value (NilEmpty.string_of_uint d) = Z.of_N (Pos.of_uint d).
Proof.
  unfold digits_value.
  induction d; cbn [NilEmpty.string_of_uint digits_value_from Pos.of_uint];
    [reflexivity|exact IHd|..];
    cbn [Z.of_N]; rewrite <- uint_value_acc; reflexivity.
Qed.

Lemma uint_digits (d : Decimal.uint) :
  forall_chars isdecimal (NilEmpty.string_of_uint d) = true.
Proof. induction d; simpl; try reflexivity; exact IHd. Qed.

(** The digits of a positive number. *)
Lemma pos_digits (p : positive) :
  digits_value (NilEmpty.string_of_uint (Pos.to_uint p)) = Zpos p
  /\ forall_chars isdecimal (NilEmpty.string_of_uint (Pos.to_uint p)) = true
  /\ NilEmpty.string_of_uint (Pos.to_uint p) <> "".
Proof.
  split; [|split].
  - rewrite uint_value, DecimalPos.Unsigned.of_to. reflexivity.
  - apply uint_digits.
  - pose proof (DecimalPos.Unsigned.to_uint_nonnil p) as H.
    destruct (Pos.to_uint p); try easy.
Qed.

Lemma str_int_forms (z : Z) :
  match z with
  | Z0 => str_int z = "0"
  | Zpos p => str_int z = NilEmpty.string_of_uint (Pos.to_uint p)
  | Zneg p => str_int z = String "-" (NilEmpty.string_of_uint (Pos.to_uint p))
  end.
Proof.
  destruct z as [|p|p]; [reflexivity|..]; unfold str_int;
    cbn [Z.to_int NilZero.string_of_int NilZero.string_of_uint];
    pose proof (DecimalPos.Unsigned.to_uint_nonnil p) as H;
    destruct (Pos.to_uint p); try easy.
Qed.

Lemma digit_char (c : ascii) :
  isdecimal c = true ->
  ident_char c = true /\ Ascii.eqb c "_" = false /\ Ascii.eqb c "-" = false
  /\ Ascii.eqb c "+" = false /\ Ascii.eqb c "." = false
  /\ Ascii.eqb c "i" = false /\ Ascii.eqb c "n" = false.
Proof. ascii_cases c; repeat split; reflexivity. Qed.

Lemma remove_char_digits (c : ascii) (s : string) :
  isdecimal c = false -> forall_chars isdecimal s = true ->
  remove_char c s = s.
Proof.
  intros Hc. induction s as [|d r IH]; [reflexivity|].
  cbn [forall_chars remove_char]. intros [Hd Hr]%andb_true_iff.
  destruct (Ascii.eqb_spec c d) as [->|_]; [congruence|]. now rewrite IH.
Qed.

Lemma underscores_ok_digits (prev : ascii) (s : string) :
  Ascii.eqb prev "_" = false -> forall_chars isdecimal s = true ->
  underscores_ok prev s = true.
Proof.
  revert prev. induction s as [|c r IH]; intros prev Hp;
    cbn [forall_chars underscores_ok].
  - intros _. now rewrite Hp.
  - intros [Hc Hr]%andb_true_iff.
    destruct (digit_char c Hc) as (_ & Hu & _).
    rewrite Hu, Hp. cbn [andb negb]. now apply IH.
Qed.

Lemma span_digits_all (s : string) :
  forall_chars isdecimal s = true -> span_digits s = (s, EmptyString).
Proof.
  induction s as [|c r IH]; [reflexivity|]. cbn [forall_chars span_digits].
  intros [Hc Hr]%andb_true_iff. now rewrite Hc, IH.
Qed.

Lemma append_empty_r (s : string) : s +:+ "" = s.
Proof. induction s as [|c r IH]; unfold_append; [reflexivity|now rewrite IH]. Qed.

Lemma digits_plain (s : string) :
  forall_chars isdecimal s = true -> forall_chars ident_char s = true.
Proof. apply forall_chars_impl. intros c. apply isdecimal_ident_char. Qed.

(** How the engine reads the text of an integer: [s] is the digits [ds]
    with a minus sign when [neg]. *)
Lemma numeral_read (neg : bool) (ds : string) :
  forall_chars isdecimal ds = true -> ds <> "" ->
  let s := if neg then String "-" ds else ds in
  strip s = s /\ is_blank s = false /\ strip_formatting s = s
  /\ underscores_ok "000" s = true
  /\ split_sign (remove_char "_" s) = (neg, ds)
  /\ parse_decimal s
     = Some (Dec (inject_Z (signed neg (digits_value ds)) * inject_Z 1)).
Proof.
  intros Hd Hne. cbn zeta.
  destruct (plain_text_kept ds (digits_plain ds Hd)) as (L & R & Lo & _).
  destruct ds as [|c r]; [easy|].
  pose proof Hd as Hd'. cbn [forall_chars] in Hd'.
  apply andb_true_iff in Hd' as [Hc Hr].
  destruct (digit_char c Hc) as (_ & Hu & Hm & Hp & Hdot & Hi & Hn).
  destruct (ident_char_plain c (isdecimal_ident_char c Hc)) as (_ & Hlow & _).
  assert (Hstrip : strip (if neg then String "-" (String c r) else String c r)
                   = if neg then String "-" (String c r) else String c r).
  { unfold strip. destruct neg; [|now rewrite L, R].
    cbn [lstrip]. replace (isspace "-") with false by reflexivity.
    change (rstrip (String "-" (String c r)))
      with (match rstrip (String c r) with
            | EmptyString => if isspace "-" then EmptyString else "-"
            | t => String "-" t
            end).
    now rewrite R. }
  assert (Hsign : split_sign (String c r) = (false, String c r)).
  { revert Hc. clear. ascii_cases c. }
  assert (Hrm : forall x, isdecimal x = false -> Ascii.eqb x "-" = false ->
            remove_char x (if neg then String "-" (String c r) else String c r)
            = if neg then String "-" (String c r) else String c r).
  { intros x Hx Hx'. destruct neg; [|now apply remove_char_digits].
    change (remove_char x (String "-" (String c r)))
      with (if Ascii.eqb x "-" then remove_char x (String c r)
            else String "-" (remove_char x (String c r))).
    rewrite Hx'. now rewrite remove_char_digits. }
  assert (Hsplit : split_sign
                     (remove_char "_"
                        (if neg then String "-" (String c r) else String c r))
                   = (neg, String c r)).
  { rewrite Hrm by reflexivity. now destruct neg. }
  assert (Hok : underscores_ok "000"
                  (if neg then String "-" (String c r) else String c r) = true).
  { destruct neg; [|now apply underscores_ok_digits].
    change (underscores_ok "000" (String "-" (String c r)))
      with (negb (Ascii.eqb "000" "_" && negb (isdecimal "-"))
            && underscores_ok "-" (String c r)).
    now rewrite underscores_ok_digits. }
  split; [exact Hstrip|]. split; [|split; [|split; [exact Hok|split;
    [exact Hsplit|]]]].
  - unfold is_blank, in_list. destruct neg; cbn [lower String.eqb existsb].
    + reflexivity.
    + rewrite Hlow, Hn. reflexivity.
  - unfold strip_formatting. now rewrite !Hrm by reflexivity.
  - unfold parse_decimal. rewrite Hstrip, Hok, Hsplit.
    cbn [lower String.eqb].
    rewrite Hlow, Hi, Hn. cbn [andb orb].
    rewrite (span_digits_all (String c r) Hd).
    rewrite append_empty_r. cbn [parse_exponent String.length].
    reflexivity.
Qed.

Lemma round_half_even_whole (n : Z) : round_half_even n 1 = n.
Proof.
  unfold round_half_even. rewrite Z.div_1_r, Z.mod_1_r. reflexivity.
Qed.

Lemma signed_abs (v : Z) : signed (v <? 0)%Z (Z.abs v) = v.
Proof. unfold signed. destruct (Z.ltb_spec v 0); lia. Qed.

(** An integer below [2^53] in magnitude is a double, and [int] of that
    double gives it back. *)
Lemma small_integer_exact (v : Z) :
  (Z.abs v < 2 ^ 53)%Z ->
  exists q, round_double (inject_Z v * inject_Z 1) = Finite q
            /\ Z.quot (Qnum q) (Zpos (Qden q)) = v.
Proof.
  intros Hv. unfold round_double.
  cbn [Qmult inject_Z Qnum Qden Pos.mul]. rewrite Z.mul_1_r.
  destruct (Z.abs v =? 0)%Z eqn:E0.
  { apply Z.eqb_eq in E0. exists 0%Q. split; [reflexivity|].
    cbn [Qnum Qden]. rewrite Z.quot_1_r. lia. }
  apply Z.eqb_neq in E0.
  assert (Hpos : (0 < Z.abs v)%Z) by lia.
  assert (Hlog : log2_ratio (Z.abs v) 1 = Z.log2 (Z.abs v)).
  { unfold log2_ratio. cbn [Z.log2]. rewrite Z.sub_0_r.
    pose proof (Z.log2_nonneg (Z.abs v)) as Hn.
    rewrite (proj2 (Z.leb_le _ _) Hn).
    destruct (Z.log2_spec (Z.abs v) Hpos) as [Hl _].
    rewrite Z.mul_1_l. now rewrite (proj2 (Z.leb_le _ _) Hl). }
  change (1 * 1)%positive with 1%positive. rewrite Hlog.
  assert (Hl53 : (Z.log2 (Z.abs v) < 53)%Z)
    by (apply Z.log2_lt_pow2; [exact Hpos|exact Hv]).
  pose proof (Z.log2_nonneg (Z.abs v)) as Hl0.
  rewrite Z.max_l by lia.
  set (e := (Z.log2 (Z.abs v) - 52)%Z) in *.
  destruct (0 <=? e)%Z eqn:Ee.
  - apply Z.leb_le in Ee. assert (e = 0%Z) as -> by lia.
    cbn [Z.pow Z.mul Z.pow_pos Pos.iter]. rewrite round_half_even_whole.
    rewrite Z.mul_1_r.
    replace (2 ^ 1024 <=? Z.abs v)%Z with false
      by (symmetry; apply Z.leb_gt;
          apply Z.lt_trans with (2 ^ 53)%Z; [exact Hv|reflexivity]).
    eexists. split; [reflexivity|].
    cbn [Qmult inject_Z Qnum Qden Pos.mul]. rewrite Z.mul_1_r, Z.quot_1_r.
    apply signed_abs.
  - apply Z.leb_gt in Ee. rewrite round_half_even_whole.
    rewrite (Z.pow_neg_r 2 e Ee), Z.mul_0_r.
    replace (2 ^ 1024 <=? 0)%Z with false by reflexivity.
    eexists. split; [reflexivity|].
    cbn [Qmult Qnum Qden inject_Z Pos.mul]. rewrite Z.mul_1_r.
    assert (Hp : (0 < 2 ^ (- e))%Z) by (apply Z.pow_pos_nonneg; lia).
    rewrite ?Pos.mul_1_l. rewrite Z2Pos.id by exact Hp.
    unfold signed. destruct (v <? 0)%Z eqn:Es.
    + rewrite <- Z.mul_opp_l, Z.quot_mul by lia.
      apply Z.ltb_lt in Es. lia.
    + rewrite Z.quot_mul by lia. apply Z.ltb_ge in Es. lia.
Qed.

Lemma str_int_read (z : Z) :
  exists (neg : bool) (ds : string),
    str_int z = (if neg then String "-" ds else ds)
    /\ forall_chars isdecimal ds = true /\ ds <> ""
    /\ signed neg (digits_value ds) = z.
Proof.
  pose proof (str_int_forms z) as F. destruct z as [|p|p].
  - exists false, "0"%string. rewrite F. repeat split. discriminate.
  - destruct (pos_digits p) as (Hv & Hd & Hn).
    exists false, (NilEmpty.string_of_uint (Pos.to_uint p)).
    rewrite F. repeat split; try assumption.
  - destruct (pos_digits p) as (Hv & Hd & Hn).
    exists true, (NilEmpty.string_of_uint (Pos.to_uint p)).
    rewrite F. repeat split; try assumption. cbn [signed]. now rewrite Hv.
Qed.

(** X27: the INTEGER validation keeps the integers it can hold: a cell
    whose text is the decimal writing of an integer below [2^53] in
    magnitude comes out of [validate_numeric_values] unchanged. *)
Theorem validate_integer_value_keeps (z : Z) :
  (Z.abs z < 2 ^ 53)%Z ->
  validate_integer_value (Str (str_int z)) = Str (str_int z).
Proof.
  intros Hz. destruct (str_int_read z) as (neg & ds & Hs & Hd & Hn & Hv).
  destruct (numeral_read neg ds Hd Hn) as (S1 & S2 & S3 & _ & _ & S6).
  cbn zeta in *. rewrite <- Hs in *.
  unfold validate_integer_value. cbn [safe_isna astype_str].
  rewrite S1, S2, S3, S1. unfold py_float. rewrite S6, Hv.
  destruct (small_integer_exact z Hz) as (q & -> & Hq).
  cbn [int_of_double]. now rewrite Hq.
Qed.

Lemma validate_integer_value_keeps_witness :
  validate_integer_value (Str (str_int (-9007199254740991)))
  = Str (str_int (-9007199254740991)).
Proof. apply validate_integer_value_keeps. vm_compute. reflexivity. Defined.

(** X28: the profiler counts the decimal writing of an integer as an
    integer: when the text has at most 4300 characters, the limit of
    [int], the loop of [analyze_column_types] takes it as an integer and
    not as a float, a date or text. *)
Theorem classify_integer_text (z : Z) :
  String.length (str_int z) <= max_str_digits ->
  classify (str_int z) = AsInt.
Proof.
  intros Hlen. destruct (str_int_read z) as (neg & ds & Hs & Hd & Hn & Hv).
  destruct (numeral_read neg ds Hd Hn) as (S1 & S2 & _ & S4 & S5 & _).
  cbn zeta in *. rewrite <- Hs in *.
  unfold classify. rewrite S1, S2. unfold py_int. rewrite S1, S4, S5.
  rewrite (span_digits_all ds Hd).
  destruct ds as [|c r]; [easy|].
  replace (String.length (String c r) <=? max_str_digits) with true;
    [reflexivity|].
  symmetry. apply Nat.leb_le. rewrite Hs in Hlen.
  destruct neg; cbn [String.length] in *; lia.
Qed.

Lemma classify_integer_text_witness : classify (str_int (-42)) = AsInt.
Proof. apply classify_integer_text. vm_compute. lia. Defined.

(** ** Total rows: what the keywords come to *)

Lemma prefix_app (a h : string) :
  String.prefix a h = true <-> exists s, h = a +:+ s.
Proof.
  revert h. induction a as [|c a IH]; intros h.
  - destruct h; cbn [String.prefix]; split; try easy; intros _.
    + now exists EmptyString.
    + now exists (String a h).
  - destruct h as [|d h]; cbn [String.prefix].
    + split; [discriminate|]. intros (s & H). revert H. now unfold_append.
    + destruct (ascii_dec c d) as [->|N].
      * rewrite IH. split; intros (s & H); exists s.
        -- unfold_append. now rewrite H.
        -- revert H. unfold_append. now intros [= ->].
      * split; [discriminate|]. intros (s & H). revert H. unfold_append.
        intros [= -> _]. now destruct N.
Qed.

Lemma contains_spec (needle hay : string) :
  contains needle hay = true <-> exists p s, hay = p +:+ needle +:+ s.
Proof.
  induction hay as [|c r IH].
  - cbn [contains]. rewrite orb_false_r, prefix_app. split.
    + intros (s & H). exists EmptyString, s. now unfold_append.
    + intros (p & s & H). exists s. destruct p; revert H; now unfold_append.
  - cbn [contains]. rewrite orb_true_iff, prefix_app, IH. split.
    + intros [(s & H) | (p & s & H)].
      * exists EmptyString, s. now unfold_append.
      * exists (String c p), s. unfold_append. now rewrite H.
    + intros (p & s & H). destruct p as [|d p].
      * left. exists s. revert H. now unfold_append.
      * right. exists p, s. revert H. unfold_append. now intros [= _ ->].
Qed.

Lemma contains_trans (a b c : string) :
  contains a b = true -> contains b c = true -> contains a c = true.
Proof.
  rewrite !contains_spec. intros (p & s & ->) (p' & s' & ->).
  exists (p' +:+ p), (s +:+ s'). now rewrite !append_assoc.
Qed.

(** X29: the total keywords come to two.  On text of code points below
    256, where the three Chinese keywords cannot occur, a row is flagged as
    a total row exactly when its joined text has ["total"] or ["sum"]
    somewhere in it: the other keywords of the list all hold one of the
    two, so they add nothing, and a word such as "consumer" flags its
    row. *)
Theorem is_total_two_keywords (row_data : list cell) :
  is_total row_data
  = contains "total" (row_string row_data)
    || contains "sum" (row_string row_data).
Proof.
  unfold is_total, any_keyword, total_keywords.
  set (r := row_string row_data). cbn [existsb]. rewrite orb_false_r.
  apply eq_true_iff_eq. rewrite !orb_true_iff.
  assert (T : forall k, contains "total" k = true ->
                        contains k r = true -> contains "total" r = true)
    by (intros k; apply contains_trans).
  assert (S : forall k, contains "sum" k = true ->
                        contains k r = true -> contains "sum" r = true)
    by (intros k; apply contains_trans).
  split.
  - intros [H|[H|[H|[H|[H|[H|[H|H]]]]]]];
      first [ left; exact H | right; exact H
            | left; refine (T _ _ H); reflexivity
            | right; refine (S _ _ H); reflexivity ].
  - intros [H|H]; [now left|]. do 4 right. now left.
Qed.

(** ** SQL Sanitizer: the shape of the frame *)

Lemma zip_with_same_length {A B C} (f : A -> B -> C) (l : list A) (k : list B) :
  length k = length l -> length (zip_with f l k) = length l.
Proof.
  revert k. induction l as [|a l IH]; intros [|b k] H; try discriminate;
    [reflexivity|].
  cbn [zip_with length]. f_equal. apply IH. now injection H.
Qed.

Lemma set_column_shape (col : string) (values col_data : list cell) (df : frame) :
  get_column col df = Some col_data -> length values = length col_data ->
  columns (set_column col values df) = columns df
  /\ len (set_column col values df) = len df.
Proof.
  intros G L. pose proof (get_column_length col df col_data G) as Hlen.
  unfold get_column in G.
  destruct (column_position col (columns df)) as [i|] eqn:P; [|discriminate].
  unfold set_column. rewrite (column_position_in_list _ _ _ P).
  split; [reflexivity|]. unfold len. cbn [rows].
  apply zip_with_same_length. unfold len in Hlen. lia.
Qed.

Section SanitizerFacts.

Variable to_datetime : string -> option Strptime.datetime.
Variable float_repr : Q -> string.

(** X30: [sanitize_for_sql] rewrites cells and nothing else: the frame it
    returns has the columns and the number of rows of the frame it was
    given, whatever the type analysis says. *)
Theorem sanitize_for_sql_shape (df : frame)
    (type_analysis : gmap string column_profile) :
  columns (sanitize_for_sql to_datetime float_repr df type_analysis)
  = columns df
  /\ len (sanitize_for_sql to_datetime float_repr df type_analysis) = len df.
Proof.
  unfold sanitize_for_sql. destruct (empty df); [easy|].
  generalize (List.filter (fun c => negb (in_list c internal_columns))
                (columns df)).
  intros l. revert df. induction l as [|col l IH]; intros df; [easy|].
  cbn [fold_left].
  destruct (get_column col df) as [col_data|] eqn:G; [|apply IH].
  destruct (set_column_shape col
              (map (sanitize_value to_datetime float_repr
                      (recommended_for type_analysis col)) col_data)
              col_data df G (length_map _ _)) as [Hc Hl].
  destruct (IH (set_column col
                  (map (sanitize_value to_datetime float_repr
                          (recommended_for type_analysis col)) col_data) df))
    as [Hc' Hl'].
  split; congruence.
Qed.

End SanitizerFacts.
